(** * The prompt-to-model page of the 3D model generator

    A shallow embedding of [frontend/app/page.tsx] (the [Home] component):
    the generation handler [handleGenerate], the transform setters
    [updatePosition], [updateScale], [updateRotation], [resetTransforms],
    and the camera fit that runs after a successful generation.

    JavaScript numbers are IEEE-754 binary64 values, modelled by Rocq's
    primitive floats.  JavaScript strings are sequences of UTF-16 code
    units.  The browser and three.js functions the page calls are taken as
    an interface ([Externals]); everything the page itself does is
    transcribed statement by statement.

    The number fields of the transform panel, the STL export
    ([handleExport]), the chat panel and the pages behind the login are
    embedded after the component.

    Of the effect that builds the scene, the renderer is kept as far as
    the effect's cleanup acts on it (its canvas in the container, its
    disposal), and the animation loop as far as it writes the camera,
    through [controls.update()].  Left out: the resize handler, the
    colours of the theme, the pixels the renderer draws, the pointer
    gestures that the orbit control turns into pending rotation, zoom and
    pan, the turns that the animation loop of an effect already cleaned
    up keeps taking on the camera and control of that effect, which no
    ref holds any more, and the decorative workspace scene. *)

From Stdlib Require Import ZArith NArith List String Ascii Bool Lia.
From Stdlib Require Import Floats.
From Stdlib Require DecimalString DecimalN Sorted.
Import ListNotations.

Set Implicit Arguments.
#[local] Set Warnings "-inexact-float".

(** ** JavaScript values *)

Module JS.

(** A JavaScript string: its UTF-16 code units. *)
Definition jsstring : Type := list N.

(** An ASCII literal as a JavaScript string. *)
Definition js (s : string) : jsstring :=
  List.map N_of_ascii (list_ascii_of_string s).

(** ECMAScript WhiteSpace and LineTerminator code points, the characters
    that [String.prototype.trim] strips. *)
Definition isWhiteSpace (c : N) : bool :=
  (  (c =? 0x0009) || (c =? 0x000A) || (c =? 0x000B) || (c =? 0x000C)
  || (c =? 0x000D) || (c =? 0x0020) || (c =? 0x00A0) || (c =? 0x1680)
  || ((0x2000 <=? c) && (c <=? 0x200A))
  || (c =? 0x2028) || (c =? 0x2029) || (c =? 0x202F) || (c =? 0x205F)
  || (c =? 0x3000) || (c =? 0xFEFF))%N.

Fixpoint trimStart (s : jsstring) : jsstring :=
  match s with
  | [] => []
  | c :: r => if isWhiteSpace c then trimStart r else s
  end.

Definition trimEnd (s : jsstring) : jsstring := rev (trimStart (rev s)).

(** [s.trim()] *)
Definition trim (s : jsstring) : jsstring := trimEnd (trimStart s).

(** ToBoolean on a string: only the empty string is falsy. *)
Definition truthy (s : jsstring) : bool :=
  match s with [] => false | _ :: _ => true end.

(** ToBoolean on [string | null]. *)
Definition truthy_opt (o : option jsstring) : bool :=
  match o with None => false | Some s => truthy s end.

(** What a [catch (err)] clause can receive: an [Error] instance with its
    message, or any other thrown value. *)
Inductive Thrown : Type :=
| ErrorObject (message : jsstring)
| OtherValue.

(** [err instanceof Error ? err.message : 'Unknown error'] *)
Definition messageOf (err : Thrown) : jsstring :=
  match err with
  | ErrorObject m => m
  | OtherValue => js "Unknown error"
  end.

(** [Math.PI] *)
Definition Math_PI : float := 3.141592653589793%float.

(** [Math.abs] *)
Definition Math_abs (v : float) : float := PrimFloat.abs v.

Definition is_pos_zero (v : float) : bool :=
  match classify v with PZero => true | _ => false end.

Definition is_neg_zero (v : float) : bool :=
  match classify v with NZero => true | _ => false end.

(** [Math.max(...args)], as ECMAScript defines it: start from -Infinity;
    a NaN argument makes the result NaN; +0 beats -0; a strictly larger
    argument replaces the running maximum. *)
Fixpoint Math_max_from (highest : float) (args : list float) : float :=
  match args with
  | [] => highest
  | number :: rest =>
      if is_nan number then nan
      else
        let highest :=
          if is_pos_zero number && is_neg_zero highest then number
          else highest in
        let highest := if (highest <? number)%float then number else highest in
        Math_max_from highest rest
  end.

Definition Math_max (args : list float) : float :=
  Math_max_from neg_infinity args.

(** A number that is neither NaN nor an infinity ([Number.isFinite]). *)
Definition isFinite (v : float) : bool := PrimFloat.is_finite v.

(** [Uint8Array.from(binary, c => c.charCodeAt(0))]: each code unit is
    stored modulo 256. *)
Definition Uint8Array_from (binary : jsstring) : list N :=
  List.map (fun c => (c mod 256)%N) binary.

End JS.

(** ** The slice of three.js the page touches *)

Module THREE.

(** Identity of a GPU-backed resource (a geometry or a material), the
    thing [dispose()] releases. *)
Definition ResId : Type := nat.

Record Vector3 : Type := { x : float; y : float; z : float }.

Definition vec (a b c : float) : Vector3 := {| x := a; y := b; z := c |}.

(** [Object3D]: the part every scene object shares.  [rotation] is the
    Euler triple in radians. *)
Record Object3D : Type := {
  id : nat;
  position : Vector3;
  rotation : Vector3;
  scale : Vector3
}.

(** A freshly constructed object: at the origin, unrotated, unit scale. *)
Definition new_Object3D (i : nat) : Object3D :=
  {| id := i; position := vec 0 0 0; rotation := vec 0 0 0;
     scale := vec 1 1 1 |}.

(** A [BufferGeometry]: its identity as a GPU resource and its vertex
    data, whose representation [G] belongs to three.js. *)
Record BufferGeometry (G : Type) : Type := {
  geometry_id : ResId;
  attributes : G
}.

Inductive Material : Type :=
| MeshStandardMaterial (mid : ResId) (color : N) (metalness roughness : float)
    (flatShading : bool)
| LineBasicMaterial (mid : ResId) (color : N) (linewidth : float).

Definition material_id (m : Material) : ResId :=
  match m with
  | MeshStandardMaterial i _ _ _ _ => i
  | LineBasicMaterial i _ _ => i
  end.

(** The wireframe overlay: [new THREE.LineSegments(edges, lineMaterial)]. *)
Record LineSegments (G : Type) : Type := {
  line_base : Object3D;
  line_geometry : BufferGeometry G;
  line_material : Material
}.

Record Mesh (G : Type) : Type := {
  base : Object3D;
  geometry : BufferGeometry G;
  material : Material;
  children : list (LineSegments G)
}.

Record PerspectiveCamera : Type := {
  camera_base : Object3D;
  fov : float;
  near : float;
  far : float;
  (** argument of the last [lookAt] call, if any *)
  lookingAt : option Vector3
}.

(** An [OrbitControls]: the point the camera orbits, the flags the page
    sets, and what the control keeps between two calls of [update()]: the
    rotation (two angles), the zoom factor and the pan that pointer
    gestures have asked for and [update()] has not spent yet. *)
Record OrbitControls : Type := {
  target : Vector3;
  enableDamping : bool;
  autoRotate : bool;
  enableRotate : bool;
  enablePan : bool;
  enableZoom : bool;
  sphericalDelta : float * float;
  zoomScale : float;
  panOffset : Vector3
}.

(** A [WebGLRenderer]: whether its canvas ([domElement]) is a child of
    the page's container, and whether [dispose()] has released it. *)
Record WebGLRenderer : Type := {
  attached : bool;
  renderer_disposed : bool
}.

(** What the scene holds: the fixed furniture and references to meshes. *)
Inductive SceneChild : Type :=
| AmbientLight
| DirectionalLight
| GridHelper
| AxesHelper
| MeshObject (mesh_id : nat).

Record Scene : Type := { scene_children : list SceneChild }.

Definition is_mesh_child (i : nat) (c : SceneChild) : bool :=
  match c with MeshObject j => Nat.eqb i j | _ => false end.

(** [scene.remove(object)]: drops the first reference to the object, if
    the scene holds one. *)
Fixpoint remove_child (i : nat) (cs : list SceneChild) : list SceneChild :=
  match cs with
  | [] => []
  | c :: r => if is_mesh_child i c then r else c :: remove_child i r
  end.

Definition Scene_remove (i : nat) (s : Scene) : Scene :=
  {| scene_children := remove_child i (scene_children s) |}.

(** [scene.add(object)] for an object that has no parent yet. *)
Definition Scene_add (c : SceneChild) (s : Scene) : Scene :=
  {| scene_children := scene_children s ++ [c] |}.

(** The generated meshes a scene displays. *)
Definition scene_meshes (s : Scene) : list nat :=
  flat_map (fun c => match c with MeshObject i => [i] | _ => [] end)
    (scene_children s).

(** Object3D setters, [o.position.set(a, b, c)] and friends. *)
Definition position_set (a b c : float) (o : Object3D) : Object3D :=
  {| id := id o; position := vec a b c; rotation := rotation o;
     scale := scale o |}.

Definition scale_set (a b c : float) (o : Object3D) : Object3D :=
  {| id := id o; position := position o; rotation := rotation o;
     scale := vec a b c |}.

Definition rotation_set (a b c : float) (o : Object3D) : Object3D :=
  {| id := id o; position := position o; rotation := vec a b c;
     scale := scale o |}.

Definition map_base {G : Type} (f : Object3D -> Object3D) (m : Mesh G)
  : Mesh G :=
  {| base := f (base m); geometry := geometry m; material := material m;
     children := children m |}.

(** Every GPU resource a mesh owns: its geometry and material and those
    of each child overlay. *)
Definition mesh_resources {G : Type} (m : Mesh G) : list ResId :=
  geometry_id (geometry m) :: material_id (material m)
  :: flat_map (fun l => [geometry_id (line_geometry l);
                         material_id (line_material l)]) (children m).

End THREE.

(** ** The generation endpoint *)

Module Api.

(** The object passed to [JSON.stringify] as the request body. *)
Record Request : Type := {
  prompt : JS.jsstring;
  current_stl_data : option JS.jsstring;
  current_code : option JS.jsstring
}.

(** The JSON body of a success response, with both fields strings as
    the endpoint sends them. *)
Record GenerateResponse : Type := {
  stl_data : JS.jsstring;
  openscad_code : JS.jsstring
}.

(** How [await fetch(...)] and the reads of the response can end: the
    request fails, the response is not ok and [response.text()] yields its
    body, [response.json()] fails, or it yields the success body. *)
Inductive FetchOutcome : Type :=
| FetchRejected (err : JS.Thrown)
| ResponseNotOk (errorText : JS.jsstring)
| ResponseBadJson (err : JS.Thrown)
| ResponseOk (data : GenerateResponse).

End Api.

(** ** Browser and three.js functions

    The functions the page calls but does not define.  [atob] and
    [STLLoader.parse] may throw; the geometry operations work on the
    vertex data [G]; [Box3_getSize m] stands for
    [new THREE.Box3().setFromObject(m).getSize(new THREE.Vector3())].
    [OrbitControls_new camera] stands for
    [new OrbitControls(camera, domElement)], whose constructor ends with a
    call of [update()], and [OrbitControls_update controls camera] for
    [controls.update()] on a control that drives [camera]: both write the
    camera (its position, recomputed from spherical coordinates around the
    target, and its orientation) as well as the control. *)

Class Externals (G : Type) : Type := {
  atob : JS.jsstring -> JS.Thrown + JS.jsstring;
  STLLoader_parse : list N -> JS.Thrown + G;
  boundingBox_getCenter : G -> THREE.Vector3;
  translate : float -> float -> float -> G -> G;
  computeVertexNormals : G -> G;
  EdgesGeometry : G -> G;
  Box3_getSize : THREE.Mesh G -> THREE.Vector3;
  Math_tan : float -> float;
  OrbitControls_new :
    THREE.PerspectiveCamera -> THREE.OrbitControls * THREE.PerspectiveCamera;
  OrbitControls_update :
    THREE.OrbitControls -> THREE.PerspectiveCamera ->
    THREE.OrbitControls * THREE.PerspectiveCamera
}.

(** A test double for the interface, used to run the page on concrete
    inputs.  [atob] is the forgiving-base64 decoder of the HTML Standard.
    Vertex data is a list of points.  [STLLoader.parse] throws on a buffer
    too short to hold the 84-byte header of a binary STL file (three.js
    throws a RangeError there) and otherwise yields the geometry without
    vertices, which is what three.js returns for the 84 zero bytes of a
    binary STL file with no triangle, the only other buffer parsed below;
    the bounding box of that geometry is empty, its centre and its size
    are (0,0,0).  [Math.tan] returns a double next to tan(37.5 degrees),
    the tangent of the only argument the page passes.  The controls the
    double is run on have nothing pending: there [update()] leaves the
    control as it is and aims the camera at the target; the double leaves
    the camera where it is, where three.js recomputes the position from
    spherical coordinates, which moves it by a rounding error at most. *)
Module Double.

Definition isAsciiWhitespace (c : N) : bool :=
  ((c =? 0x09) || (c =? 0x0A) || (c =? 0x0C) || (c =? 0x0D) || (c =? 0x20))%N.

(** The value of a character of the base64 alphabet. *)
Definition sextet (c : N) : option N :=
  (if (0x41 <=? c) && (c <=? 0x5A) then Some (c - 0x41)
   else if (0x61 <=? c) && (c <=? 0x7A) then Some (c - 0x61 + 26)
   else if (0x30 <=? c) && (c <=? 0x39) then Some (c - 0x30 + 52)
   else if c =? 0x2B then Some 62
   else if c =? 0x2F then Some 63
   else None)%N.

Fixpoint sextets (s : JS.jsstring) : option (list N) :=
  match s with
  | [] => Some []
  | c :: r =>
      match sextet c, sextets r with
      | Some v, Some vs => Some (v :: vs)
      | _, _ => None
      end
  end.

(** Four sextets make three bytes; a tail of three makes two, a tail of
    two makes one, the spare bits are dropped. *)
Fixpoint octets (vs : list N) : list N :=
  match vs with
  | a :: b :: c :: d :: r =>
      (a * 4 + b / 16)%N :: ((b mod 16) * 16 + c / 4)%N
      :: ((c mod 4) * 64 + d)%N :: octets r
  | [a; b; c] => [(a * 4 + b / 16)%N; ((b mod 16) * 16 + c / 4)%N]
  | [a; b] => [(a * 4 + b / 16)%N]
  | _ => []
  end.

(** Up to two trailing ['='] are dropped when the length is a multiple
    of four. *)
Definition strip_padding (s : JS.jsstring) : JS.jsstring :=
  if Nat.eqb (Nat.modulo (List.length s) 4) 0 then
    match rev s with
    | 0x3D%N :: 0x3D%N :: r => rev r
    | 0x3D%N :: r => rev r
    | _ => s
    end
  else s.

Definition invalidCharacterError : JS.Thrown :=
  JS.ErrorObject (JS.js "The string to be decoded is not correctly encoded.").

Definition atob (data : JS.jsstring) : JS.Thrown + JS.jsstring :=
  let data := filter (fun c => negb (isAsciiWhitespace c)) data in
  let data := strip_padding data in
  if Nat.eqb (Nat.modulo (List.length data) 4) 1 then inl invalidCharacterError
  else
    match sextets data with
    | Some vs => inr (octets vs)
    | None => inl invalidCharacterError
    end.

Definition STLLoader_parse (bytes : list N)
  : JS.Thrown + list THREE.Vector3 :=
  if Nat.ltb (List.length bytes) 84
  then inl (JS.ErrorObject (JS.js "Offset is outside the bounds of the DataView"))
  else inr [].

Definition lookAt (v : THREE.Vector3) (camera : THREE.PerspectiveCamera)
  : THREE.PerspectiveCamera :=
  {| THREE.camera_base := THREE.camera_base camera;
     THREE.fov := THREE.fov camera; THREE.near := THREE.near camera;
     THREE.far := THREE.far camera; THREE.lookingAt := Some v |}.

Definition OrbitControls_update (controls : THREE.OrbitControls)
  (camera : THREE.PerspectiveCamera)
  : THREE.OrbitControls * THREE.PerspectiveCamera :=
  (controls, lookAt (THREE.target controls) camera).

(** The defaults of a new control: target at the origin, every flag but
    damping and auto-rotation on, nothing pending. *)
Definition OrbitControls_new (camera : THREE.PerspectiveCamera)
  : THREE.OrbitControls * THREE.PerspectiveCamera :=
  OrbitControls_update
    {| THREE.target := THREE.vec 0 0 0;
       THREE.enableDamping := false; THREE.autoRotate := false;
       THREE.enableRotate := true; THREE.enablePan := true;
       THREE.enableZoom := true;
       THREE.sphericalDelta := (0, 0)%float; THREE.zoomScale := 1;
       THREE.panOffset := THREE.vec 0 0 0 |}
    camera.

Definition externals : Externals (list THREE.Vector3) :=
  Build_Externals
    atob
    STLLoader_parse
    (* boundingBox_getCenter *) (fun _ => THREE.vec 0 0 0)
    (* translate *) (fun _ _ _ g => g)
    (* computeVertexNormals *) (fun g => g)
    (* EdgesGeometry *) (fun g => g)
    (* Box3_getSize *) (fun _ => THREE.vec 0 0 0)
    (* Math_tan *) (fun _ => 0.7673269879789604%float)
    OrbitControls_new
    OrbitControls_update.

(** Base64 of a binary STL file with no triangle: 112 times ['A'],
    84 zero bytes. *)
Definition emptyStl : JS.jsstring := repeat 0x41%N 112.

(** Base64 of three zero bytes, too short to be an STL file. *)
Definition shortStl : JS.jsstring := JS.js "AAAA".

End Double.

(** ** The [Home] component *)

Section Home.

Context {G : Type} `{!Externals G}.

Inductive Axis : Type := X | Y | Z.

(** [{ ...v, [axis]: value }] *)
Definition with_axis (v : THREE.Vector3) (axis : Axis) (value : float)
  : THREE.Vector3 :=
  match axis with
  | X => THREE.vec value (THREE.y v) (THREE.z v)
  | Y => THREE.vec (THREE.x v) value (THREE.z v)
  | Z => THREE.vec (THREE.x v) (THREE.y v) value
  end.

(** [v[axis]] *)
Definition component (v : THREE.Vector3) (axis : Axis) : float :=
  match axis with
  | X => THREE.x v
  | Y => THREE.y v
  | Z => THREE.z v
  end.

(** Everything the component owns: the [useState] cells, the [useRef]
    cells, and the part of the outside world it acts on: which geometries
    and materials were disposed, the next fresh object identity, the
    requests sent to the generation endpoint, and how many still await a
    response.  The container [canvasRef] refers to is part of what the
    page renders and always there; what it holds is recorded with the
    renderer. *)
Record World : Type := {
  prompt : JS.jsstring;
  generatedCode : JS.jsstring;
  loading : bool;
  error : option JS.jsstring;
  currentStlData : option JS.jsstring;
  position : THREE.Vector3;
  scale : THREE.Vector3;
  rotation : THREE.Vector3;
  isDarkMode : bool;
  sceneRef : option THREE.Scene;
  rendererRef : option THREE.WebGLRenderer;
  cameraRef : option THREE.PerspectiveCamera;
  controlsRef : option THREE.OrbitControls;
  meshRef : option (THREE.Mesh G);
  disposed : list THREE.ResId;
  next_id : THREE.ResId;
  fetches : list Api.Request;
  inflight : nat
}.

(** The [useState] setters, and the writes to the [useRef] cells and to
    the outside world. *)
Definition setPrompt (v : JS.jsstring) (w : World) : World :=
  {| prompt := v; generatedCode := generatedCode w; loading := loading w;
     error := error w; currentStlData := currentStlData w;
     position := position w; scale := scale w; rotation := rotation w;
     isDarkMode := isDarkMode w; sceneRef := sceneRef w;
     rendererRef := rendererRef w;
     cameraRef := cameraRef w; controlsRef := controlsRef w;
     meshRef := meshRef w; disposed := disposed w; next_id := next_id w;
     fetches := fetches w; inflight := inflight w |}.

Definition setGeneratedCode (v : JS.jsstring) (w : World) : World :=
  {| prompt := prompt w; generatedCode := v; loading := loading w;
     error := error w; currentStlData := currentStlData w;
     position := position w; scale := scale w; rotation := rotation w;
     isDarkMode := isDarkMode w; sceneRef := sceneRef w;
     rendererRef := rendererRef w;
     cameraRef := cameraRef w; controlsRef := controlsRef w;
     meshRef := meshRef w; disposed := disposed w; next_id := next_id w;
     fetches := fetches w; inflight := inflight w |}.

Definition setLoading (v : bool) (w : World) : World :=
  {| prompt := prompt w; generatedCode := generatedCode w; loading := v;
     error := error w; currentStlData := currentStlData w;
     position := position w; scale := scale w; rotation := rotation w;
     isDarkMode := isDarkMode w; sceneRef := sceneRef w;
     rendererRef := rendererRef w;
     cameraRef := cameraRef w; controlsRef := controlsRef w;
     meshRef := meshRef w; disposed := disposed w; next_id := next_id w;
     fetches := fetches w; inflight := inflight w |}.

Definition setError (v : option JS.jsstring) (w : World) : World :=
  {| prompt := prompt w; generatedCode := generatedCode w;
     loading := loading w; error := v; currentStlData := currentStlData w;
     position := position w; scale := scale w; rotation := rotation w;
     isDarkMode := isDarkMode w; sceneRef := sceneRef w;
     rendererRef := rendererRef w;
     cameraRef := cameraRef w; controlsRef := controlsRef w;
     meshRef := meshRef w; disposed := disposed w; next_id := next_id w;
     fetches := fetches w; inflight := inflight w |}.

Definition setCurrentStlData (v : option JS.jsstring) (w : World) : World :=
  {| prompt := prompt w; generatedCode := generatedCode w;
     loading := loading w; error := error w; currentStlData := v;
     position := position w; scale := scale w; rotation := rotation w;
     isDarkMode := isDarkMode w; sceneRef := sceneRef w;
     rendererRef := rendererRef w;
     cameraRef := cameraRef w; controlsRef := controlsRef w;
     meshRef := meshRef w; disposed := disposed w; next_id := next_id w;
     fetches := fetches w; inflight := inflight w |}.

Definition setPosition (v : THREE.Vector3) (w : World) : World :=
  {| prompt := prompt w; generatedCode := generatedCode w;
     loading := loading w; error := error w;
     currentStlData := currentStlData w; position := v; scale := scale w;
     rotation := rotation w; isDarkMode := isDarkMode w;
     sceneRef := sceneRef w; rendererRef := rendererRef w;
     cameraRef := cameraRef w; controlsRef := controlsRef w;
     meshRef := meshRef w;
     disposed := disposed w; next_id := next_id w; fetches := fetches w;
     inflight := inflight w |}.

Definition setScale (v : THREE.Vector3) (w : World) : World :=
  {| prompt := prompt w; generatedCode := generatedCode w;
     loading := loading w; error := error w;
     currentStlData := currentStlData w; position := position w; scale := v;
     rotation := rotation w; isDarkMode := isDarkMode w;
     sceneRef := sceneRef w; rendererRef := rendererRef w;
     cameraRef := cameraRef w; controlsRef := controlsRef w;
     meshRef := meshRef w;
     disposed := disposed w; next_id := next_id w; fetches := fetches w;
     inflight := inflight w |}.

Definition setRotation (v : THREE.Vector3) (w : World) : World :=
  {| prompt := prompt w; generatedCode := generatedCode w;
     loading := loading w; error := error w;
     currentStlData := currentStlData w; position := position w;
     scale := scale w; rotation := v; isDarkMode := isDarkMode w;
     sceneRef := sceneRef w; rendererRef := rendererRef w;
     cameraRef := cameraRef w; controlsRef := controlsRef w;
     meshRef := meshRef w;
     disposed := disposed w; next_id := next_id w; fetches := fetches w;
     inflight := inflight w |}.

Definition setIsDarkMode (v : bool) (w : World) : World :=
  {| prompt := prompt w; generatedCode := generatedCode w;
     loading := loading w; error := error w;
     currentStlData := currentStlData w; position := position w;
     scale := scale w; rotation := rotation w; isDarkMode := v;
     sceneRef := sceneRef w; rendererRef := rendererRef w;
     cameraRef := cameraRef w; controlsRef := controlsRef w;
     meshRef := meshRef w;
     disposed := disposed w; next_id := next_id w; fetches := fetches w;
     inflight := inflight w |}.

Definition set_sceneRef (v : option THREE.Scene) (w : World) : World :=
  {| prompt := prompt w; generatedCode := generatedCode w;
     loading := loading w; error := error w;
     currentStlData := currentStlData w; position := position w;
     scale := scale w; rotation := rotation w; isDarkMode := isDarkMode w;
     sceneRef := v; rendererRef := rendererRef w;
     cameraRef := cameraRef w; controlsRef := controlsRef w;
     meshRef := meshRef w; disposed := disposed w; next_id := next_id w;
     fetches := fetches w; inflight := inflight w |}.

Definition set_rendererRef (v : option THREE.WebGLRenderer) (w : World) : World :=
  {| prompt := prompt w; generatedCode := generatedCode w;
     loading := loading w; error := error w;
     currentStlData := currentStlData w; position := position w;
     scale := scale w; rotation := rotation w; isDarkMode := isDarkMode w;
     sceneRef := sceneRef w; rendererRef := v;
     cameraRef := cameraRef w; controlsRef := controlsRef w;
     meshRef := meshRef w; disposed := disposed w; next_id := next_id w;
     fetches := fetches w; inflight := inflight w |}.

Definition set_cameraRef (v : option THREE.PerspectiveCamera) (w : World) : World :=
  {| prompt := prompt w; generatedCode := generatedCode w;
     loading := loading w; error := error w;
     currentStlData := currentStlData w; position := position w;
     scale := scale w; rotation := rotation w; isDarkMode := isDarkMode w;
     sceneRef := sceneRef w; rendererRef := rendererRef w;
     cameraRef := v; controlsRef := controlsRef w;
     meshRef := meshRef w; disposed := disposed w; next_id := next_id w;
     fetches := fetches w; inflight := inflight w |}.

Definition set_controlsRef (v : option THREE.OrbitControls) (w : World) : World :=
  {| prompt := prompt w; generatedCode := generatedCode w;
     loading := loading w; error := error w;
     currentStlData := currentStlData w; position := position w;
     scale := scale w; rotation := rotation w; isDarkMode := isDarkMode w;
     sceneRef := sceneRef w; rendererRef := rendererRef w;
     cameraRef := cameraRef w; controlsRef := v;
     meshRef := meshRef w; disposed := disposed w; next_id := next_id w;
     fetches := fetches w; inflight := inflight w |}.

Definition set_meshRef (v : option (THREE.Mesh G)) (w : World) : World :=
  {| prompt := prompt w; generatedCode := generatedCode w;
     loading := loading w; error := error w;
     currentStlData := currentStlData w; position := position w;
     scale := scale w; rotation := rotation w; isDarkMode := isDarkMode w;
     sceneRef := sceneRef w; rendererRef := rendererRef w;
     cameraRef := cameraRef w;
     controlsRef := controlsRef w; meshRef := v; disposed := disposed w;
     next_id := next_id w; fetches := fetches w; inflight := inflight w |}.

Definition set_disposed (v : list THREE.ResId) (w : World) : World :=
  {| prompt := prompt w; generatedCode := generatedCode w;
     loading := loading w; error := error w;
     currentStlData := currentStlData w; position := position w;
     scale := scale w; rotation := rotation w; isDarkMode := isDarkMode w;
     sceneRef := sceneRef w; rendererRef := rendererRef w;
     cameraRef := cameraRef w; controlsRef := controlsRef w;
     meshRef := meshRef w; disposed := v;
     next_id := next_id w; fetches := fetches w; inflight := inflight w |}.

Definition set_next_id (v : THREE.ResId) (w : World) : World :=
  {| prompt := prompt w; generatedCode := generatedCode w;
     loading := loading w; error := error w;
     currentStlData := currentStlData w; position := position w;
     scale := scale w; rotation := rotation w; isDarkMode := isDarkMode w;
     sceneRef := sceneRef w; rendererRef := rendererRef w;
     cameraRef := cameraRef w; controlsRef := controlsRef w;
     meshRef := meshRef w;
     disposed := disposed w; next_id := v; fetches := fetches w;
     inflight := inflight w |}.

Definition set_fetches (v : list Api.Request) (w : World) : World :=
  {| prompt := prompt w; generatedCode := generatedCode w;
     loading := loading w; error := error w;
     currentStlData := currentStlData w; position := position w;
     scale := scale w; rotation := rotation w; isDarkMode := isDarkMode w;
     sceneRef := sceneRef w; rendererRef := rendererRef w;
     cameraRef := cameraRef w; controlsRef := controlsRef w;
     meshRef := meshRef w;
     disposed := disposed w; next_id := next_id w; fetches := v;
     inflight := inflight w |}.

Definition set_inflight (v : nat) (w : World) : World :=
  {| prompt := prompt w; generatedCode := generatedCode w;
     loading := loading w; error := error w;
     currentStlData := currentStlData w; position := position w;
     scale := scale w; rotation := rotation w; isDarkMode := isDarkMode w;
     sceneRef := sceneRef w; rendererRef := rendererRef w;
     cameraRef := cameraRef w; controlsRef := controlsRef w;
     meshRef := meshRef w;
     disposed := disposed w; next_id := next_id w; fetches := fetches w;
     inflight := v |}.


(** *** Statements that may throw

    A block of statements is a function from the world to an outcome,
    normal or thrown, and the world it leaves behind. *)

Definition M (A : Type) : Type := World -> (JS.Thrown + A) * World.

Definition ret {A : Type} (a : A) : M A := fun w => (inr a, w).

Definition bind {A B : Type} (m : M A) (k : A -> M B) : M B :=
  fun w =>
    match m w with
    | (inl err, w') => (inl err, w')
    | (inr a, w') => k a w'
    end.

Definition throw {A : Type} (err : JS.Thrown) : M A :=
  fun w => (inl err, w).

Definition modify (f : World -> World) : M unit := fun w => (inr tt, f w).

Definition gets {A : Type} (f : World -> A) : M A := fun w => (inr (f w), w).

(** The result of a call that may throw. *)
Definition lift {A : Type} (r : JS.Thrown + A) : M A := fun w => (r, w).

Notation "x <- c ;; k" := (bind c (fun x => k))
  (at level 61, c at next level, right associativity).
Notation "c ;; k" := (bind c (fun _ => k))
  (at level 61, right associativity).

(** [try { body } catch (err) { handler } finally { finalizer }], for a
    handler and a finalizer that do not throw themselves. *)
Definition try_catch_finally (body : M unit) (handler : JS.Thrown -> World -> World)
  (finalizer : World -> World) : World -> World :=
  fun w =>
    match body w with
    | (inr _, w') => finalizer w'
    | (inl err, w') => finalizer (handler err w')
    end.

(** A fresh identity for a newly constructed object or GPU resource. *)
Definition fresh : M nat :=
  fun w => (inr (next_id w), set_next_id (S (next_id w)) w).

(** *** Mounting: the [useEffect] that builds the scene (lines 28-110) *)

(** One turn of the animation loop (lines 88-92): [controls.update()] on
    the control and the camera of the mounted effect, which are the ones
    the refs hold.  Rendering the frame writes nothing the page reads. *)
Definition animate (w : World) : World :=
  match controlsRef w, cameraRef w with
  | Some controls, Some camera =>
      let updated := OrbitControls_update controls camera in
      set_controlsRef (Some (fst updated)) (set_cameraRef (Some (snd updated)) w)
  | _, _ => w
  end.

(** Lines 56-61: the flags the page sets on the new control. *)
Definition configure (controls : THREE.OrbitControls) : THREE.OrbitControls :=
  {| THREE.target := THREE.target controls;
     THREE.enableDamping := true; THREE.autoRotate := false;
     THREE.enableRotate := true; THREE.enablePan := true;
     THREE.enableZoom := true;
     THREE.sphericalDelta := THREE.sphericalDelta controls;
     THREE.zoomScale := THREE.zoomScale controls;
     THREE.panOffset := THREE.panOffset controls |}.

Definition useEffect_setup : M unit :=
  (* scene, with its lights, grid and axis helper *)
  let scene :=
    {| THREE.scene_children :=
         [THREE.AmbientLight; THREE.DirectionalLight; THREE.DirectionalLight;
          THREE.GridHelper; THREE.AxesHelper] |} in
  modify (set_sceneRef (Some scene)) ;;
  cid <- fresh ;;
  let camera :=
    {| THREE.camera_base := THREE.position_set 30 30 30 (THREE.new_Object3D cid);
       THREE.fov := 75; THREE.near := 0.1; THREE.far := 10000;
       THREE.lookingAt := None |} in
  modify (set_cameraRef (Some camera)) ;;
  (* renderer, its canvas appended to the container *)
  let renderer :=
    {| THREE.attached := true; THREE.renderer_disposed := false |} in
  modify (set_rendererRef (Some renderer)) ;;
  (* orbit controls: the constructor writes the camera as well *)
  let made := OrbitControls_new camera in
  modify (set_cameraRef (Some (snd made))) ;;
  modify (set_controlsRef (Some (configure (fst made)))) ;;
  (* first turn of the animation loop *)
  modify animate.

(** The cleanup the effect returns (lines 105-109): the renderer of the
    effect, which is the one [rendererRef] holds, is disposed and its
    canvas taken out of the container. *)
Definition useEffect_cleanup (w : World) : World :=
  match rendererRef w with
  | Some renderer =>
      let renderer :=
        {| THREE.attached := THREE.attached renderer;
           THREE.renderer_disposed := true |} in
      let renderer :=
        {| THREE.attached := false;
           THREE.renderer_disposed := THREE.renderer_disposed renderer |} in
      set_rendererRef (Some renderer) w
  | None => w
  end.

(** *** [handleGenerate] (lines 113-223) *)

(** [fetch(url, { method: 'POST', body: JSON.stringify(requestBody) })]:
    one more request sent, one more awaiting its response. *)
Definition fetch (requestBody : Api.Request) (w : World) : World :=
  set_inflight (S (inflight w)) (set_fetches (fetches w ++ [requestBody]) w).

(** Lines 125-131.  The state the handler reads ([prompt],
    [currentStlData], [generatedCode]) is the state of the render the
    handler belongs to, that is the world it is called in: the setter
    calls before it take effect with the next render only. *)
Definition requestBody (w : World) : Api.Request :=
  let requestBody :=
    {| Api.prompt := prompt w; Api.current_stl_data := None;
       Api.current_code := None |} in
  if JS.truthy_opt (currentStlData w) && JS.truthy (generatedCode w) then
    {| Api.prompt := Api.prompt requestBody;
       Api.current_stl_data := currentStlData w;
       Api.current_code := Some (generatedCode w) |}
  else requestBody.

(** The synchronous part of a call, up to [await fetch(...)]
    (lines 114-139). *)
Definition handleGenerate_call (w : World) : World :=
  if negb (JS.truthy (JS.trim (prompt w))) then
    setError (Some (JS.js "Please enter a description")) w
  else
    let w1 := setLoading true w in
    let w2 := setError None w1 in
    let w3 := setGeneratedCode (JS.js "") w2 in
    fetch (requestBody w) w3.

(** Lines 133-147: what the awaits deliver, or throw. *)
Definition receive (outcome : Api.FetchOutcome) : M Api.GenerateResponse :=
  match outcome with
  | Api.FetchRejected err => throw err
  | Api.ResponseNotOk errorText => throw (JS.ErrorObject errorText)
  | Api.ResponseBadJson err => throw err
  | Api.ResponseOk data => ret data
  end.

(** Lines 156-161: clear the previous mesh. *)
Definition clearPreviousMesh : M unit :=
  fun w =>
    match meshRef w, sceneRef w with
    | Some mesh, Some scene =>
        let w1 :=
          set_sceneRef
            (Some (THREE.Scene_remove (THREE.id (THREE.base mesh)) scene)) w in
        let w2 :=
          set_disposed
            (disposed w1 ++ [THREE.geometry_id (THREE.geometry mesh)]) w1 in
        let w3 :=
          set_disposed
            (disposed w2 ++ [THREE.material_id (THREE.material mesh)]) w2 in
        (inr tt, w3)
    | _, _ => (inr tt, w)
    end.

(** Lines 163-173: parse the STL bytes into a new geometry and centre it.
    [computeBoundingBox] always leaves a bounding box, so the guarded
    translation always runs. *)
Definition loadGeometry (stlBinary : list N) : M (THREE.BufferGeometry G) :=
  data <- lift (STLLoader_parse stlBinary) ;;
  gid <- fresh ;;
  let center := boundingBox_getCenter data in
  let data :=
    translate (- THREE.x center) (- THREE.y center) (- THREE.z center) data in
  ret {| THREE.geometry_id := gid; THREE.attributes := data |}.

(** Lines 175-193: the mesh, its material and its wireframe overlay.
    [computeVertexNormals] runs on the geometry object the mesh already
    refers to, so the mesh sees its result. *)
Definition buildMesh (geometry : THREE.BufferGeometry G) : M (THREE.Mesh G) :=
  mid <- fresh ;;
  let material := THREE.MeshStandardMaterial mid 0xa0a0a0 0.2 0.5 false in
  oid <- fresh ;;
  let geometry :=
    {| THREE.geometry_id := THREE.geometry_id geometry;
       THREE.attributes := computeVertexNormals (THREE.attributes geometry) |} in
  eid <- fresh ;;
  let edges :=
    {| THREE.geometry_id := eid;
       THREE.attributes := EdgesGeometry (THREE.attributes geometry) |} in
  lid <- fresh ;;
  wid <- fresh ;;
  let wireframe :=
    {| THREE.line_base := THREE.new_Object3D wid;
       THREE.line_geometry := edges;
       THREE.line_material := THREE.LineBasicMaterial lid 0x1976d2 0.5 |} in
  ret {| THREE.base := THREE.new_Object3D oid;
         THREE.geometry := geometry;
         THREE.material := material;
         THREE.children := [wireframe] |}.

(** Lines 197-200: add to scene. *)
Definition addToScene (mesh : THREE.Mesh G) : M unit :=
  fun w =>
    match sceneRef w with
    | Some scene =>
        (inr tt,
         set_sceneRef
           (Some (THREE.Scene_add (THREE.MeshObject (THREE.id (THREE.base mesh)))
                    scene)) w)
    | None => (inr tt, w)
    end.

(** Lines 206-209: the distance the camera is put at on each axis. *)
Definition cameraDistance (size : THREE.Vector3) (fov_degrees : float) : float :=
  let maxDim := JS.Math_max [THREE.x size; THREE.y size; THREE.z size] in
  let fov := (fov_degrees * (JS.Math_PI / 180))%float in
  let cameraZ := JS.Math_abs (maxDim / 2 / Math_tan (fov / 2))%float in
  (cameraZ * 1.5)%float.

(** Lines 210-211: [camera.position.set(cameraZ, cameraZ, cameraZ)] and
    [camera.lookAt(0, 0, 0)]. *)
Definition placeCamera (cameraZ : float) (camera : THREE.PerspectiveCamera)
  : THREE.PerspectiveCamera :=
  {| THREE.camera_base :=
       THREE.position_set cameraZ cameraZ cameraZ (THREE.camera_base camera);
     THREE.fov := THREE.fov camera;
     THREE.near := THREE.near camera;
     THREE.far := THREE.far camera;
     THREE.lookingAt := Some (THREE.vec 0 0 0) |}.

(** Lines 202-213: fit camera to object.  The last statement,
    [controlsRef.current.update()], writes the camera once more. *)
Definition fitCamera (mesh : THREE.Mesh G) : M unit :=
  fun w =>
    match sceneRef w, cameraRef w, controlsRef w with
    | Some _, Some camera, Some controls =>
        let cameraZ := cameraDistance (Box3_getSize mesh) (THREE.fov camera) in
        let camera := placeCamera cameraZ camera in
        let updated := OrbitControls_update controls camera in
        (inr tt,
         set_controlsRef (Some (fst updated))
           (set_cameraRef (Some (snd updated)) w))
    | _, _, _ => (inr tt, w)
    end.

(** The body of the [try] block after [await fetch(...)] has settled
    (lines 141-216). *)
Definition handleGenerate_body (outcome : Api.FetchOutcome) : M unit :=
  data <- receive outcome ;;
  (* Decode base64 STL data *)
  binary <- lift (atob (Api.stl_data data)) ;;
  let stlBinary := JS.Uint8Array_from binary in
  (* Store generated OpenSCAD code and STL data *)
  modify (setGeneratedCode (Api.openscad_code data)) ;;
  modify (setCurrentStlData (Some (Api.stl_data data))) ;;
  clearPreviousMesh ;;
  geometry <- loadGeometry stlBinary ;;
  mesh <- buildMesh geometry ;;
  modify (set_meshRef (Some mesh)) ;;
  addToScene mesh ;;
  fitCamera mesh ;;
  (* Clear prompt after successful generation *)
  modify (setPrompt (JS.js "")).

(** The rest of a call once its request has settled: the [try] body, the
    [catch] (line 219) and the [finally] (line 221). *)
Definition handleGenerate_resume (outcome : Api.FetchOutcome) : World -> World :=
  try_catch_finally
    (handleGenerate_body outcome)
    (fun err => setError (Some (JS.messageOf err)))
    (setLoading false).

(** A whole call whose request settles with [outcome] before anything
    else happens; a call stopped by the empty-prompt check has no
    request to settle. *)
Definition handleGenerate (outcome : Api.FetchOutcome) (w : World) : World :=
  if negb (JS.truthy (JS.trim (prompt w))) then handleGenerate_call w
  else
    let w' := handleGenerate_call w in
    handleGenerate_resume outcome (set_inflight (pred (inflight w')) w').

(** *** The transform handlers (lines 245-286) *)

Definition apply_to_mesh (f : THREE.Object3D -> THREE.Object3D) (w : World)
  : World :=
  match meshRef w with
  | Some mesh => set_meshRef (Some (THREE.map_base f mesh)) w
  | None => w
  end.

Definition updatePosition (axis : Axis) (value : float) (w : World) : World :=
  let newPos := with_axis (position w) axis value in
  let w := setPosition newPos w in
  apply_to_mesh
    (THREE.position_set (THREE.x newPos) (THREE.y newPos) (THREE.z newPos)) w.

Definition updateScale (axis : Axis) (value : float) (w : World) : World :=
  let newScale := with_axis (scale w) axis (JS.Math_max [0.1%float; value]) in
  let w := setScale newScale w in
  apply_to_mesh
    (THREE.scale_set (THREE.x newScale) (THREE.y newScale) (THREE.z newScale)) w.

(** [(degrees * Math.PI) / 180] *)
Definition radians (degrees : float) : float :=
  ((degrees * JS.Math_PI) / 180)%float.

Definition updateRotation (axis : Axis) (value : float) (w : World) : World :=
  let newRot := with_axis (rotation w) axis value in
  let w := setRotation newRot w in
  apply_to_mesh
    (THREE.rotation_set (radians (THREE.x newRot)) (radians (THREE.y newRot))
       (radians (THREE.z newRot))) w.

Definition resetTransforms (w : World) : World :=
  let w := setPosition (THREE.vec 0 0 0) w in
  let w := setScale (THREE.vec 1 1 1) w in
  let w := setRotation (THREE.vec 0 0 0) w in
  match meshRef w with
  | Some mesh =>
      let o := THREE.base mesh in
      let o := THREE.position_set 0 0 0 o in
      let o := THREE.scale_set 1 1 1 o in
      let o := THREE.rotation_set 0 0 0 o in
      set_meshRef (Some (THREE.map_base (fun _ => o) mesh)) w
  | None => w
  end.

(** *** The page as a transition system

    What can happen to a mounted page: the user acts on a control that is
    rendered and enabled, a pending request settles, or the animation loop
    takes a turn.  Toggling the theme makes the effect run again: first
    the cleanup of the effect that is mounted, then the setup. *)

Inductive Event : Type :=
| Mount
| ToggleTheme
| AnimationFrame
| ChangePrompt (text : JS.jsstring)
| KeyDown (key : JS.jsstring) (shiftKey : bool)
| ClickGenerate
| Settle (outcome : Api.FetchOutcome)
| ChangePosition (axis : Axis) (value : float)
| ChangeScale (axis : Axis) (value : float)
| ChangeRotation (axis : Axis) (value : float)
| ClickReset.

Definition string_eqb (a b : JS.jsstring) : bool :=
  if list_eq_dec N.eq_dec a b then true else false.

(** The textarea's [onKeyDown] (lines 608-613). *)
Definition onKeyDown (key : JS.jsstring) (shiftKey : bool) (w : World) : World :=
  if string_eqb key (JS.js "Enter") && negb shiftKey then handleGenerate_call w
  else w.

(** The generate button (lines 638-640): [onClick={handleGenerate}],
    [disabled={loading}]. *)
Definition onClickGenerate (w : World) : World :=
  if loading w then w else handleGenerate_call w.

(** The transform panel is rendered only when there is a mesh
    (line 446). *)
Definition transformPanel (f : World -> World) (w : World) : World :=
  match meshRef w with
  | Some _ => f w
  | None => w
  end.

Definition step (e : Event) (w : World) : World :=
  match e with
  | Mount => snd (useEffect_setup w)
  | ToggleTheme =>
      snd (useEffect_setup
             (useEffect_cleanup (setIsDarkMode (negb (isDarkMode w)) w)))
  | AnimationFrame => animate w
  | ChangePrompt text => setPrompt text w
  | KeyDown key shiftKey => onKeyDown key shiftKey w
  | ClickGenerate => onClickGenerate w
  | Settle outcome =>
      match inflight w with
      | O => w
      | S n => handleGenerate_resume outcome (set_inflight n w)
      end
  | ChangePosition axis value => transformPanel (updatePosition axis value) w
  | ChangeScale axis value => transformPanel (updateScale axis value) w
  | ChangeRotation axis value => transformPanel (updateRotation axis value) w
  | ClickReset => transformPanel resetTransforms w
  end.

(** The world of a page that has just been created: the [useState]
    initial values, empty refs. *)
Definition initial : World :=
  {| prompt := JS.js ""; generatedCode := JS.js ""; loading := false;
     error := None; currentStlData := None;
     position := THREE.vec 0 0 0; scale := THREE.vec 1 1 1;
     rotation := THREE.vec 0 0 0; isDarkMode := true;
     sceneRef := None; rendererRef := None; cameraRef := None;
     controlsRef := None; meshRef := None; disposed := []; next_id := 0;
     fetches := [];
     inflight := 0 |}.

Definition run (events : list Event) (w : World) : World :=
  fold_left (fun w e => step e w) events w.

Inductive reachable : World -> Prop :=
| reachable_initial : reachable initial
| reachable_step (e : Event) (w : World) :
    reachable w -> reachable (step e w).

(** *** Predicates the properties are stated with *)

(** [triple P m Q E]: run from a world satisfying [P], the block [m]
    either returns a value and a world related by [Q], or throws and
    leaves a world satisfying [E]. *)
Definition triple {A : Type} (P : World -> Prop) (m : M A)
  (Q : A -> World -> Prop) (E : World -> Prop) : Prop :=
  forall w, P w ->
    match m w with
    | (inr a, w') => Q a w'
    | (inl _, w') => E w'
    end.

(** What the statements after the two session setters can change is the
    scene, the camera, the orbit control, the disposal log, the identity
    counter, the mesh reference (to a freshly built mesh) and the prompt.
    An invariant that survives all of these survives the installation of
    a mesh. *)
Record install_invariant (J : World -> Prop) : Prop := {
  inv_setPrompt : forall v w, J w -> J (setPrompt v w);
  inv_set_sceneRef : forall v w, J w -> J (set_sceneRef v w);
  inv_set_cameraRef : forall v w, J w -> J (set_cameraRef v w);
  inv_set_controlsRef : forall v w, J w -> J (set_controlsRef v w);
  inv_set_disposed : forall v w, J w -> J (set_disposed v w);
  inv_set_next_id : forall v w, J w -> J (set_next_id v w);
  inv_new_mesh : forall i g m c w,
    J w ->
    J (set_meshRef
         (Some {| THREE.base := THREE.new_Object3D i; THREE.geometry := g;
                  THREE.material := m; THREE.children := c |}) w)
}.

(** A number that is neither zero nor negative. *)
Definition above_zero (v : float) : Prop := (v <=? 0)%float = false.

Definition vector_above_zero (v : THREE.Vector3) : Prop :=
  above_zero (THREE.x v) /\ above_zero (THREE.y v) /\ above_zero (THREE.z v).

(** No scale component, stored or applied, is zero or negative. *)
Definition scale_above_zero (w : World) : Prop :=
  vector_above_zero (scale w) /\
  forall mesh, meshRef w = Some mesh ->
    vector_above_zero (THREE.scale (THREE.base mesh)).

(** A number that is at least [0.1], or NaN. *)
Definition a_tenth_or_nan (v : float) : Prop :=
  is_nan v = true \/ (0.1 <=? v)%float = true.

(** Every scale component, stored or applied, satisfies [ok]. *)
Definition scale_within (ok : float -> Prop) (w : World) : Prop :=
  (ok (THREE.x (scale w)) /\ ok (THREE.y (scale w)) /\ ok (THREE.z (scale w))) /\
  forall mesh, meshRef w = Some mesh ->
    let applied := THREE.scale (THREE.base mesh) in
    ok (THREE.x applied) /\ ok (THREE.y applied) /\ ok (THREE.z applied).

(** Both refinement inputs present, as line 128 tests them. *)
Definition refining (w : World) : bool :=
  JS.truthy_opt (currentStlData w) && JS.truthy (generatedCode w).

(** A stored procedural source comes with a stored mesh payload. *)
Definition code_needs_stl (w : World) : Prop :=
  currentStlData w = None -> generatedCode w = [].

(** The viewport as the page left it: scene, renderer, camera, controls,
    mesh and the resources disposed so far. *)
Definition same_viewport (w w' : World) : Prop :=
  sceneRef w' = sceneRef w /\ rendererRef w' = rendererRef w /\
  cameraRef w' = cameraRef w /\
  controlsRef w' = controlsRef w /\ meshRef w' = meshRef w /\
  disposed w' = disposed w.

Definition same_transform (w w' : World) : Prop :=
  position w' = position w /\ scale w' = scale w /\ rotation w' = rotation w.

(** Everything but the three transform vectors and the mesh. *)
Definition same_but_transform (w w' : World) : Prop :=
  prompt w' = prompt w /\ generatedCode w' = generatedCode w /\
  loading w' = loading w /\ error w' = error w /\
  currentStlData w' = currentStlData w /\ isDarkMode w' = isDarkMode w /\
  sceneRef w' = sceneRef w /\ rendererRef w' = rendererRef w /\
  cameraRef w' = cameraRef w /\
  controlsRef w' = controlsRef w /\ disposed w' = disposed w /\
  next_id w' = next_id w /\ fetches w' = fetches w /\
  inflight w' = inflight w.

(** The mesh is the same object with the same geometry, material and
    overlay: a mesh is there after the call exactly if one was before. *)
Definition same_mesh_body (w w' : World) : Prop :=
  match meshRef w, meshRef w' with
  | Some mesh, Some mesh' =>
      THREE.id (THREE.base mesh') = THREE.id (THREE.base mesh) /\
      THREE.geometry mesh' = THREE.geometry mesh /\
      THREE.material mesh' = THREE.material mesh /\
      THREE.children mesh' = THREE.children mesh
  | None, None => True
  | _, _ => False
  end.

(** The transform applied to the mesh, if there is one. *)
Definition applied (f : THREE.Object3D -> THREE.Vector3) (w : World)
  : option THREE.Vector3 :=
  option_map (fun mesh => f (THREE.base mesh)) (meshRef w).

(** The stored transform and the transform applied to the mesh agree. *)
Definition in_sync (w : World) : Prop :=
  forall mesh, meshRef w = Some mesh ->
    THREE.position (THREE.base mesh) = position w /\
    THREE.scale (THREE.base mesh) = scale w /\
    THREE.rotation (THREE.base mesh) =
      THREE.vec (radians (THREE.x (rotation w))) (radians (THREE.y (rotation w)))
        (radians (THREE.z (rotation w))).

(** The scene displays no generated mesh, or exactly the one [meshRef]
    refers to. *)
Definition one_mesh (w : World) : Prop :=
  forall scene, sceneRef w = Some scene ->
    THREE.scene_meshes scene = [] \/
    exists mesh, meshRef w = Some mesh /\
      THREE.scene_meshes scene = [THREE.id (THREE.base mesh)].

Definition no_mesh_in_scene (w : World) : Prop :=
  forall scene, sceneRef w = Some scene -> THREE.scene_meshes scene = [].

End Home.

Arguments World : clear implicits.
Arguments M : clear implicits.

(** ** Concrete sessions

    Runs of the page against the test double, used below to evaluate the
    code on concrete inputs. *)

Module Scenario.

(** The worlds of a page that runs against the test double. *)
Definition Session : Type := World (list THREE.Vector3).

Definition run (events : list Event) (w : Session) : Session :=
  @run _ Double.externals events w.

(** The endpoint answers with a well-formed payload. *)
Definition cube : Api.FetchOutcome :=
  Api.ResponseOk
    {| Api.stl_data := Double.emptyStl; Api.openscad_code := JS.js "cube(10);" |}.

(** HTTP 500 with body ["bad prompt"]. *)
Definition badPrompt : Api.FetchOutcome :=
  Api.ResponseNotOk (JS.js "bad prompt").

(** A success response whose payload is not base64. *)
Definition notBase64 : Api.GenerateResponse :=
  {| Api.stl_data := JS.js "!!!"; Api.openscad_code := JS.js "sphere(5);" |}.

(** A success response whose payload is base64 of three bytes, which is
    no STL file. *)
Definition notStl : Api.GenerateResponse :=
  {| Api.stl_data := Double.shortStl; Api.openscad_code := JS.js "sphere(5);" |}.

(** The page is mounted, the user types a prompt and clicks the button;
    the request is pending. *)
Definition pending : Session :=
  run [Mount; ChangePrompt (JS.js "a 10mm cube"); ClickGenerate] initial.

(** The first generation has succeeded: a mesh is displayed. *)
Definition generated : Session := run [Settle cube] pending.

(** The user has typed a refinement prompt. *)
Definition refinable : Session := run [ChangePrompt (JS.js "taller")] generated.

(** The user has moved the mesh and typed a refinement prompt. *)
Definition moved : Session :=
  run [ChangePosition X 5; ChangePrompt (JS.js "taller")] generated.

(** What mounting builds, and the mesh the first generation installs. *)
Definition scene : THREE.Scene :=
  {| THREE.scene_children :=
       [THREE.AmbientLight; THREE.DirectionalLight; THREE.DirectionalLight;
        THREE.GridHelper; THREE.AxesHelper] |}.

Definition camera : THREE.PerspectiveCamera :=
  {| THREE.camera_base := THREE.position_set 30 30 30 (THREE.new_Object3D 0);
     THREE.fov := 75; THREE.near := 0.1; THREE.far := 10000;
     THREE.lookingAt := Some (THREE.vec 0 0 0) |}.

Definition controls : THREE.OrbitControls :=
  {| THREE.target := THREE.vec 0 0 0;
     THREE.enableDamping := true; THREE.autoRotate := false;
     THREE.enableRotate := true; THREE.enablePan := true;
     THREE.enableZoom := true;
     THREE.sphericalDelta := (0, 0)%float; THREE.zoomScale := 1;
     THREE.panOffset := THREE.vec 0 0 0 |}.

Definition mesh : THREE.Mesh (list THREE.Vector3) :=
  {| THREE.base := THREE.new_Object3D 3;
     THREE.geometry := {| THREE.geometry_id := 1; THREE.attributes := [] |};
     THREE.material := THREE.MeshStandardMaterial 2 0xa0a0a0 0.2 0.5 false;
     THREE.children :=
       [{| THREE.line_base := THREE.new_Object3D 6;
           THREE.line_geometry :=
             {| THREE.geometry_id := 4; THREE.attributes := [] |};
           THREE.line_material := THREE.LineBasicMaterial 5 0x1976d2 0.5 |}] |}.

End Scenario.

(** ** The rest of the [Home] component

    The number fields of the transform panel, the download button and
    [handleExport], and the predicates the properties of the request log
    and of the GPU resources are stated with. *)

Section HomeControls.

Context {G : Type} `{!Externals G}.

(** [new STLExporter().parse(mesh)]: the text of the STL file, a function
    of the mesh with the transform it carries. *)
Variable STLExporter_parse : THREE.Mesh G -> JS.jsstring.

(** [value || fallback] on numbers: [0], [-0] and [NaN] are falsy. *)
Definition orDefault (value fallback : float) : float :=
  if is_zero value || is_nan value then fallback else value.

(** The [onChange] handlers of the number fields (lines 481, 515, 549);
    [parsed] is [parseFloat(e.target.value)]. *)
Definition onPositionNumber (axis : Axis) (parsed : float) (w : World G)
  : World G :=
  updatePosition axis (orDefault parsed 0) w.

Definition onScaleNumber (axis : Axis) (parsed : float) (w : World G)
  : World G :=
  updateScale axis (orDefault parsed 1) w.

Definition onRotationNumber (axis : Axis) (parsed : float) (w : World G)
  : World G :=
  updateRotation axis (orDefault parsed 0) w.

(** What [handleExport] acts on: the alerts shown, the blob URLs created
    and not yet revoked, the next URL to hand out, and the files saved,
    each with its name and content. *)
Record Browser : Type := {
  alerts : list JS.jsstring;
  objectURLs : list nat;
  next_url : nat;
  downloads : list (JS.jsstring * JS.jsstring)
}.

(** [alert(message)] *)
Definition alert (message : JS.jsstring) (b : Browser) : Browser :=
  {| alerts := alerts b ++ [message]; objectURLs := objectURLs b;
     next_url := next_url b; downloads := downloads b |}.

(** [URL.createObjectURL(blob)] *)
Definition createObjectURL (b : Browser) : nat * Browser :=
  (next_url b,
   {| alerts := alerts b; objectURLs := objectURLs b ++ [next_url b];
      next_url := S (next_url b); downloads := downloads b |}).

(** [link.href = url; link.download = name; link.click()], for a link
    whose URL stands for a blob with the given content. *)
Definition clickDownload (name content : JS.jsstring) (b : Browser) : Browser :=
  {| alerts := alerts b; objectURLs := objectURLs b;
     next_url := next_url b; downloads := downloads b ++ [(name, content)] |}.

(** [URL.revokeObjectURL(url)] *)
Definition revokeObjectURL (url : nat) (b : Browser) : Browser :=
  {| alerts := alerts b;
     objectURLs := filter (fun u => negb (Nat.eqb u url)) (objectURLs b);
     next_url := next_url b; downloads := downloads b |}.

(** [handleExport] (lines 226-243). *)
Definition handleExport (w : World G) (b : Browser) : Browser :=
  match meshRef w with
  | None => alert (JS.js "No model to export") b
  | Some mesh =>
      let stlString := STLExporter_parse mesh in
      let '(url, b) := createObjectURL b in
      let b := clickDownload (JS.js "model.stl") stlString b in
      revokeObjectURL url b
  end.

(** The download button is rendered inside the panel that
    [generatedCode] guards, and only when there is a mesh
    (lines 400 and 416). *)
Definition downloadShown (w : World G) : bool :=
  JS.truthy (generatedCode w) &&
  match meshRef w with Some _ => true | None => false end.

Definition onClickDownload (w : World G) (b : Browser) : Browser :=
  if downloadShown w then handleExport w b else b.

(** A request as the page may send it: a prompt that is not blank, and
    the two refinement fields both absent, or both there and non-empty. *)
Definition well_formed_request (r : Api.Request) : Prop :=
  JS.trim (Api.prompt r) <> [] /\
  ((Api.current_code r = None /\ Api.current_stl_data r = None) \/
   (exists code stl,
      Api.current_code r = Some code /\ Api.current_stl_data r = Some stl /\
      code <> [] /\ stl <> [])).

(** Every resource disposed so far, and every resource of the mesh
    [meshRef] holds, has an identity handed out in the past. *)
Definition identities_used (w : World G) : Prop :=
  (forall r, In r (disposed w) -> r < next_id w) /\
  (forall mesh, meshRef w = Some mesh ->
     forall r, In r (THREE.mesh_resources mesh) -> r < next_id w).

(** The mesh the scene displays, if any, is the one [meshRef] holds, and
    none of its resources has been disposed. *)
Definition displayed_mesh_live (w : World G) : Prop :=
  forall scene, sceneRef w = Some scene ->
    THREE.scene_meshes scene = [] \/
    exists mesh, meshRef w = Some mesh /\
      THREE.scene_meshes scene = [THREE.id (THREE.base mesh)] /\
      forall r, In r (THREE.mesh_resources mesh) -> ~ In r (disposed w).

(** The stored transform is the identity. *)
Definition identity_transform (w : World G) : Prop :=
  position w = THREE.vec 0 0 0 /\ scale w = THREE.vec 1 1 1 /\
  rotation w = THREE.vec 0 0 0.

(** The settling of a success response, the one event that installs a
    mesh. *)
Definition settles_ok (e : Event) : bool :=
  match e with
  | Settle (Api.ResponseOk _) => true
  | _ => false
  end.

End HomeControls.

(** ** The chat panel ([ChatPanel]) *)

Module Chat.

Record Message : Type := { id : JS.jsstring; text : JS.jsstring }.

Record State : Type := { messages : list Message; input : JS.jsstring }.

(** [useState([])], [useState('')] *)
Definition initial : State := {| messages := []; input := JS.js "" |}.

Definition setInput (v : JS.jsstring) (s : State) : State :=
  {| messages := messages s; input := v |}.

(** [n.toString()] for a non-negative integer: its decimal digits. *)
Definition Number_toString (n : N) : JS.jsstring :=
  JS.js (DecimalString.NilEmpty.string_of_uint (N.to_uint n)).

(** [handleSend]; [now] is the value of [Date.now()]. *)
Definition handleSend (now : N) (s : State) : State :=
  if negb (JS.truthy (JS.trim (input s))) then s
  else
    let newMessage :=
      {| id := Number_toString now; text := JS.trim (input s) |} in
    {| messages := messages s ++ [newMessage]; input := JS.js "" |}.

(** [handleKeyPress] *)
Definition handleKeyPress (key : JS.jsstring) (shiftKey : bool) (now : N)
  (s : State) : State :=
  if string_eqb key (JS.js "Enter") && negb shiftKey then handleSend now s
  else s.

(** What the user can do; an event that may send carries the clock
    reading it would use. *)
Inductive Event : Type :=
| ChangeInput (value : JS.jsstring)
| KeyPress (key : JS.jsstring) (shiftKey : bool) (now : N)
| ClickSend (now : N).

Definition step (e : Event) (s : State) : State :=
  match e with
  | ChangeInput value => setInput value s
  | KeyPress key shiftKey now => handleKeyPress key shiftKey now s
  | ClickSend now => handleSend now s
  end.

Definition run (events : list Event) (s : State) : State :=
  fold_left (fun s e => step e s) events s.

(** The clock readings of a run, in order. *)
Definition clock (e : Event) : list N :=
  match e with
  | ChangeInput _ => []
  | KeyPress _ _ now => [now]
  | ClickSend now => [now]
  end.

Definition clocks (events : list Event) : list N := flat_map clock events.

(** A string that neither starts nor ends with white space. *)
Definition clean (s : JS.jsstring) : Prop :=
  (forall c r, s = c :: r -> JS.isWhiteSpace c = false) /\
  (forall r c, s = r ++ [c] -> JS.isWhiteSpace c = false).

(** The empty-list placeholder is shown ([messages.length === 0]). *)
Definition showsPlaceholder (s : State) : bool :=
  Nat.eqb (List.length (messages s)) 0.

End Chat.

(** ** The pages behind the login ([AuthGuard], [LandingPage], [NavBar],
    [HomeContent]) *)

Module Auth.

Record User : Type := {
  name : option JS.jsstring;
  email : option JS.jsstring
}.

(** What [useUser()] returns. *)
Record UseUser : Type := { user : option User; isLoading : bool }.

Definition present (u : UseUser) : bool :=
  match user u with Some _ => true | None => false end.

Inductive Route : Type :=
| Landing      (* "/" *)
| HomeRoute    (* "/home" *)
| Workspace.   (* "/workspace" *)

(** [AuthGuard]'s effect: [if (!isLoading && !user) router.push('/')]. *)
Definition AuthGuard_effect (u : UseUser) : option Route :=
  if negb (isLoading u) && negb (present u) then Some Landing else None.

Inductive GuardView : Type :=
| GuardLoading
| GuardNothing
| GuardChildren.

(** What [AuthGuard] renders. *)
Definition AuthGuard_render (u : UseUser) : GuardView :=
  if isLoading u then GuardLoading
  else if negb (present u) then GuardNothing
  else GuardChildren.

(** [LandingPage]'s effect: [if (user) router.push('/home')]. *)
Definition LandingPage_effect (u : UseUser) : option Route :=
  if present u then Some HomeRoute else None.

Inductive LandingView : Type :=
| LandingLoading
| Hero (loginButton : bool).

Definition LandingPage_render (u : UseUser) : LandingView :=
  if isLoading u then LandingLoading else Hero (negb (present u)).

Inductive AuthLink : Type := Dots | Logout | Login.

(** What [NavBar] shows: the links to the protected pages, and the
    element of its right-hand corner. *)
Definition NavBar_links (u : UseUser) : list Route :=
  if present u then [HomeRoute; Workspace] else [].

Definition NavBar_auth (u : UseUser) : AuthLink :=
  if isLoading u then Dots else if present u then Logout else Login.

(** The redirect the page at a route issues, if any: the landing page
    has its own effect, the two others are wrapped in [AuthGuard]. *)
Definition redirect (r : Route) (u : UseUser) : option Route :=
  match r with
  | Landing => LandingPage_effect u
  | HomeRoute => AuthGuard_effect u
  | Workspace => AuthGuard_effect u
  end.

(** [a || b] on optional strings. *)
Definition or_else (a b : option JS.jsstring) : option JS.jsstring :=
  if JS.truthy_opt a then a else b.

(** [user?.name || user?.email || 'User'] *)
Definition greeting (u : UseUser) : option JS.jsstring :=
  let name := match user u with Some x => name x | None => None end in
  let email := match user u with Some x => email x | None => None end in
  or_else (or_else name email) (Some (JS.js "User")).

(** [user?.email && <p>...</p>]: whether the email line is shown. *)
Definition emailShown (u : UseUser) : bool :=
  JS.truthy_opt (match user u with Some x => email x | None => None end).

End Auth.

(** ** Properties *)

(** The effect and the animation loop branch on the refs; in each branch
    they are a sequence of writes to the refs. *)
Ltac effect_event :=
  unfold animate, useEffect_cleanup;
  repeat match goal with
         | |- context [match rendererRef ?x with _ => _ end] =>
             destruct (rendererRef x)
         | |- context [match controlsRef ?x with _ => _ end] =>
             destruct (controlsRef x)
         | |- context [match cameraRef ?x with _ => _ end] =>
             destruct (cameraRef x)
         end.

Section Properties.

Context {G : Type} `{!Externals G}.

(** *** Numbers *)

Lemma Math_max_clamp (v : float) :
  JS.Math_max [0.1%float; v] =
  if is_nan v then nan else if (0.1 <? v)%float then v else 0.1%float.
Proof.
  unfold JS.Math_max.
  change (JS.Math_max_from neg_infinity [0.1%float; v])
    with (JS.Math_max_from 0.1%float [v]).
  cbn [JS.Math_max_from].
  destruct (is_nan v); [reflexivity |].
  change (JS.is_neg_zero 0.1) with false.
  rewrite andb_false_r. reflexivity.
Qed.

Lemma above_a_tenth (v : float) :
  (0.1 <? v)%float = true -> above_zero v.
Proof.
  unfold above_zero. rewrite ltb_spec, leb_spec.
  replace (Prim2SF 0.1) with (S754_finite false 7205759403792794 (-56))
    by (vm_compute; reflexivity).
  change (Prim2SF 0) with (S754_zero false).
  destruct (Prim2SF v) as [s | s | | s m e]; try destruct s; cbn;
    try discriminate; reflexivity.
Qed.

Lemma Math_max_above_zero (v : float) : above_zero (JS.Math_max [0.1%float; v]).
Proof.
  rewrite Math_max_clamp.
  destruct (is_nan v); [reflexivity |].
  destruct (0.1 <? v)%float eqn:Hlt; [apply above_a_tenth, Hlt | reflexivity].
Qed.

(** The order of the numbers: [<=] is reflexive and transitive on
    numbers, and of two numbers one is [<=] the other. *)

Lemma SFcompare_antisym (a b : spec_float) :
  SFcompare b a = option_map CompOpp (SFcompare a b).
Proof.
  destruct a as [s | s | | s m e], b as [s' | s' | | s' m' e'];
    try destruct s; try destruct s'; cbn; try reflexivity.
  all: rewrite !Pos.compare_cont_spec; cbn;
    destruct (Z.compare_spec e' e), (Z.compare_spec e e'); try lia; cbn;
    try reflexivity;
    destruct (Pos.compare_spec m' m), (Pos.compare_spec m m'); try lia;
    reflexivity.
Qed.

Lemma not_nan_compare (a b : float) :
  is_nan a = false -> is_nan b = false ->
  exists c, SFcompare (Prim2SF a) (Prim2SF b) = Some c.
Proof.
  unfold is_nan. rewrite !eqb_spec. unfold SFeqb.
  destruct (Prim2SF a) as [s | s | | s m e], (Prim2SF b) as [s' | s' | | s' m' e'];
    cbn; intros Ha Hb; try discriminate; eexists; reflexivity.
Qed.

Lemma not_ltb_leb (a b : float) :
  is_nan a = false -> is_nan b = false ->
  (a <? b)%float = false -> (b <=? a)%float = true.
Proof.
  intros Ha Hb. destruct (@not_nan_compare a b Ha Hb) as [c Hc].
  rewrite ltb_spec, leb_spec.
  unfold SFltb, SFleb. rewrite (SFcompare_antisym (Prim2SF a) (Prim2SF b)), Hc.
  destruct c; cbn; congruence.
Qed.

Lemma ltb_leb (a b : float) : (a <? b)%float = true -> (a <=? b)%float = true.
Proof.
  rewrite ltb_spec, leb_spec. unfold SFltb, SFleb.
  destruct (SFcompare (Prim2SF a) (Prim2SF b)) as [[| |] |];
    congruence.
Qed.

Lemma leb_refl (a : float) : is_nan a = false -> (a <=? a)%float = true.
Proof.
  unfold is_nan. rewrite eqb_spec, leb_spec. unfold SFeqb, SFleb.
  destruct (SFcompare (Prim2SF a) (Prim2SF a)) as [[| |] |]; cbn; congruence.
Qed.

Lemma SFleb_trans (a b c : spec_float) :
  SFleb a b = true -> SFleb b c = true -> SFleb a c = true.
Proof.
  unfold SFleb.
  destruct a as [s | s | | s m e], b as [s' | s' | | s' m' e'],
    c as [s'' | s'' | | s'' m'' e''];
    try destruct s; try destruct s'; try destruct s''; cbn;
    try reflexivity; try discriminate; try (intros _ H; exact H); try (intros H _; exact H).
  all: destruct (Z.compare_spec e e'), (Z.compare_spec e' e''), (Z.compare_spec e e'');
    try lia; subst; cbn; try reflexivity; try discriminate;
    rewrite ?Pos.compare_cont_spec; cbn;
    destruct (Pos.compare_spec m m'), (Pos.compare_spec m' m''), (Pos.compare_spec m m'');
    try lia; subst; cbn; try reflexivity; try discriminate.
Qed.

Lemma leb_trans (a b c : float) :
  (a <=? b)%float = true -> (b <=? c)%float = true -> (a <=? c)%float = true.
Proof. rewrite !leb_spec. apply SFleb_trans. Qed.

Lemma neg_zero_leb_pos_zero (a b : float) :
  JS.is_neg_zero a = true -> JS.is_pos_zero b = true -> (a <=? b)%float = true.
Proof.
  unfold JS.is_neg_zero, JS.is_pos_zero. rewrite !classify_spec, leb_spec.
  destruct (Prim2SF a) as [s | s | | s m e], (Prim2SF b) as [s' | s' | | s' m' e'];
    try destruct s; try destruct s'; cbn; try discriminate; try reflexivity.
  all: repeat match goal with
              | |- context [if ?c then _ else _] => destruct c
              end;
    intros Ha Hb; discriminate.
Qed.

Lemma leb_neg_infinity (a : float) :
  (a <=? neg_infinity)%float = true -> a = neg_infinity.
Proof.
  rewrite leb_spec. intros H. apply Prim2SF_inj.
  change (Prim2SF neg_infinity) with (S754_infinity true) in *.
  destruct (Prim2SF a) as [s | s | | s m e]; try destruct s; cbn in H;
    try discriminate; reflexivity.
Qed.

(** One step of [Math.max]: the running maximum after one more number. *)
Lemma Math_max_step (h n : float) :
  is_nan h = false -> is_nan n = false ->
  let h' := if JS.is_pos_zero n && JS.is_neg_zero h then n else h in
  let m := if (h' <? n)%float then n else h' in
  is_nan m = false /\ (h <=? m)%float = true /\ (n <=? m)%float = true /\
  (m = h \/ m = n).
Proof.
  intros Hh Hn.
  destruct (JS.is_pos_zero n && JS.is_neg_zero h) eqn:Hz; cbv zeta.
  - apply andb_prop in Hz. destruct Hz as [Hp Hz].
    destruct (n <? n)%float;
      (split; [exact Hn |]; split; [apply neg_zero_leb_pos_zero; assumption |];
       split; [apply leb_refl, Hn | auto]).
  - destruct (h <? n)%float eqn:Hlt.
    + split; [exact Hn |]. split; [apply ltb_leb, Hlt |].
      split; [apply leb_refl, Hn | auto].
    + split; [exact Hh |]. split; [apply leb_refl, Hh |].
      split; [apply not_ltb_leb; assumption | auto].
Qed.

Lemma Math_max_from_largest (args : list float) (h : float) :
  is_nan h = false -> Forall (fun a => is_nan a = false) args ->
  let m := JS.Math_max_from h args in
  is_nan m = false /\ (h <=? m)%float = true /\
  Forall (fun a => (a <=? m)%float = true) args /\ In m (h :: args).
Proof.
  revert h. induction args as [| n rest IH]; intros h Hh Hargs; cbn [JS.Math_max_from].
  - cbv zeta. split; [exact Hh |]. split; [apply leb_refl, Hh |].
    split; [constructor | left; reflexivity].
  - inversion Hargs as [| ? ? Hn Hrest]; subst. rewrite Hn.
    destruct (@Math_max_step h n Hh Hn) as [Hm [Hhm [Hnm Hin]]].
    cbv zeta in Hm, Hhm, Hnm, Hin.
    destruct (IH _ Hm Hrest) as [Hr [Hle [Hall Hmem]]].
    cbv zeta in Hr, Hle, Hall, Hmem. cbv zeta.
    split; [exact Hr |].
    split; [exact (@leb_trans _ _ _ Hhm Hle) |].
    split; [constructor; [exact (@leb_trans _ _ _ Hnm Hle) | exact Hall] |].
    destruct Hmem as [Hmem | Hmem].
    + rewrite <- Hmem. destruct Hin as [-> | ->]; [left | right; left]; reflexivity.
    + right. right. exact Hmem.
Qed.

(** [Math.max] of numbers is the largest of them. *)
Lemma Math_max_largest (a : float) (rest : list float) :
  Forall (fun v => is_nan v = false) (a :: rest) ->
  let m := JS.Math_max (a :: rest) in
  Forall (fun v => (v <=? m)%float = true) (a :: rest) /\ In m (a :: rest).
Proof.
  intros Hargs. unfold JS.Math_max.
  destruct (@Math_max_from_largest (a :: rest) neg_infinity eq_refl Hargs)
    as [_ [_ [Hall Hmem]]].
  cbv zeta in *. split; [exact Hall |].
  destruct Hmem as [Hmem | Hmem]; [| exact Hmem].
  left. inversion Hall as [| ? ? Ha _]; subst.
  rewrite <- Hmem in Ha. rewrite <- Hmem. apply leb_neg_infinity.
  exact Ha.
Qed.

(** [Math.max(0.1, v)] of a number is at least [0.1] and at least [v], and
    it is one of the two. *)
Lemma Math_max_at_least (v : float) :
  is_nan v = false -> (0.1 <=? JS.Math_max [0.1%float; v])%float = true.
Proof.
  intros Hn. rewrite Math_max_clamp, Hn.
  destruct (0.1 <? v)%float eqn:Hlt; [apply ltb_leb, Hlt | reflexivity].
Qed.

Lemma Math_max_at_least_input (v : float) :
  is_nan v = false -> (v <=? JS.Math_max [0.1%float; v])%float = true.
Proof.
  intros Hn. rewrite Math_max_clamp, Hn.
  destruct (0.1 <? v)%float eqn:Hlt;
    [apply leb_refl, Hn | apply not_ltb_leb; [reflexivity | exact Hn | exact Hlt]].
Qed.

(** Zero divided by a number that is neither NaN nor zero is zero. *)
Lemma zero_distance (t : float) :
  is_nan t = false -> is_zero t = false ->
  (JS.Math_abs (0 / 2 / t) * 1.5 = 0)%float.
Proof.
  intros Hn Hz. unfold JS.Math_abs. change (0 / 2)%float with 0%float.
  apply Prim2SF_inj. rewrite mul_spec, abs_spec, div_spec.
  unfold is_nan in Hn. unfold is_zero in Hz. rewrite eqb_spec in Hn, Hz.
  change (Prim2SF 0) with (S754_zero false) in *.
  replace (Prim2SF 1.5) with (S754_finite false 6755399441055744 (-52))
    by (vm_compute; reflexivity).
  destruct (Prim2SF t) as [s | s | | s m e]; try destruct s; cbn in *;
    try discriminate; reflexivity.
Qed.

Lemma with_axis_component (v : THREE.Vector3) (axis : Axis) (value : float) :
  component (with_axis v axis value) axis = value.
Proof. destruct axis; reflexivity. Qed.

Lemma with_axis_others (v : THREE.Vector3) (axis other : Axis) (value : float) :
  other = axis \/
  component (with_axis v axis value) other = component v other.
Proof. destruct axis, other; auto. Qed.

(** *** Strings *)

Lemma truthy_nonempty (s : JS.jsstring) : s <> [] -> JS.truthy s = true.
Proof. destruct s; [congruence | reflexivity]. Qed.

(** *** The two halves of a generation call *)

Lemma handleGenerate_call_blank (w : World G) :
  JS.trim (prompt w) = [] ->
  handleGenerate_call w = setError (Some (JS.js "Please enter a description")) w.
Proof. intros H. unfold handleGenerate_call. rewrite H. reflexivity. Qed.

Lemma handleGenerate_call_sends (w : World G) :
  JS.trim (prompt w) <> [] ->
  handleGenerate_call w =
  fetch (requestBody w)
    (setGeneratedCode (JS.js "") (setError None (setLoading true w))).
Proof.
  intros H. unfold handleGenerate_call.
  rewrite (truthy_nonempty H). reflexivity.
Qed.

Lemma resume_not_ok (errorText : JS.jsstring) (w : World G) :
  handleGenerate_resume (Api.ResponseNotOk errorText) w =
  setLoading false (setError (Some errorText) w).
Proof. reflexivity. Qed.

Lemma resume_atob_throws (data : Api.GenerateResponse) (err : JS.Thrown)
  (w : World G) :
  atob (Api.stl_data data) = inl err ->
  handleGenerate_resume (Api.ResponseOk data) w =
  setLoading false (setError (Some (JS.messageOf err)) w).
Proof.
  intros H.
  unfold handleGenerate_resume, try_catch_finally, handleGenerate_body,
    receive, bind, ret, lift.
  rewrite H. reflexivity.
Qed.

Lemma clearPreviousMesh_returns (w : World G) :
  exists w', clearPreviousMesh w = (inr tt, w') /\
    meshRef w' = meshRef w /\ prompt w' = prompt w /\
    next_id w' = next_id w /\ cameraRef w' = cameraRef w /\
    loading w' = loading w /\ error w' = error w.
Proof.
  unfold clearPreviousMesh.
  destruct (meshRef w) eqn:Hm; [destruct (sceneRef w) |];
    eexists; (split; [reflexivity |]); cbn; rewrite ?Hm; auto 10.
Qed.

Lemma resume_parse_throws (data : Api.GenerateResponse) (binary : JS.jsstring)
  (err : JS.Thrown) (w : World G) :
  atob (Api.stl_data data) = inr binary ->
  STLLoader_parse (JS.Uint8Array_from binary) = inl err ->
  handleGenerate_resume (Api.ResponseOk data) w =
  setLoading false
    (setError (Some (JS.messageOf err))
       (snd (clearPreviousMesh
               (setCurrentStlData (Some (Api.stl_data data))
                  (setGeneratedCode (Api.openscad_code data) w))))).
Proof.
  intros Ha Hp.
  unfold handleGenerate_resume, try_catch_finally, handleGenerate_body,
    receive, loadGeometry, bind, ret, lift, modify.
  rewrite Ha.
  destruct (clearPreviousMesh_returns
              (setCurrentStlData (Some (Api.stl_data data))
                 (setGeneratedCode (Api.openscad_code data) w)))
    as [w' [Hc _]].
  rewrite Hc, Hp. reflexivity.
Qed.

(** *** Rules for blocks of statements *)

Lemma triple_ret {A : Type} (a : A) (Q : A -> World G -> Prop)
  (E : World G -> Prop) :
  triple (Q a) (ret a) Q E.
Proof. intros w Hw. exact Hw. Qed.

Lemma triple_bind {A B : Type} (P : World G -> Prop) (m : M G A) (k : A -> M G B)
  (Q : A -> World G -> Prop) (R : B -> World G -> Prop) (E : World G -> Prop) :
  triple P m Q E -> (forall a, triple (Q a) (k a) R E) ->
  triple P (bind m k) R E.
Proof.
  intros Hm Hk w Hw. unfold bind. specialize (Hm w Hw).
  destruct (m w) as [[err | a] w']; [exact Hm | apply Hk, Hm].
Qed.

Lemma triple_modify (P : World G -> Prop) (f : World G -> World G)
  (Q : unit -> World G -> Prop) (E : World G -> Prop) :
  (forall w, P w -> Q tt (f w)) -> triple P (modify f) Q E.
Proof. intros H w Hw. apply H, Hw. Qed.

Lemma triple_lift {A : Type} (P : World G -> Prop) (r : JS.Thrown + A)
  (E : World G -> Prop) :
  (forall w, P w -> E w) -> triple P (lift r) (fun _ => P) E.
Proof. intros H w Hw. unfold lift. destruct r; auto. Qed.

Lemma triple_receive (P E : World G -> Prop) (outcome : Api.FetchOutcome) :
  (forall w, P w -> E w) -> triple P (receive outcome) (fun _ => P) E.
Proof. intros H w Hw. destruct outcome; cbn; auto. Qed.

Lemma triple_try (P N E Q : World G -> Prop) (body : M G unit)
  (handler : JS.Thrown -> World G -> World G) (finalizer : World G -> World G) :
  triple P body (fun _ => N) E ->
  (forall w, N w -> Q (finalizer w)) ->
  (forall err w, E w -> Q (finalizer (handler err w))) ->
  forall w, P w -> Q (try_catch_finally body handler finalizer w).
Proof.
  intros Hb Hn He w Hw. unfold try_catch_finally. specialize (Hb w Hw).
  destruct (body w) as [[err | a] w']; auto.
Qed.

(** *** What each block of [handleGenerate] can change *)

Section Frames.

Variables P E : World G -> Prop.

Lemma fresh_keeps :
  (forall v w, P w -> P (set_next_id v w)) ->
  triple P fresh (fun _ => P) E.
Proof. intros H w Hw. apply H, Hw. Qed.

Lemma loadGeometry_keeps (bytes : list N) :
  (forall v w, P w -> P (set_next_id v w)) ->
  (forall w, P w -> E w) ->
  triple P (loadGeometry bytes) (fun _ => P) E.
Proof.
  intros Hid HE. unfold loadGeometry.
  eapply triple_bind; [apply triple_lift, HE | intros data].
  eapply triple_bind; [apply fresh_keeps, Hid | intros gid].
  apply (triple_ret _ (fun _ => P)).
Qed.

Lemma buildMesh_keeps (geometry : THREE.BufferGeometry G) :
  (forall v w, P w -> P (set_next_id v w)) ->
  triple P (buildMesh geometry)
    (fun mesh w =>
       P w /\ THREE.base mesh = THREE.new_Object3D (THREE.id (THREE.base mesh)))
    E.
Proof.
  intros Hid. unfold buildMesh.
  eapply triple_bind; [apply fresh_keeps, Hid | intros mid].
  eapply triple_bind; [apply fresh_keeps, Hid | intros oid].
  eapply triple_bind; [apply fresh_keeps, Hid | intros eid].
  eapply triple_bind; [apply fresh_keeps, Hid | intros lid].
  eapply triple_bind; [apply fresh_keeps, Hid | intros wid].
  intros w Hw. cbn. split; [exact Hw | reflexivity].
Qed.

Lemma clearPreviousMesh_keeps :
  (forall v w, P w -> P (set_sceneRef v w)) ->
  (forall v w, P w -> P (set_disposed v w)) ->
  triple P clearPreviousMesh (fun _ => P) E.
Proof.
  intros Hs Hd w Hw. unfold clearPreviousMesh.
  destruct (meshRef w); [destruct (sceneRef w) |]; try exact Hw.
  apply Hd, Hd, Hs, Hw.
Qed.

Lemma addToScene_keeps (mesh : THREE.Mesh G) :
  (forall v w, P w -> P (set_sceneRef v w)) ->
  triple P (addToScene mesh) (fun _ => P) E.
Proof.
  intros Hs w Hw. unfold addToScene. destruct (sceneRef w); [| exact Hw].
  apply Hs, Hw.
Qed.

Lemma fitCamera_keeps (mesh : THREE.Mesh G) :
  (forall v w, P w -> P (set_cameraRef v w)) ->
  (forall v w, P w -> P (set_controlsRef v w)) ->
  triple P (fitCamera mesh) (fun _ => P) E.
Proof.
  intros Hc Ho w Hw. unfold fitCamera.
  destruct (sceneRef w); [destruct (cameraRef w); [destruct (controlsRef w) |] |];
    try exact Hw.
  apply Ho, Hc, Hw.
Qed.

End Frames.

(** An invariant [I] of the session that the two stores of lines 153-154
    turn into an installation invariant [J] is kept by the whole
    continuation of a call. *)
Section Invariants.

Variables I J : World G -> Prop.
Hypothesis HJ : install_invariant J.
Hypothesis HJI : forall w, J w -> I w.
Hypothesis Hstore : forall code stl w,
  I w -> J (setCurrentStlData (Some stl) (setGeneratedCode code w)).
Hypothesis Herror : forall v w, I w -> I (setError v w).
Hypothesis Hloading : forall v w, I w -> I (setLoading v w).

Lemma handleGenerate_body_keeps (outcome : Api.FetchOutcome) :
  triple I (handleGenerate_body outcome) (fun _ => J) I.
Proof.
  unfold handleGenerate_body.
  eapply triple_bind; [apply triple_receive; auto | intros data].
  eapply triple_bind; [apply triple_lift; auto | intros binary].
  eapply triple_bind with (Q := fun _ w => exists w0, I w0 /\
      w = setGeneratedCode (Api.openscad_code data) w0).
  { apply triple_modify. intros w Hw. exists w. auto. }
  intros [].
  eapply triple_bind with (Q := fun _ => J).
  { apply triple_modify. intros w [w0 [Hw0 ->]]. apply Hstore, Hw0. }
  intros [].
  eapply triple_bind;
    [apply clearPreviousMesh_keeps;
       [apply (inv_set_sceneRef HJ) | apply (inv_set_disposed HJ)] | intros []].
  eapply triple_bind;
    [apply loadGeometry_keeps; [apply (inv_set_next_id HJ) | exact HJI]
    | intros geometry].
  eapply triple_bind;
    [apply buildMesh_keeps, (inv_set_next_id HJ) | intros mesh].
  eapply triple_bind with (Q := fun _ => J).
  { apply triple_modify. intros w [Hw Hbase].
    destruct mesh as [b g m c]. cbn in Hbase. rewrite Hbase.
    apply (inv_new_mesh HJ), Hw. }
  intros [].
  eapply triple_bind;
    [apply addToScene_keeps, (inv_set_sceneRef HJ) | intros []].
  eapply triple_bind;
    [apply fitCamera_keeps;
       [apply (inv_set_cameraRef HJ) | apply (inv_set_controlsRef HJ)]
    | intros []].
  apply triple_modify. apply (inv_setPrompt HJ).
Qed.

Lemma handleGenerate_resume_keeps (outcome : Api.FetchOutcome) (w : World G) :
  I w -> I (handleGenerate_resume outcome w).
Proof.
  unfold handleGenerate_resume.
  apply triple_try with (N := J) (E := I).
  - apply handleGenerate_body_keeps.
  - intros w' Hw'. apply Hloading, HJI, Hw'.
  - intros err w' Hw'. apply Hloading, Herror, Hw'.
Qed.

End Invariants.

(** *** Invariants of the page *)

Lemma reachable_invariant (I : World G -> Prop) :
  I initial -> (forall e w, I w -> I (step e w)) ->
  forall w, reachable w -> I w.
Proof. intros H0 Hs w Hw. induction Hw; auto. Qed.

Lemma reachable_run (events : list Event) (w : World G) :
  reachable w -> reachable (run events w).
Proof.
  revert w. induction events as [| e events IH]; intros w Hw; cbn.
  - exact Hw.
  - apply IH. constructor. exact Hw.
Qed.

Ltac frame := constructor; intros; cbn in *; auto.

(** The continuation of a call sends no request. *)
Lemma resume_fetches (outcome : Api.FetchOutcome) (w : World G) :
  fetches (handleGenerate_resume outcome w) = fetches w.
Proof.
  apply handleGenerate_resume_keeps
    with (I := fun w' => fetches w' = fetches w) (J := fun w' => fetches w' = fetches w);
    auto.
  frame.
Qed.

(** The continuation of a call leaves the stored transform alone. *)
Lemma resume_transform (outcome : Api.FetchOutcome) (w : World G) :
  same_transform w (handleGenerate_resume outcome w).
Proof.
  apply handleGenerate_resume_keeps
    with (I := same_transform w) (J := same_transform w);
    auto; try (unfold same_transform; auto; fail).
  frame.
Qed.

Lemma above_zero_one : vector_above_zero (THREE.vec 1 1 1).
Proof. repeat split. Qed.

Lemma scale_above_zero_kept (w w' : World G) :
  scale w' = scale w -> applied THREE.scale w' = applied THREE.scale w ->
  scale_above_zero w -> scale_above_zero w'.
Proof.
  unfold scale_above_zero, applied. intros Hs Hm [Hv Ha]. rewrite Hs.
  split; [exact Hv |]. intros mesh' Hmesh'. rewrite Hmesh' in Hm. cbn in Hm.
  destruct (meshRef w) as [mesh |]; [| discriminate].
  injection Hm as ->. apply (Ha mesh). reflexivity.
Qed.

Lemma resume_scale_above_zero (outcome : Api.FetchOutcome) (w : World G) :
  scale_above_zero w -> scale_above_zero (handleGenerate_resume outcome w).
Proof.
  apply handleGenerate_resume_keeps with (J := scale_above_zero); auto.
  constructor; try (intros v w0 Hw0; exact Hw0).
  intros i g m c w0 [Hv _]. split; [exact Hv |].
  intros mesh Hmesh. cbn in Hmesh. injection Hmesh as <-. apply above_zero_one.
Qed.

Lemma apply_to_mesh_some (f : THREE.Object3D -> THREE.Object3D) (w : World G)
  (mesh : THREE.Mesh G) :
  meshRef w = Some mesh ->
  apply_to_mesh f w = set_meshRef (Some (THREE.map_base f mesh)) w.
Proof. intros H. unfold apply_to_mesh. rewrite H. reflexivity. Qed.

Lemma apply_to_mesh_none (f : THREE.Object3D -> THREE.Object3D) (w : World G) :
  meshRef w = None -> apply_to_mesh f w = w.
Proof. intros H. unfold apply_to_mesh. rewrite H. reflexivity. Qed.

Lemma with_axis_above_zero (v : THREE.Vector3) (axis : Axis) (value : float) :
  vector_above_zero v -> above_zero value ->
  vector_above_zero (with_axis v axis value).
Proof.
  intros [Hx [Hy Hz]] Hv. destruct axis; repeat split; assumption.
Qed.

Lemma updateScale_above_zero (axis : Axis) (value : float) (w : World G) :
  scale_above_zero w -> scale_above_zero (updateScale axis value w).
Proof.
  intros [Hv Ha].
  assert (Hnew : vector_above_zero
            (with_axis (scale w) axis (JS.Math_max [0.1%float; value])))
    by (apply with_axis_above_zero; [exact Hv | apply Math_max_above_zero]).
  unfold updateScale. cbv zeta.
  destruct (meshRef w) as [mesh |] eqn:Hm.
  - erewrite apply_to_mesh_some by exact Hm. split; [exact Hnew |].
    intros mesh' H'. injection H' as <-. exact Hnew.
  - rewrite apply_to_mesh_none by exact Hm. split; [exact Hnew |].
    intros mesh' H'. cbn in H'. congruence.
Qed.

Lemma step_scale_above_zero (e : Event) (w : World G) :
  scale_above_zero w -> scale_above_zero (step e w).
Proof.
  intros Hw. destruct e; cbn [step].
  - exact Hw.
  - effect_event; exact Hw.
  - effect_event; exact Hw.
  - exact Hw.
  - unfold onKeyDown, handleGenerate_call.
    destruct (_ && _); [destruct (negb _) |]; exact Hw.
  - unfold onClickGenerate, handleGenerate_call.
    destruct (loading w); [| destruct (negb _)]; exact Hw.
  - destruct (inflight w); [exact Hw |].
    apply resume_scale_above_zero. exact Hw.
  - unfold transformPanel. destruct (meshRef w) eqn:Hm; [| exact Hw].
    unfold updatePosition. cbv zeta. erewrite apply_to_mesh_some by exact Hm.
    apply scale_above_zero_kept with (w := w); [reflexivity | | exact Hw].
    unfold applied. cbn. rewrite Hm. reflexivity.
  - unfold transformPanel. destruct (meshRef w); [| exact Hw].
    apply updateScale_above_zero, Hw.
  - unfold transformPanel. destruct (meshRef w) eqn:Hm; [| exact Hw].
    unfold updateRotation. cbv zeta. erewrite apply_to_mesh_some by exact Hm.
    apply scale_above_zero_kept with (w := w); [reflexivity | | exact Hw].
    unfold applied. cbn. rewrite Hm. reflexivity.
  - unfold transformPanel. destruct (meshRef w) eqn:Hm; [| exact Hw].
    unfold resetTransforms. cbn. rewrite Hm. split; cbn.
    + apply above_zero_one.
    + intros mesh' H'. injection H' as <-. apply above_zero_one.
Qed.

Lemma reachable_scale_above_zero (w : World G) :
  reachable w -> scale_above_zero w.
Proof.
  apply reachable_invariant.
  - split; [apply above_zero_one | discriminate].
  - apply step_scale_above_zero.
Qed.

(** The same for any property of numbers that [1] has and that
    [Math.max(0.1, v)] has for every [v]. *)
Section ScaleWithin.

Variable ok : float -> Prop.
Hypothesis ok_one : ok 1%float.
Hypothesis ok_clamped : forall v, ok (JS.Math_max [0.1%float; v]).

Lemma scale_within_kept (w w' : World G) :
  scale w' = scale w -> applied THREE.scale w' = applied THREE.scale w ->
  scale_within ok w -> scale_within ok w'.
Proof.
  unfold scale_within, applied. intros Hs Hm [Hv Ha]. rewrite Hs.
  split; [exact Hv |]. intros mesh' Hmesh'. rewrite Hmesh' in Hm. cbn in Hm.
  destruct (meshRef w) as [mesh |]; [| discriminate].
  injection Hm as ->. apply (Ha mesh). reflexivity.
Qed.

Lemma resume_scale_within (outcome : Api.FetchOutcome) (w : World G) :
  scale_within ok w -> scale_within ok (handleGenerate_resume outcome w).
Proof.
  apply handleGenerate_resume_keeps with (J := scale_within ok); auto.
  constructor; try (intros v w0 Hw0; exact Hw0).
  intros i g m c w0 [Hv _]. split; [exact Hv |].
  intros mesh Hmesh. cbn in Hmesh. injection Hmesh as <-. cbn. auto.
Qed.

Lemma updateScale_scale_within (axis : Axis) (value : float) (w : World G) :
  scale_within ok w -> scale_within ok (updateScale axis value w).
Proof.
  intros [Hv Ha].
  pose proof (ok_clamped value) as Hc.
  assert (Hnew :
            let v := with_axis (scale w) axis (JS.Math_max [0.1%float; value]) in
            ok (THREE.x v) /\ ok (THREE.y v) /\ ok (THREE.z v)).
  { destruct Hv as [Hx [Hy Hz]]. destruct axis; cbn; auto. }
  cbv zeta in Hnew. unfold updateScale. cbv zeta.
  destruct (meshRef w) as [mesh |] eqn:Hm.
  - erewrite apply_to_mesh_some by exact Hm. split; [exact Hnew |].
    intros mesh' H'. injection H' as <-. exact Hnew.
  - rewrite apply_to_mesh_none by exact Hm. split; [exact Hnew |].
    intros mesh' H'. cbn in H'. congruence.
Qed.

Lemma step_scale_within (e : Event) (w : World G) :
  scale_within ok w -> scale_within ok (step e w).
Proof.
  intros Hw. destruct e; cbn [step]; try exact Hw;
    try (effect_event; exact Hw).
  - unfold onKeyDown, handleGenerate_call.
    destruct (_ && _); [destruct (negb _) |]; exact Hw.
  - unfold onClickGenerate, handleGenerate_call.
    destruct (loading w); [| destruct (negb _)]; exact Hw.
  - destruct (inflight w); [exact Hw |].
    apply resume_scale_within. exact Hw.
  - unfold transformPanel. destruct (meshRef w) eqn:Hm; [| exact Hw].
    unfold updatePosition. cbv zeta. erewrite apply_to_mesh_some by exact Hm.
    apply scale_within_kept with (w := w); [reflexivity | | exact Hw].
    unfold applied. cbn. rewrite Hm. reflexivity.
  - unfold transformPanel. destruct (meshRef w); [| exact Hw].
    apply updateScale_scale_within, Hw.
  - unfold transformPanel. destruct (meshRef w) eqn:Hm; [| exact Hw].
    unfold updateRotation. cbv zeta. erewrite apply_to_mesh_some by exact Hm.
    apply scale_within_kept with (w := w); [reflexivity | | exact Hw].
    unfold applied. cbn. rewrite Hm. reflexivity.
  - unfold transformPanel. destruct (meshRef w) eqn:Hm; [| exact Hw].
    unfold resetTransforms. cbn. rewrite Hm. split; cbn.
    + auto.
    + intros mesh' H'. injection H' as <-. cbn. auto.
Qed.

Lemma reachable_scale_within (w : World G) :
  reachable w -> scale_within ok w.
Proof.
  apply reachable_invariant.
  - split; [cbn; auto | discriminate].
  - apply step_scale_within.
Qed.

End ScaleWithin.

Lemma Math_max_a_tenth_or_nan (v : float) :
  a_tenth_or_nan (JS.Math_max [0.1%float; v]).
Proof.
  unfold a_tenth_or_nan. destruct (is_nan v) eqn:Hn.
  - left. rewrite Math_max_clamp, Hn. reflexivity.
  - right. apply Math_max_at_least, Hn.
Qed.

Lemma resume_code_needs_stl (outcome : Api.FetchOutcome) (w : World G) :
  code_needs_stl w -> code_needs_stl (handleGenerate_resume outcome w).
Proof.
  apply handleGenerate_resume_keeps
    with (J := fun w' => currentStlData w' <> None); auto.
  - frame.
  - intros w' H H'. contradiction.
  - intros code stl w' _. discriminate.
Qed.

Lemma step_code_needs_stl (e : Event) (w : World G) :
  code_needs_stl w -> code_needs_stl (step e w).
Proof.
  intros Hw. destruct e; cbn [step]; try exact Hw;
    try (effect_event; exact Hw).
  - unfold onKeyDown, handleGenerate_call.
    destruct (_ && _); [destruct (negb _) |]; try exact Hw.
    intros _. reflexivity.
  - unfold onClickGenerate, handleGenerate_call.
    destruct (loading w); [| destruct (negb _)]; try exact Hw.
    intros _. reflexivity.
  - destruct (inflight w); [exact Hw |].
    apply resume_code_needs_stl. exact Hw.
  - unfold transformPanel, updatePosition, apply_to_mesh. cbn.
    destruct (meshRef w); exact Hw.
  - unfold transformPanel, updateScale, apply_to_mesh. cbn.
    destruct (meshRef w); exact Hw.
  - unfold transformPanel, updateRotation, apply_to_mesh. cbn.
    destruct (meshRef w); exact Hw.
  - unfold transformPanel, resetTransforms. cbn.
    destruct (meshRef w); exact Hw.
Qed.

Lemma reachable_code_needs_stl (w : World G) :
  reachable w -> code_needs_stl w.
Proof.
  apply reachable_invariant; [intros _; reflexivity | apply step_code_needs_stl].
Qed.

(** The scene never displays two generated meshes. *)

Lemma scene_meshes_remove (i : nat) (scene : THREE.Scene) :
  THREE.scene_meshes scene = [] \/ THREE.scene_meshes scene = [i] ->
  THREE.scene_meshes (THREE.Scene_remove i scene) = [].
Proof.
  destruct scene as [cs]. unfold THREE.scene_meshes, THREE.Scene_remove. cbn.
  induction cs as [| c cs IH]; intros H; [reflexivity |].
  destruct c; cbn in *; try (apply IH, H).
  destruct (Nat.eqb_spec i mesh_id) as [-> | Hne]; cbn.
  - destruct H as [H | H]; [discriminate | congruence].
  - destruct H as [H | H]; [discriminate | congruence].
Qed.

Lemma scene_meshes_add (i : nat) (scene : THREE.Scene) :
  THREE.scene_meshes (THREE.Scene_add (THREE.MeshObject i) scene) =
  THREE.scene_meshes scene ++ [i].
Proof.
  unfold THREE.scene_meshes, THREE.Scene_add. cbn.
  rewrite flat_map_app. reflexivity.
Qed.

Lemma no_mesh_one_mesh (w : World G) : no_mesh_in_scene w -> one_mesh w.
Proof. intros H scene Hs. left. apply H, Hs. Qed.

Lemma clearPreviousMesh_empties (E : World G -> Prop) :
  triple one_mesh clearPreviousMesh (fun _ => no_mesh_in_scene) E.
Proof.
  intros w Hw. unfold clearPreviousMesh.
  destruct (meshRef w) as [mesh |] eqn:Hm;
    [destruct (sceneRef w) as [scene |] eqn:Hs |].
  - intros scene' H'. cbn in H'. injection H' as <-.
    apply scene_meshes_remove.
    destruct (Hw scene Hs) as [H | [mesh' [Hm' H]]]; [left; exact H |].
    right. rewrite Hm in Hm'. injection Hm' as <-. exact H.
  - intros scene' H'. congruence.
  - intros scene' H'. destruct (Hw scene' H') as [H | [mesh' [Hm' _]]];
      [exact H | congruence].
Qed.

Lemma addToScene_shows (mesh : THREE.Mesh G) (E : World G -> Prop) :
  triple (fun w => no_mesh_in_scene w /\ meshRef w = Some mesh)
    (addToScene mesh) (fun _ => one_mesh) E.
Proof.
  intros w [Hw Hm]. unfold addToScene.
  destruct (sceneRef w) as [scene |] eqn:Hs.
  - intros scene' H'. cbn in H'. injection H' as <-. right.
    exists mesh. split; [exact Hm |].
    rewrite scene_meshes_add, (Hw scene Hs). reflexivity.
  - intros scene' H'. congruence.
Qed.

Lemma handleGenerate_body_one_mesh (outcome : Api.FetchOutcome) :
  triple one_mesh (handleGenerate_body outcome) (fun _ => one_mesh) one_mesh.
Proof.
  unfold handleGenerate_body.
  eapply triple_bind; [apply triple_receive; auto | intros data].
  eapply triple_bind; [apply triple_lift; auto | intros binary].
  eapply triple_bind with (Q := fun _ => one_mesh);
    [apply triple_modify; auto | intros []].
  eapply triple_bind with (Q := fun _ => one_mesh);
    [apply triple_modify; auto | intros []].
  eapply triple_bind; [apply clearPreviousMesh_empties | intros []].
  eapply triple_bind;
    [apply loadGeometry_keeps; [auto | apply no_mesh_one_mesh] | intros geometry].
  eapply triple_bind; [apply buildMesh_keeps; auto | intros mesh].
  eapply triple_bind
    with (Q := fun _ w => no_mesh_in_scene w /\ meshRef w = Some mesh).
  { apply triple_modify. intros w [Hw _]. split; [exact Hw | reflexivity]. }
  intros [].
  eapply triple_bind; [apply addToScene_shows | intros []].
  eapply triple_bind; [apply fitCamera_keeps; auto | intros []].
  apply triple_modify. auto.
Qed.

Lemma step_one_mesh (e : Event) (w : World G) : one_mesh w -> one_mesh (step e w).
Proof.
  intros Hw. destruct e; cbn [step]; try exact Hw;
    try (effect_event; exact Hw);
    try (effect_event; intros scene H; left; cbn in H; injection H as <-;
         reflexivity).
  - unfold onKeyDown, handleGenerate_call.
    destruct (_ && _); [destruct (negb _) |]; exact Hw.
  - unfold onClickGenerate, handleGenerate_call.
    destruct (loading w); [| destruct (negb _)]; exact Hw.
  - destruct (inflight w); [exact Hw |].
    unfold handleGenerate_resume.
    apply triple_try with (P := one_mesh) (N := one_mesh) (E := one_mesh);
      auto using handleGenerate_body_one_mesh.
  - unfold transformPanel. destruct (meshRef w) eqn:Hm; [| exact Hw].
    unfold updatePosition. cbv zeta. erewrite apply_to_mesh_some by exact Hm.
    intros scene Hs. destruct (Hw scene Hs) as [H | [mesh [Hm' H]]]; [auto |].
    right. eexists. split; [reflexivity |]. cbn. congruence.
  - unfold transformPanel. destruct (meshRef w) eqn:Hm; [| exact Hw].
    unfold updateScale. cbv zeta. erewrite apply_to_mesh_some by exact Hm.
    intros scene Hs. destruct (Hw scene Hs) as [H | [mesh [Hm' H]]]; [auto |].
    right. eexists. split; [reflexivity |]. cbn. congruence.
  - unfold transformPanel. destruct (meshRef w) eqn:Hm; [| exact Hw].
    unfold updateRotation. cbv zeta. erewrite apply_to_mesh_some by exact Hm.
    intros scene Hs. destruct (Hw scene Hs) as [H | [mesh [Hm' H]]]; [auto |].
    right. eexists. split; [reflexivity |]. cbn. congruence.
  - unfold transformPanel. destruct (meshRef w) eqn:Hm; [| exact Hw].
    unfold resetTransforms. cbn. rewrite Hm.
    intros scene Hs. destruct (Hw scene Hs) as [H | [mesh [Hm' H]]]; [auto |].
    right. eexists. split; [reflexivity |]. cbn. congruence.
Qed.

(** In every reachable state the scene displays at most one generated
    mesh, and it is the one [meshRef] refers to. *)
Lemma reachable_one_mesh (w : World G) : reachable w -> one_mesh w.
Proof.
  apply reachable_invariant; [intros scene H; discriminate | apply step_one_mesh].
Qed.

(** *** Stored and applied transform *)

Lemma radians_zero : radians 0 = 0%float.
Proof. reflexivity. Qed.

(** Every setter writes the vector it stores to the mesh. *)
Lemma updatePosition_applies (axis : Axis) (value : float) (w : World G)
  (mesh : THREE.Mesh G) :
  meshRef w = Some mesh ->
  applied THREE.position (updatePosition axis value w) =
  Some (position (updatePosition axis value w)).
Proof.
  intros Hm. unfold updatePosition. cbv zeta.
  erewrite apply_to_mesh_some by exact Hm. destruct axis; reflexivity.
Qed.

Lemma updateScale_applies (axis : Axis) (value : float) (w : World G)
  (mesh : THREE.Mesh G) :
  meshRef w = Some mesh ->
  applied THREE.scale (updateScale axis value w) =
  Some (scale (updateScale axis value w)).
Proof.
  intros Hm. unfold updateScale. cbv zeta.
  erewrite apply_to_mesh_some by exact Hm. destruct axis; reflexivity.
Qed.

Lemma updateRotation_applies (axis : Axis) (value : float) (w : World G)
  (mesh : THREE.Mesh G) :
  meshRef w = Some mesh ->
  applied THREE.rotation (updateRotation axis value w) =
  let r := rotation (updateRotation axis value w) in
  Some (THREE.vec (radians (THREE.x r)) (radians (THREE.y r))
          (radians (THREE.z r))).
Proof.
  intros Hm. unfold updateRotation. cbv zeta.
  erewrite apply_to_mesh_some by exact Hm. destruct axis; reflexivity.
Qed.

Lemma resetTransforms_in_sync (w : World G) : in_sync (resetTransforms w).
Proof.
  unfold resetTransforms, in_sync. cbn.
  destruct (meshRef w) as [mesh |] eqn:Hm; cbn; intros mesh' H'.
  - injection H' as <-. cbn. repeat split.
  - congruence.
Qed.

(** A setter keeps stored and applied transform in agreement. *)
Lemma setters_keep_sync (axis : Axis) (value : float) (w : World G) :
  in_sync w ->
  in_sync (updatePosition axis value w) /\
  in_sync (updateScale axis value w) /\
  in_sync (updateRotation axis value w).
Proof.
  intros Hw. unfold updatePosition, updateScale, updateRotation. cbv zeta.
  destruct (meshRef w) as [mesh |] eqn:Hm.
  - destruct (Hw mesh Hm) as [Hp [Hs Hr]].
    repeat erewrite apply_to_mesh_some by exact Hm.
    split; [| split]; intros mesh' H'; cbn in H'; injection H' as <-;
      destruct axis; cbn; auto.
  - repeat rewrite apply_to_mesh_none by exact Hm.
    split; [| split]; intros mesh' H'; cbn in H'; congruence.
Qed.

(** *** A successful generation *)

(** What the replacement of a mesh disposes: the geometry and the material
    of the mesh itself, nothing of its overlay. *)
Lemma clearPreviousMesh_disposes (w : World G) (mesh : THREE.Mesh G)
  (scene : THREE.Scene) :
  meshRef w = Some mesh -> sceneRef w = Some scene ->
  disposed (snd (clearPreviousMesh w)) =
  disposed w ++ [THREE.geometry_id (THREE.geometry mesh);
                 THREE.material_id (THREE.material mesh)].
Proof.
  intros Hm Hs. unfold clearPreviousMesh. rewrite Hm, Hs. cbn.
  rewrite <- app_assoc. reflexivity.
Qed.

(** When the payload decodes, the call stores both session fields from
    the response, installs a freshly built mesh, which sits at the
    identity transform, clears the prompt and the in-flight flag, and
    leaves the stored transform as it was. *)
Lemma generate_ok (w : World G) (data : Api.GenerateResponse)
  (binary : JS.jsstring) (g : G) :
  atob (Api.stl_data data) = inr binary ->
  STLLoader_parse (JS.Uint8Array_from binary) = inr g ->
  let w' := handleGenerate_resume (Api.ResponseOk data) w in
  (exists mesh, meshRef w' = Some mesh /\
     THREE.base mesh = THREE.new_Object3D (THREE.id (THREE.base mesh))) /\
  generatedCode w' = Api.openscad_code data /\
  currentStlData w' = Some (Api.stl_data data) /\
  prompt w' = JS.js "" /\ loading w' = false /\ error w' = error w /\
  same_transform w w'.
Proof.
  intros Ha Hp w'. subst w'.
  set (stored := fun w0 : World G =>
         generatedCode w0 = Api.openscad_code data /\
         currentStlData w0 = Some (Api.stl_data data) /\
         error w0 = error w).
  set (installed := fun w0 : World G =>
         stored w0 /\
         exists mesh, meshRef w0 = Some mesh /\
           THREE.base mesh = THREE.new_Object3D (THREE.id (THREE.base mesh))).
  assert (Hbody : triple (fun w0 => error w0 = error w)
                    (handleGenerate_body (Api.ResponseOk data))
                    (fun _ w0 => installed w0 /\ prompt w0 = JS.js "")
                    (fun _ => False)).
  { unfold handleGenerate_body.
    eapply triple_bind
      with (Q := fun d w0 => d = data /\ error w0 = error w).
    { intros w0 Hw0. cbn. auto. }
    intros d.
    eapply triple_bind
      with (Q := fun b w0 => d = data /\ b = binary /\ error w0 = error w).
    { intros w0 [-> Hw0]. unfold lift. rewrite Ha. auto. }
    intros b.
    eapply triple_bind
      with (Q := fun _ w0 =>
                   d = data /\ b = binary /\ error w0 = error w /\
                   generatedCode w0 = Api.openscad_code data).
    { apply triple_modify. intros w0 [-> [-> Hw0]]. cbn. auto. }
    intros [].
    eapply triple_bind with (Q := fun _ w0 => b = binary /\ stored w0).
    { apply triple_modify. intros w0 [-> [-> [He Hc]]].
      unfold stored. cbn. auto. }
    intros [].
    eapply triple_bind with (Q := fun _ w0 => b = binary /\ stored w0).
    { apply clearPreviousMesh_keeps; intros v w0 Hw0; exact Hw0. }
    intros [].
    eapply triple_bind with (Q := fun _ => stored).
    { intros w0 [-> Hw0]. unfold loadGeometry, bind, lift, fresh, ret.
      rewrite Hp. exact Hw0. }
    intros geometry.
    eapply triple_bind;
      [apply buildMesh_keeps; intros v w0 Hw0; exact Hw0 | intros mesh].
    eapply triple_bind with (Q := fun _ => installed).
    { apply triple_modify. intros w0 [Hw0 Hbase]. split; [exact Hw0 |].
      exists mesh. split; [reflexivity | exact Hbase]. }
    intros [].
    eapply triple_bind;
      [apply addToScene_keeps; intros v w0 Hw0; exact Hw0 | intros []].
    eapply triple_bind;
      [apply fitCamera_keeps; intros v w0 Hw0; exact Hw0 | intros []].
    apply triple_modify. intros w0 Hw0. split; [exact Hw0 | reflexivity]. }
  split; [| split; [| split; [| split; [| split; [| split]]]]];
    try apply resume_transform;
    (unfold handleGenerate_resume;
     apply triple_try
       with (P := fun w0 => error w0 = error w)
            (N := fun w0 => installed w0 /\ prompt w0 = JS.js "")
            (E := fun _ => False)
            (body := handleGenerate_body (Api.ResponseOk data));
     [exact Hbody
     | intros w0 [[[Hc [Hs He]] Hm] Hpr]; cbn; auto
     | intros err w0 []
     | reflexivity]).
Qed.

(** *** The two triggers of a generation *)

(** The button ignores a click while a request is pending. *)
Lemma onClickGenerate_pending (w : World G) :
  loading w = true -> onClickGenerate w = w.
Proof. intros H. unfold onClickGenerate. rewrite H. reflexivity. Qed.

(** Enter in the prompt field sends a request whether or not one is
    pending. *)
Lemma onKeyDown_sends (w : World G) :
  JS.trim (prompt w) <> [] ->
  fetches (onKeyDown (JS.js "Enter") false w) = fetches w ++ [requestBody w] /\
  inflight (onKeyDown (JS.js "Enter") false w) = S (inflight w).
Proof.
  intros H. unfold onKeyDown.
  change (string_eqb (JS.js "Enter") (JS.js "Enter") && negb false) with true.
  cbv iota. rewrite handleGenerate_call_sends by exact H. split; reflexivity.
Qed.

(** *** The claims *)

(** C1 (amended).  A generation call that receives a non-success response
    ends with the response body as the error message and with the
    in-flight flag cleared.  The active mesh, the scene, the camera, the
    disposal log, the stored mesh payload, the prompt and the transform
    are what they were before the call.  The stored procedural source is
    not: the call cleared it when it started, and it stays empty. *)
Theorem generate_not_ok (w : World G) (errorText : JS.jsstring) :
  JS.trim (prompt w) <> [] ->
  let w' := handleGenerate (Api.ResponseNotOk errorText) w in
  error w' = Some errorText /\ loading w' = false /\
  same_viewport w w' /\ same_transform w w' /\
  currentStlData w' = currentStlData w /\ prompt w' = prompt w /\
  generatedCode w' = JS.js "".
Proof.
  intros H w'. subst w'. unfold handleGenerate.
  rewrite (truthy_nonempty H). cbn [negb].
  rewrite handleGenerate_call_sends by exact H. rewrite resume_not_ok.
  unfold same_viewport, same_transform. cbn. auto 15.
Qed.

(** C2 (amended).  A success response whose payload does not decode makes
    the call end with the message of the exception that was thrown, and
    installs no mesh: [meshRef] is unchanged and no object was built.
    When it is the base64 decoding that fails, the viewport (scene, mesh,
    disposal log) and the stored mesh payload are untouched as well, and
    the stored procedural source is empty, as the call cleared it when it
    started. *)
Theorem generate_decode_failure (w : World G) (data : Api.GenerateResponse) :
  JS.trim (prompt w) <> [] ->
  let w' := handleGenerate (Api.ResponseOk data) w in
  (forall err, atob (Api.stl_data data) = inl err ->
     error w' = Some (JS.messageOf err) /\ loading w' = false /\
     same_viewport w w' /\ next_id w' = next_id w /\
     currentStlData w' = currentStlData w /\ prompt w' = prompt w /\
     generatedCode w' = JS.js "") /\
  (forall binary err,
     atob (Api.stl_data data) = inr binary ->
     STLLoader_parse (JS.Uint8Array_from binary) = inl err ->
     error w' = Some (JS.messageOf err) /\ loading w' = false /\
     meshRef w' = meshRef w /\ next_id w' = next_id w /\
     cameraRef w' = cameraRef w /\ prompt w' = prompt w).
Proof.
  intros H w'. subst w'. unfold handleGenerate.
  rewrite (truthy_nonempty H). cbn [negb].
  rewrite handleGenerate_call_sends by exact H. split.
  - intros err Ha. rewrite (resume_atob_throws _ _ Ha).
    unfold same_viewport. cbn. auto 15.
  - intros binary err Ha Hp. rewrite (resume_parse_throws _ _ Ha Hp).
    match goal with
    | |- context [clearPreviousMesh ?w0] =>
        destruct (clearPreviousMesh_returns w0)
          as [w1 [-> [Hm [Hpr [Hid [Hc _]]]]]]
    end.
    cbn. rewrite Hm, Hpr, Hid, Hc. cbn. auto 10.
Qed.

(** C5 (amended).  In every reachable state a non-empty [generatedCode]
    comes with a [currentStlData] that is not null.  The request a call
    sends (a call sends one when the prompt is not blank) carries
    [current_code] and [current_stl_data] exactly when both
    [generatedCode] and [currentStlData] are non-empty when the call is
    made, and then carries them as stored. *)
Theorem refinement_fields (w : World G) :
  reachable w ->
  (generatedCode w = [] \/ currentStlData w <> None) /\
  (JS.trim (prompt w) <> [] ->
   exists request,
     fetches (handleGenerate_call w) = fetches w ++ [request] /\
     Api.prompt request = prompt w /\
     Api.current_code request =
       (if refining w then Some (generatedCode w) else None) /\
     Api.current_stl_data request =
       (if refining w then currentStlData w else None)).
Proof.
  intros Hr. split.
  - pose proof (reachable_code_needs_stl Hr) as Hc. unfold code_needs_stl in Hc.
    destruct (currentStlData w); [right; discriminate | left; auto].
  - intros Hp. exists (requestBody w).
    rewrite handleGenerate_call_sends by exact Hp.
    split; [reflexivity |]. unfold requestBody, refining.
    destruct (_ && _); auto.
Qed.

(** C7.  With a prompt that is empty after trimming, a generation call
    sends no request and changes nothing but the error message, which
    becomes ['Please enter a description'].  With any other prompt the
    call sends exactly one request, however that request settles. *)
Theorem generate_requests (w : World G) (outcome : Api.FetchOutcome) :
  (JS.trim (prompt w) = [] ->
     handleGenerate outcome w =
       setError (Some (JS.js "Please enter a description")) w /\
     fetches (handleGenerate outcome w) = fetches w) /\
  (JS.trim (prompt w) <> [] ->
     fetches (handleGenerate outcome w) = fetches w ++ [requestBody w]).
Proof.
  split; intros H; unfold handleGenerate.
  - rewrite H. cbn [JS.truthy negb].
    rewrite handleGenerate_call_blank by exact H. split; reflexivity.
  - rewrite (truthy_nonempty H). cbn [negb].
    rewrite resume_fetches. rewrite handleGenerate_call_sends by exact H.
    reflexivity.
Qed.

(** C8 (amended).  The camera fit sets the camera position to [d] on all
    three axes, [d = |maxDim / 2 / tan(fov / 2)| * 1.5] with [maxDim] the
    largest dimension of the mesh's bounding box and [fov] the camera's
    field of view in radians, calls [lookAt(0, 0, 0)], and then runs
    [controls.update()] on the camera so placed: the camera and the
    control the refs hold afterwards are what that call makes of them.
    For a bounding box of size (0,0,0), when the tangent is a number other
    than zero, [d] is 0: finite, and at no distance from the point the
    camera was aimed at. *)
Theorem fitCamera_distance (w : World G) (mesh : THREE.Mesh G)
  (scene : THREE.Scene) (camera : THREE.PerspectiveCamera)
  (controls : THREE.OrbitControls) :
  sceneRef w = Some scene -> cameraRef w = Some camera ->
  controlsRef w = Some controls ->
  let size := Box3_getSize mesh in
  let maxDim := JS.Math_max [THREE.x size; THREE.y size; THREE.z size] in
  let t := Math_tan (THREE.fov camera * (JS.Math_PI / 180) / 2)%float in
  let d := (JS.Math_abs (maxDim / 2 / t) * 1.5)%float in
  let placed := placeCamera d camera in
  let w' := snd (fitCamera mesh w) in
  (THREE.position (THREE.camera_base placed) = THREE.vec d d d /\
   THREE.lookingAt placed = Some (THREE.vec 0 0 0) /\
   THREE.fov placed = THREE.fov camera /\
   cameraRef w' = Some (snd (OrbitControls_update controls placed)) /\
   controlsRef w' = Some (fst (OrbitControls_update controls placed))) /\
  (is_nan (THREE.x size) = false -> is_nan (THREE.y size) = false ->
   is_nan (THREE.z size) = false ->
     (THREE.x size <=? maxDim)%float = true /\
     (THREE.y size <=? maxDim)%float = true /\
     (THREE.z size <=? maxDim)%float = true /\
     (maxDim = THREE.x size \/ maxDim = THREE.y size \/
      maxDim = THREE.z size)) /\
  (size = THREE.vec 0 0 0 -> is_nan t = false -> is_zero t = false ->
     d = 0%float /\ JS.isFinite d = true).
Proof.
  intros Hs Hc Ho size maxDim t d placed w'. split; [| split].
  - subst w'. unfold fitCamera. rewrite Hs, Hc, Ho. cbn.
    repeat split; reflexivity.
  - intros Hx Hy Hz.
    assert (Hargs : Forall (fun v => is_nan v = false)
                      [THREE.x size; THREE.y size; THREE.z size])
      by (repeat constructor; assumption).
    destruct (Math_max_largest Hargs) as [Hall Hmem].
    cbv zeta in Hall, Hmem. fold maxDim in Hall, Hmem.
    inversion Hall as [| ? ? Hlx Hall1]; subst.
    inversion Hall1 as [| ? ? Hly Hall2]; subst.
    inversion Hall2 as [| ? ? Hlz _]; subst.
    split; [exact Hlx |]. split; [exact Hly |]. split; [exact Hlz |].
    destruct Hmem as [H0 | [H0 | [H0 | []]]]; auto.
  - intros Hsize Hn Hz.
    assert (Hd : d = 0%float).
    { subst d maxDim. rewrite Hsize. cbn [THREE.x THREE.y THREE.z THREE.vec].
      change (JS.Math_max [0%float; 0%float; 0%float]) with 0%float.
      apply zero_distance; assumption. }
    split; [exact Hd | rewrite Hd; reflexivity].
Qed.

(** C9.  [updateScale] stores [Math.max(0.1, value)] in the addressed
    component and applies it to the mesh: the value itself when it is
    larger than [0.1], [0.1] when it is a number that is not, and NaN when
    it is NaN.  What is stored for a number is therefore at least [0.1]
    and at least the number, and it is one of the two; for the inputs [0]
    and [-5] it is [0.1].  In every reachable state, and after the call,
    no scale component, stored or applied, is zero or negative: each is
    at least [0.1], or NaN where NaN was passed in. *)
Theorem updateScale_clamps (w : World G) (axis : Axis) (value : float) :
  reachable w ->
  let w' := updateScale axis value w in
  let stored := component (scale w') axis in
  stored =
    (if is_nan value then nan
     else if (0.1 <? value)%float then value else 0.1%float) /\
  (forall mesh, meshRef w = Some mesh ->
     exists mesh', meshRef w' = Some mesh' /\
       component (THREE.scale (THREE.base mesh')) axis = stored) /\
  (is_nan value = false ->
     (0.1 <=? stored)%float = true /\ (value <=? stored)%float = true /\
     (stored = 0.1%float \/ stored = value)) /\
  component (scale (updateScale axis 0 w)) axis = 0.1%float /\
  component (scale (updateScale axis (-5) w)) axis = 0.1%float /\
  scale_above_zero w /\ scale_above_zero w' /\
  scale_within a_tenth_or_nan w /\ scale_within a_tenth_or_nan w'.
Proof.
  intros Hr w' stored.
  pose proof (reachable_scale_above_zero Hr) as Hz.
  assert (Hstored : forall v,
             component (scale (updateScale axis v w)) axis =
             JS.Math_max [0.1%float; v]).
  { intros v. unfold updateScale. cbv zeta.
    destruct (meshRef w) as [mesh |] eqn:Hm.
    - erewrite apply_to_mesh_some by exact Hm. cbn. apply with_axis_component.
    - rewrite apply_to_mesh_none by exact Hm. cbn. apply with_axis_component. }
  assert (Hs : stored = JS.Math_max [0.1%float; value]) by apply Hstored.
  pose proof (@reachable_scale_within a_tenth_or_nan
                (or_intror eq_refl) Math_max_a_tenth_or_nan w Hr) as Ht.
  split; [| split; [| split; [| split; [| split; [| split; [| split;
    [| split]]]]]]].
  - rewrite Hs. apply Math_max_clamp.
  - intros mesh Hm. subst stored w'. rewrite Hstored.
    unfold updateScale. cbv zeta.
    erewrite apply_to_mesh_some by exact Hm. eexists. split; [reflexivity |].
    cbn. destruct axis; reflexivity.
  - intros Hn. rewrite Hs.
    split; [apply Math_max_at_least, Hn |].
    split; [apply Math_max_at_least_input, Hn |].
    rewrite Math_max_clamp, Hn. destruct (0.1 <? value)%float; auto.
  - rewrite Hstored. reflexivity.
  - rewrite Hstored. reflexivity.
  - exact Hz.
  - apply updateScale_above_zero, Hz.
  - exact Ht.
  - apply updateScale_scale_within; [apply Math_max_a_tenth_or_nan | exact Ht].
Qed.

(** C10.  Each transform setter changes the addressed component of its
    own stored vector and nothing else of the stored state: the other two
    components of that vector, the other two vectors, the prompt, the
    session fields, the scene, the camera and the request log are what
    they were.  Of the mesh it changes neither the geometry, the material
    and the overlay, nor the two vectors the setter is not about; the
    vector it is about becomes the stored one. *)
Theorem setters_frame (w : World G) (axis : Axis) (value : float) :
  let p := updatePosition axis value w in
  let s := updateScale axis value w in
  let r := updateRotation axis value w in
  (position p = with_axis (position w) axis value /\
   (forall other, other = axis \/
      component (position p) other = component (position w) other) /\
   scale p = scale w /\ rotation p = rotation w /\
   same_but_transform w p /\ same_mesh_body w p /\
   applied THREE.position p = option_map (fun _ => position p) (meshRef w) /\
   applied THREE.scale p = applied THREE.scale w /\
   applied THREE.rotation p = applied THREE.rotation w) /\
  (scale s = with_axis (scale w) axis (JS.Math_max [0.1%float; value]) /\
   (forall other, other = axis \/
      component (scale s) other = component (scale w) other) /\
   position s = position w /\ rotation s = rotation w /\
   same_but_transform w s /\ same_mesh_body w s /\
   applied THREE.scale s = option_map (fun _ => scale s) (meshRef w) /\
   applied THREE.position s = applied THREE.position w /\
   applied THREE.rotation s = applied THREE.rotation w) /\
  (rotation r = with_axis (rotation w) axis value /\
   (forall other, other = axis \/
      component (rotation r) other = component (rotation w) other) /\
   position r = position w /\ scale r = scale w /\
   same_but_transform w r /\ same_mesh_body w r /\
   applied THREE.rotation r =
     option_map
       (fun _ => THREE.vec (radians (THREE.x (rotation r)))
                   (radians (THREE.y (rotation r)))
                   (radians (THREE.z (rotation r)))) (meshRef w) /\
   applied THREE.position r = applied THREE.position w /\
   applied THREE.scale r = applied THREE.scale w).
Proof.
  intros p s r. subst p s r.
  unfold updatePosition, updateScale, updateRotation. cbv zeta.
  unfold same_but_transform, same_mesh_body, applied.
  destruct (meshRef w) as [mesh |] eqn:Hm.
  - repeat erewrite apply_to_mesh_some by exact Hm. cbn. rewrite ?Hm. cbn.
    repeat match goal with |- _ /\ _ => split end;
      try reflexivity; try (intros other; apply with_axis_others);
      destruct axis; reflexivity.
  - repeat rewrite apply_to_mesh_none by exact Hm. cbn. rewrite ?Hm.
    repeat match goal with |- _ /\ _ => split end;
      try reflexivity; try (intros other; apply with_axis_others); exact I.
Qed.

End Properties.

(** ** The page on concrete inputs *)

Lemma reachable_scenario (events : list Event) (w : Scenario.Session) :
  @reachable _ Double.externals w ->
  @reachable _ Double.externals (Scenario.run events w).
Proof. apply reachable_run. Qed.

Lemma reachable_pending : @reachable _ Double.externals Scenario.pending.
Proof. apply reachable_scenario. constructor. Qed.

Lemma reachable_generated : @reachable _ Double.externals Scenario.generated.
Proof. apply reachable_scenario, reachable_pending. Qed.

Lemma reachable_refinable : @reachable _ Double.externals Scenario.refinable.
Proof. apply reachable_scenario, reachable_generated. Qed.

(** C1, witness: HTTP 500 with body ["bad prompt"] on a refinement. *)
Lemma generate_not_ok_witness :
  JS.trim (prompt Scenario.refinable) <> [] /\
  let w' :=
    @handleGenerate _ Double.externals Scenario.badPrompt Scenario.refinable in
  error w' = Some (JS.js "bad prompt") /\ loading w' = false /\
  same_viewport Scenario.refinable w' /\ same_transform Scenario.refinable w' /\
  currentStlData w' = currentStlData Scenario.refinable /\
  prompt w' = prompt Scenario.refinable /\
  generatedCode w' = JS.js "".
Proof.
  split.
  - vm_compute. discriminate.
  - apply (@generate_not_ok _ Double.externals Scenario.refinable
             (JS.js "bad prompt")).
    vm_compute. discriminate.
Defined.

(** C1, counterexample: after a successful generation the stored
    procedural source is ["cube(10);"]; a refinement answered with HTTP 500
    and body ["bad prompt"] sets the error message to that body and leaves
    the stored source empty, not as it was. *)
Lemma generate_not_ok_clears_code :
  let w := Scenario.refinable in
  let w' := Scenario.run [ClickGenerate; Settle Scenario.badPrompt] w in
  error w' = Some (JS.js "bad prompt") /\
  generatedCode w = JS.js "cube(10);" /\
  generatedCode w' = JS.js "" /\
  generatedCode w' <> generatedCode w.
Proof. vm_compute. repeat split. discriminate. Qed.

(** C2, witness: a payload that is not base64, and one that is base64 of
    three bytes. *)
Lemma generate_decode_failure_witness :
  JS.trim (prompt Scenario.refinable) <> [] /\
  (let w' :=
     @handleGenerate _ Double.externals (Api.ResponseOk Scenario.notBase64)
       Scenario.refinable in
   Double.atob (Api.stl_data Scenario.notBase64) =
     inl Double.invalidCharacterError /\
   error w' = Some (JS.messageOf Double.invalidCharacterError) /\
   same_viewport Scenario.refinable w' /\
   currentStlData w' = currentStlData Scenario.refinable /\
   generatedCode w' = JS.js "") /\
  (let w' :=
     @handleGenerate _ Double.externals (Api.ResponseOk Scenario.notStl)
       Scenario.refinable in
   Double.atob (Api.stl_data Scenario.notStl) = inr [0; 0; 0]%N /\
   error w' = Some (JS.js "Offset is outside the bounds of the DataView") /\
   meshRef w' = meshRef Scenario.refinable).
Proof.
  assert (Hp : JS.trim (prompt Scenario.refinable) <> [])
    by (vm_compute; discriminate).
  split; [exact Hp |]. split.
  - destruct (proj1 (@generate_decode_failure _ Double.externals
                       Scenario.refinable Scenario.notBase64 Hp)
                Double.invalidCharacterError eq_refl)
      as [He [_ [Hv [_ [Hs [_ Hc]]]]]].
    cbv zeta. auto.
  - destruct (proj2 (@generate_decode_failure _ Double.externals
                       Scenario.refinable Scenario.notStl Hp)
                [0; 0; 0]%N
                (JS.ErrorObject
                   (JS.js "Offset is outside the bounds of the DataView"))
                eq_refl eq_refl)
      as [He [_ [Hm _]]].
    cbv zeta. auto.
Defined.

(** C2, counterexample.  A mesh generated from ["cube(10);"] is displayed.
    A refinement answered with a payload that is not base64 leaves the
    stored procedural source empty.  A refinement answered with base64 of
    three bytes, which does not parse as an STL file, takes the displayed
    mesh out of the scene, disposes its geometry and material, and
    overwrites both session fields with the values of the failed
    response. *)
Lemma generate_decode_failure_changes_state :
  let w := Scenario.refinable in
  let w1 :=
    Scenario.run [ClickGenerate; Settle (Api.ResponseOk Scenario.notBase64)] w in
  let w2 :=
    Scenario.run [ClickGenerate; Settle (Api.ResponseOk Scenario.notStl)] w in
  (generatedCode w = JS.js "cube(10);" /\ generatedCode w1 = JS.js "") /\
  (option_map THREE.scene_meshes (sceneRef w) = Some [3] /\
   option_map THREE.scene_meshes (sceneRef w2) = Some [] /\
   disposed w = [] /\ disposed w2 = [1; 2] /\
   generatedCode w2 = JS.js "sphere(5);" /\
   currentStlData w2 = Some (JS.js "AAAA") /\
   error w2 = Some (JS.js "Offset is outside the bounds of the DataView")).
Proof. vm_compute. repeat split. Qed.

(** C3, the code at the failing input: the user moves the mesh to x = 5
    and refines it; after the successful refinement the stored position is
    still (5,0,0) while the new mesh sits at (0,0,0). *)
Lemma regenerate_keeps_stale_transform :
  let w := Scenario.run [ClickGenerate; Settle Scenario.cube] Scenario.moved in
  position w = THREE.vec 5 0 0 /\
  applied THREE.position w = Some (THREE.vec 0 0 0) /\
  applied THREE.position Scenario.moved = Some (THREE.vec 5 0 0).
Proof. vm_compute. repeat split. Qed.

(** C4, the code at the failing input: the first mesh owns the resources
    1 and 2 (geometry, material) and 4 and 5 (geometry and material of its
    wireframe); after a successful refinement the scene shows the new mesh
    only, and the resources disposed are 1 and 2. *)
Lemma regenerate_leaks_wireframe :
  let w :=
    Scenario.run [ClickGenerate; Settle Scenario.cube] Scenario.refinable in
  option_map THREE.mesh_resources (meshRef Scenario.refinable) =
    Some [1; 2; 4; 5] /\
  disposed w = [1; 2] /\
  option_map THREE.scene_meshes (sceneRef w) = Some [9].
Proof. vm_compute. repeat split. Qed.

(** C5, witness: the refinement request after a successful generation. *)
Lemma refinement_fields_witness :
  @reachable _ Double.externals Scenario.refinable /\
  JS.trim (prompt Scenario.refinable) <> [] /\
  (generatedCode Scenario.refinable = [] \/
   currentStlData Scenario.refinable <> None) /\
  exists request,
    fetches (handleGenerate_call Scenario.refinable) =
      fetches Scenario.refinable ++ [request] /\
    Api.current_code request = Some (JS.js "cube(10);") /\
    Api.current_stl_data request = Some Double.emptyStl.
Proof.
  pose proof reachable_refinable as Hr.
  assert (Hp : JS.trim (prompt Scenario.refinable) <> [])
    by (vm_compute; discriminate).
  split; [exact Hr |]. split; [exact Hp |].
  destruct (@refinement_fields _ Double.externals Scenario.refinable Hr)
    as [Hinv Hreq].
  split; [exact Hinv |].
  destruct (Hreq Hp) as [request [Hf [_ [Hc Hs]]]].
  exists request. split; [exact Hf |]. split; [exact Hc | exact Hs].
Defined.

(** C5, counterexample: after a successful generation and a refinement
    answered with HTTP 500, the page is in a state where the stored mesh
    payload is present and the stored procedural source is absent. *)
Lemma failed_refinement_splits_session :
  let w :=
    Scenario.run [ClickGenerate; Settle Scenario.badPrompt] Scenario.refinable in
  @reachable _ Double.externals w /\
  JS.truthy (generatedCode w) = false /\
  JS.truthy_opt (currentStlData w) = true.
Proof.
  intros w. split; [apply reachable_scenario, reachable_refinable |].
  vm_compute. split; reflexivity.
Qed.

(** C6, the code at the failing input: while a request is pending the
    button does nothing, but Enter in the prompt field sends a second
    request. *)
Lemma enter_key_sends_second_request :
  let w := Scenario.pending in
  let w' := @step _ Double.externals (KeyDown (JS.js "Enter") false) w in
  loading w = true /\ inflight w = 1 /\ List.length (fetches w) = 1 /\
  @step _ Double.externals ClickGenerate w = w /\
  inflight w' = 2 /\ List.length (fetches w') = 2.
Proof. vm_compute. repeat split. Qed.

(** C7, witness: the empty prompt of a fresh page, and a prompt. *)
Lemma generate_requests_witness :
  (JS.trim (prompt (@initial (list THREE.Vector3))) = [] /\
   fetches (@handleGenerate _ Double.externals Scenario.cube initial) = []) /\
  (let w := setPrompt (JS.js "a 10mm cube") (@initial (list THREE.Vector3)) in
   JS.trim (prompt w) <> [] /\
   fetches (@handleGenerate _ Double.externals Scenario.cube w) =
     [requestBody w]).
Proof.
  split.
  - split; [reflexivity |].
    apply (proj1 (@generate_requests _ Double.externals initial Scenario.cube)).
    reflexivity.
  - cbv zeta.
    assert (Hp : JS.trim
                   (prompt (setPrompt (JS.js "a 10mm cube")
                              (@initial (list THREE.Vector3)))) <> [])
      by (vm_compute; discriminate).
    split; [exact Hp |].
    apply (proj2 (@generate_requests _ Double.externals _ Scenario.cube) Hp).
Defined.

(** C8, witness: fitting the camera to the mesh of the first
    generation, whose bounding box has size (0,0,0). *)
Lemma fitCamera_distance_witness :
  sceneRef Scenario.pending = Some Scenario.scene /\
  cameraRef Scenario.pending = Some Scenario.camera /\
  controlsRef Scenario.pending = Some Scenario.controls /\
  @Box3_getSize _ Double.externals Scenario.mesh = THREE.vec 0 0 0 /\
  THREE.position (THREE.camera_base (placeCamera 0 Scenario.camera)) =
    THREE.vec 0 0 0 /\
  cameraRef (snd (@fitCamera _ Double.externals Scenario.mesh Scenario.pending))
    = Some (snd (Double.OrbitControls_update Scenario.controls
                   (placeCamera 0 Scenario.camera))).
Proof.
  repeat (split; [reflexivity |]).
  destruct (@fitCamera_distance _ Double.externals Scenario.pending
              Scenario.mesh Scenario.scene Scenario.camera Scenario.controls
              eq_refl eq_refl eq_refl)
    as [[_ [_ [_ [Hc _]]]] [_ Hzero]].
  destruct (Hzero eq_refl eq_refl eq_refl) as [Hd _].
  rewrite Hd in Hc. exact Hc.
Defined.

(** C8, counterexample: the mesh of the first generation has a bounding
    box of size (0,0,0); the distance the fit computes for it is 0, and
    after the fit the camera is at (0,0,0), the very point it looks at,
    not at some minimum distance from it. *)
Lemma fitCamera_no_fallback :
  @Box3_getSize _ Double.externals Scenario.mesh = THREE.vec 0 0 0 /\
  @cameraDistance _ Double.externals (THREE.vec 0 0 0) 75 = 0%float /\
  meshRef Scenario.generated = Some Scenario.mesh /\
  option_map (fun c => (THREE.position (THREE.camera_base c), THREE.lookingAt c))
    (cameraRef Scenario.generated) =
  Some (THREE.vec 0 0 0, Some (THREE.vec 0 0 0)).
Proof. vm_compute. repeat split. Qed.

(** C9, witness: the scale input [2.5] on a displayed mesh, and the
    inputs [0] and [-5]. *)
Lemma updateScale_clamps_witness :
  @reachable _ Double.externals Scenario.generated /\
  component (scale (updateScale Y 2.5 Scenario.generated)) Y = 2.5%float /\
  applied THREE.scale (updateScale Y 2.5 Scenario.generated) =
    Some (THREE.vec 1 2.5 1) /\
  component (scale (updateScale Y 0 Scenario.generated)) Y = 0.1%float /\
  component (scale (updateScale Y (-5) Scenario.generated)) Y = 0.1%float /\
  scale_above_zero (updateScale Y 2.5 Scenario.generated).
Proof.
  pose proof reachable_generated as Hr.
  split; [exact Hr |].
  destruct (@updateScale_clamps _ Double.externals Scenario.generated Y
              2.5%float Hr)
    as [Hs [_ [_ [Hzero [Hneg [_ [Hz _]]]]]]].
  split; [exact Hs |]. split; [reflexivity |].
  split; [exact Hzero |]. split; [exact Hneg | exact Hz].
Defined.

(** ** Further properties of the [Home] component *)

Section MoreProperties.

Context {G : Type} `{!Externals G}.

Lemma triple_any {A : Type} (P : World G -> Prop) (m : M G A) :
  triple P m (fun _ _ => True) (fun _ => True).
Proof. intros w _. destruct (m w) as [[err | a] w']; exact I. Qed.

(** The continuation of a call ends with the in-flight flag cleared. *)
Lemma resume_loading (outcome : Api.FetchOutcome) (w : World G) :
  loading (handleGenerate_resume outcome w) = false.
Proof.
  unfold handleGenerate_resume.
  apply triple_try
    with (P := fun _ => True) (N := fun _ => True) (E := fun _ => True);
    auto using triple_any.
Qed.

Lemma resume_inflight (outcome : Api.FetchOutcome) (w : World G) :
  inflight (handleGenerate_resume outcome w) = inflight w.
Proof.
  apply handleGenerate_resume_keeps
    with (I := fun w' => inflight w' = inflight w)
         (J := fun w' => inflight w' = inflight w); auto.
  constructor; intros; cbn; assumption.
Qed.

(** A transform handler touches the stored transform and the mesh
    only. *)
Lemma transform_handlers_session (axis : Axis) (value : float) (w : World G) :
  same_but_transform w (updatePosition axis value w) /\
  same_but_transform w (updateScale axis value w) /\
  same_but_transform w (updateRotation axis value w) /\
  same_but_transform w (resetTransforms w).
Proof.
  unfold updatePosition, updateScale, updateRotation, resetTransforms,
    apply_to_mesh, same_but_transform.
  cbn. destruct (meshRef w); cbn; auto 60.
Qed.

Ltac transform_event w :=
  unfold transformPanel; destruct (meshRef w) eqn:?; [| assumption].

(** X1.  Whatever the outcome of a request, the continuation of the call
    clears the in-flight flag; and in every reachable state with no
    request pending the flag is clear, so the generate button is
    enabled. *)
Theorem idle_page_is_enabled (w : World G) :
  (forall outcome, loading (handleGenerate_resume outcome w) = false) /\
  (reachable w -> inflight w = 0 -> loading w = false).
Proof.
  split; [intros outcome; apply resume_loading |].
  revert w.
  apply (reachable_invariant (fun w => inflight w = 0 -> loading w = false));
    [reflexivity |].
  intros e w Hw. destruct e; cbn [step]; try exact Hw;
    try (effect_event; exact Hw).
  - unfold onKeyDown, handleGenerate_call.
    destruct (_ && _); [destruct (negb _) |]; try exact Hw.
    cbn. discriminate.
  - unfold onClickGenerate, handleGenerate_call.
    destruct (loading w) eqn:Hl; [rewrite Hl; exact Hw |].
    destruct (negb _); [intros _; exact Hl | cbn; discriminate].
  - destruct (inflight w) eqn:Hi; [rewrite Hi; exact Hw |].
    intros _. apply resume_loading.
  - destruct (transform_handlers_session axis value w)
      as [[_ [_ [Hl [_ [_ [_ [_ [_ [_ [_ [_ [_ [_ Hi]]]]]]]]]]]]] _].
    unfold transformPanel. destruct (meshRef w); [| exact Hw].
    rewrite Hl, Hi. exact Hw.
  - destruct (transform_handlers_session axis value w)
      as [_ [[_ [_ [Hl [_ [_ [_ [_ [_ [_ [_ [_ [_ [_ Hi]]]]]]]]]]]]] _]].
    unfold transformPanel. destruct (meshRef w); [| exact Hw].
    rewrite Hl, Hi. exact Hw.
  - destruct (transform_handlers_session axis value w)
      as [_ [_ [[_ [_ [Hl [_ [_ [_ [_ [_ [_ [_ [_ [_ [_ Hi]]]]]]]]]]]]] _]]].
    unfold transformPanel. destruct (meshRef w); [| exact Hw].
    rewrite Hl, Hi. exact Hw.
  - destruct (transform_handlers_session X 0%float w)
      as [_ [_ [_ [_ [_ [Hl [_ [_ [_ [_ [_ [_ [_ [_ [_ [_ Hi]]]]]]]]]]]]]]]].
    unfold transformPanel. destruct (meshRef w); [| exact Hw].
    rewrite Hl, Hi. exact Hw.
Qed.

(** *** The request log *)

Lemma truthy_true (s : JS.jsstring) : JS.truthy s = true -> s <> [].
Proof. destruct s; [discriminate | intros _; discriminate]. Qed.

Lemma requestBody_well_formed (w : World G) :
  JS.trim (prompt w) <> [] -> well_formed_request (requestBody w).
Proof.
  intros Hp. unfold requestBody.
  destruct (JS.truthy_opt (currentStlData w) && JS.truthy (generatedCode w))
    eqn:Hr; (split; [exact Hp |]).
  - right. apply andb_true_iff in Hr. destruct Hr as [Hs Hc].
    destruct (currentStlData w) as [stl |]; [| discriminate].
    exists (generatedCode w), stl. auto using truthy_true.
  - left. split; reflexivity.
Qed.

Lemma handleGenerate_call_fetches (w : World G) :
  fetches (handleGenerate_call w) = fetches w \/
  (JS.trim (prompt w) <> [] /\
   fetches (handleGenerate_call w) = fetches w ++ [requestBody w]).
Proof.
  unfold handleGenerate_call.
  destruct (JS.truthy (JS.trim (prompt w))) eqn:Ht; cbn; [right | left; reflexivity].
  split; [apply truthy_true, Ht | reflexivity].
Qed.

(** X2.  In every reachable state, every request the page has sent has a
    prompt that is not blank, and carries the two refinement fields
    together, both non-empty, or not at all. *)
Theorem requests_well_formed (w : World G) :
  reachable w -> Forall well_formed_request (fetches w).
Proof.
  apply (reachable_invariant (fun w => Forall well_formed_request (fetches w)));
    [constructor |].
  assert (Hcall : forall w0 : World G,
             Forall well_formed_request (fetches w0) ->
             Forall well_formed_request (fetches (handleGenerate_call w0))).
  { intros w0 Hw0.
    destruct (handleGenerate_call_fetches w0) as [-> | [Hp ->]]; [exact Hw0 |].
    apply Forall_app. split; [exact Hw0 |].
    constructor; [apply requestBody_well_formed, Hp | constructor]. }
  intros e w0 Hw0. destruct e; cbn [step]; try exact Hw0;
    try (effect_event; exact Hw0).
  - unfold onKeyDown. destruct (_ && _); [apply Hcall |]; exact Hw0.
  - unfold onClickGenerate. destruct (loading w0); [| apply Hcall]; exact Hw0.
  - destruct (inflight w0); [exact Hw0 |]. rewrite resume_fetches. exact Hw0.
  - destruct (transform_handlers_session axis value w0)
      as [[_ [_ [_ [_ [_ [_ [_ [_ [_ [_ [_ [_ [Hf _]]]]]]]]]]]]] _].
    unfold transformPanel. destruct (meshRef w0); [rewrite Hf |]; exact Hw0.
  - destruct (transform_handlers_session axis value w0)
      as [_ [[_ [_ [_ [_ [_ [_ [_ [_ [_ [_ [_ [_ [Hf _]]]]]]]]]]]]] _]].
    unfold transformPanel. destruct (meshRef w0); [rewrite Hf |]; exact Hw0.
  - destruct (transform_handlers_session axis value w0)
      as [_ [_ [[_ [_ [_ [_ [_ [_ [_ [_ [_ [_ [_ [_ [Hf _]]]]]]]]]]]]] _]]].
    unfold transformPanel. destruct (meshRef w0); [rewrite Hf |]; exact Hw0.
  - destruct (transform_handlers_session X 0%float w0)
      as [_ [_ [_ [_ [_ [_ [_ [_ [_ [_ [_ [_ [_ [_ [_ [Hf _]]]]]]]]]]]]]]]].
    unfold transformPanel. destruct (meshRef w0); [rewrite Hf |]; exact Hw0.
Qed.

(** *** Failures before the session is written *)

(** X3.  When the request is rejected, the response is not ok, its JSON
    does not parse, or its payload is not base64, the continuation of the
    call changes nothing but the error message and the in-flight flag.
    The message is that of the error thrown, the body of the failed
    response, or ['Unknown error'] when what was thrown is no [Error]. *)
Theorem early_failure_atomic (w : World G) :
  (forall err,
     handleGenerate_resume (Api.FetchRejected err) w =
     setLoading false (setError (Some (JS.messageOf err)) w)) /\
  (forall errorText,
     handleGenerate_resume (Api.ResponseNotOk errorText) w =
     setLoading false (setError (Some errorText) w)) /\
  (forall err,
     handleGenerate_resume (Api.ResponseBadJson err) w =
     setLoading false (setError (Some (JS.messageOf err)) w)) /\
  (forall data err,
     atob (Api.stl_data data) = inl err ->
     handleGenerate_resume (Api.ResponseOk data) w =
     setLoading false (setError (Some (JS.messageOf err)) w)) /\
  JS.messageOf JS.OtherValue = JS.js "Unknown error".
Proof.
  repeat split; try reflexivity.
  intros data err Ha. apply resume_atob_throws, Ha.
Qed.

(** *** A whole successful call *)

(** X4.  A generation call with a prompt that is not blank, answered by
    a payload that decodes, ends with no error message, the in-flight
    flag clear, the prompt emptied, both session fields as the response
    gave them, a mesh at the identity transform in [meshRef], and the
    stored transform as it was before the call. *)
Theorem generate_call_ok (w : World G) (data : Api.GenerateResponse)
  (binary : JS.jsstring) (g : G) :
  JS.trim (prompt w) <> [] ->
  atob (Api.stl_data data) = inr binary ->
  STLLoader_parse (JS.Uint8Array_from binary) = inr g ->
  let w' := handleGenerate (Api.ResponseOk data) w in
  error w' = None /\ loading w' = false /\ prompt w' = JS.js "" /\
  generatedCode w' = Api.openscad_code data /\
  currentStlData w' = Some (Api.stl_data data) /\
  same_transform w w' /\
  fetches w' = fetches w ++ [requestBody w] /\ inflight w' = inflight w /\
  exists mesh, meshRef w' = Some mesh /\
    THREE.position (THREE.base mesh) = THREE.vec 0 0 0 /\
    THREE.scale (THREE.base mesh) = THREE.vec 1 1 1 /\
    THREE.rotation (THREE.base mesh) = THREE.vec 0 0 0.
Proof.
  intros Hp Ha Hg w'. subst w'. unfold handleGenerate.
  rewrite (truthy_nonempty Hp). cbn [negb].
  rewrite handleGenerate_call_sends by exact Hp.
  match goal with
  | |- context [handleGenerate_resume _ ?w0] =>
      destruct (generate_ok w0 data Ha Hg)
        as [[mesh [Hm Hb]] [Hc [Hs [Hpr [Hl [He Ht]]]]]];
      pose proof (resume_fetches (Api.ResponseOk data) w0) as Hf;
      pose proof (resume_inflight (Api.ResponseOk data) w0) as Hi
  end.
  cbv zeta in *. rewrite He, Hl, Hpr, Hc, Hs, Hf, Hi.
  repeat (split; [try reflexivity; try exact Ht |]).
  exists mesh. split; [exact Hm |]. rewrite Hb. repeat split.
Qed.

(** *** The theme button *)

(** X5.  Toggling the theme runs the cleanup of the mounted effect and
    then the setup again.  The cleanup disposes the renderer and takes its
    canvas out of the container; the setup builds a new scene, renderer,
    camera and control: the new scene holds the five fixed objects and no
    generated mesh, even when [meshRef] holds one, which it keeps holding;
    the new renderer is attached and not disposed; camera and control are
    what the control's constructor and the first turn of the animation
    loop make of a new camera at (30,30,30).  No geometry or material is
    disposed, and session, prompt, stored transform and request log are
    as before. *)
Theorem toggle_theme_drops_mesh (w : World G) :
  let w' := step ToggleTheme w in
  let camera :=
    {| THREE.camera_base :=
         THREE.position_set 30 30 30 (THREE.new_Object3D (next_id w));
       THREE.fov := 75; THREE.near := 0.1; THREE.far := 10000;
       THREE.lookingAt := None |} in
  let made := OrbitControls_new camera in
  let updated := OrbitControls_update (configure (fst made)) (snd made) in
  isDarkMode w' = negb (isDarkMode w) /\
  sceneRef w' =
    Some {| THREE.scene_children :=
              [THREE.AmbientLight; THREE.DirectionalLight;
               THREE.DirectionalLight; THREE.GridHelper; THREE.AxesHelper] |} /\
  no_mesh_in_scene w' /\
  (forall renderer, rendererRef w = Some renderer ->
     rendererRef (useEffect_cleanup (setIsDarkMode (negb (isDarkMode w)) w)) =
       Some {| THREE.attached := false; THREE.renderer_disposed := true |}) /\
  rendererRef w' =
    Some {| THREE.attached := true; THREE.renderer_disposed := false |} /\
  cameraRef w' = Some (snd updated) /\ controlsRef w' = Some (fst updated) /\
  meshRef w' = meshRef w /\ disposed w' = disposed w /\
  same_transform w w' /\
  prompt w' = prompt w /\ generatedCode w' = generatedCode w /\
  currentStlData w' = currentStlData w /\ error w' = error w /\
  loading w' = loading w /\ fetches w' = fetches w /\
  inflight w' = inflight w.
Proof.
  cbn [step]. unfold no_mesh_in_scene, same_transform, useEffect_cleanup.
  cbn [rendererRef setIsDarkMode].
  destruct (rendererRef w) as [renderer |]; cbn;
    (split; [reflexivity |]; split; [reflexivity |];
     split; [intros scene Hs; injection Hs as <-; reflexivity |];
     split; [intros r Hr; try discriminate Hr; reflexivity |];
     repeat split).
Qed.

(** *** Stored and applied transform, event by event *)

(** X6.  Agreement of the stored transform with the transform applied to
    the mesh survives every event but the settling of a success response:
    mounting, the theme button, a turn of the animation loop, typing, both
    generation triggers, every failed request, every setter and the
    reset. *)
Theorem sync_kept_by_other_events (e : Event) (w : World G) :
  in_sync w -> settles_ok e = false -> in_sync (step e w).
Proof.
  intros Hw He. destruct e; cbn [step]; try exact Hw;
    try (effect_event; exact Hw).
  - unfold onKeyDown, handleGenerate_call.
    destruct (_ && _); [destruct (negb _) |]; exact Hw.
  - unfold onClickGenerate, handleGenerate_call.
    destruct (loading w); [| destruct (negb _)]; exact Hw.
  - destruct (inflight w); [exact Hw |].
    destruct outcome; [exact Hw | exact Hw | exact Hw | discriminate He].
  - unfold transformPanel. destruct (meshRef w); [| exact Hw].
    apply (setters_keep_sync axis value Hw).
  - unfold transformPanel. destruct (meshRef w); [| exact Hw].
    apply (setters_keep_sync axis value Hw).
  - unfold transformPanel. destruct (meshRef w); [| exact Hw].
    apply (setters_keep_sync axis value Hw).
  - unfold transformPanel. destruct (meshRef w); [| exact Hw].
    apply resetTransforms_in_sync.
Qed.

(** Once there is a mesh, there is one for good. *)
Lemma resume_keeps_mesh (outcome : Api.FetchOutcome) (w : World G) :
  meshRef w <> None -> meshRef (handleGenerate_resume outcome w) <> None.
Proof.
  apply handleGenerate_resume_keeps
    with (I := fun w' => meshRef w' <> None) (J := fun w' => meshRef w' <> None);
    auto.
  constructor; intros; cbn; try assumption. discriminate.
Qed.

Lemma reachable_identity_before_mesh (w : World G) :
  reachable w -> meshRef w = None -> identity_transform w.
Proof.
  apply (reachable_invariant
           (fun w => meshRef w = None -> identity_transform w)).
  { intros _. repeat split. }
  intros e w0 Hw0. destruct e; cbn [step]; try exact Hw0;
    try (effect_event; exact Hw0).
  - unfold onKeyDown, handleGenerate_call.
    destruct (_ && _); [destruct (negb _) |]; exact Hw0.
  - unfold onClickGenerate, handleGenerate_call.
    destruct (loading w0); [| destruct (negb _)]; exact Hw0.
  - destruct (inflight w0); [exact Hw0 |]. intros Hnone.
    destruct (resume_transform outcome (set_inflight n w0)) as [Hp [Hs Hr]].
    assert (Hm : meshRef w0 = None).
    { destruct (meshRef w0) eqn:Hm; [| reflexivity].
      exfalso. apply (@resume_keeps_mesh outcome (set_inflight n w0));
        [cbn; rewrite Hm; discriminate | exact Hnone]. }
    destruct (Hw0 Hm) as [Hp0 [Hs0 Hr0]].
    unfold identity_transform. rewrite Hp, Hs, Hr. cbn. auto.
  - unfold transformPanel. destruct (meshRef w0) eqn:Hm; [| rewrite Hm; exact Hw0].
    unfold updatePosition. cbv zeta. erewrite apply_to_mesh_some by exact Hm.
    cbn. discriminate.
  - unfold transformPanel. destruct (meshRef w0) eqn:Hm; [| rewrite Hm; exact Hw0].
    unfold updateScale. cbv zeta. erewrite apply_to_mesh_some by exact Hm.
    cbn. discriminate.
  - unfold transformPanel. destruct (meshRef w0) eqn:Hm; [| rewrite Hm; exact Hw0].
    unfold updateRotation. cbv zeta. erewrite apply_to_mesh_some by exact Hm.
    cbn. discriminate.
  - unfold transformPanel. destruct (meshRef w0) eqn:Hm; [| rewrite Hm; exact Hw0].
    unfold resetTransforms. cbn. rewrite Hm. cbn. discriminate.
Qed.

(** X7.  As long as no mesh has been installed the stored transform is
    the identity, the transform panel being rendered only once there is a
    mesh; so the first successful generation leaves the stored transform
    and the transform of its mesh in agreement. *)
Theorem first_generation_in_sync (w : World G) (data : Api.GenerateResponse)
  (binary : JS.jsstring) (g : G) :
  reachable w -> meshRef w = None ->
  atob (Api.stl_data data) = inr binary ->
  STLLoader_parse (JS.Uint8Array_from binary) = inr g ->
  identity_transform w /\
  in_sync (handleGenerate_resume (Api.ResponseOk data) w).
Proof.
  intros Hr Hnone Ha Hg.
  pose proof (reachable_identity_before_mesh Hr Hnone) as Hid.
  split; [exact Hid |].
  destruct (generate_ok w data Ha Hg) as [[mesh [Hm Hb]] [_ [_ [_ [_ [_ Ht]]]]]].
  destruct Ht as [Hp [Hs Hro]]. destruct Hid as [Hp0 [Hs0 Hr0]].
  intros mesh' Hm'. cbv zeta in Hm. rewrite Hm in Hm'. injection Hm' as <-.
  rewrite Hb, Hp, Hs, Hro, Hp0, Hs0, Hr0. repeat split.
Qed.

(** *** The displayed mesh and the disposal log *)

Lemma some_eq {A : Type} (a b : A) : Some a = Some b -> a = b.
Proof. intros H0. injection H0. auto. Qed.

(** Only the disposal log, the identity counter, the scene and the
    identity and resources of the mesh matter to the two predicates. *)
Lemma live_frame (w w' : World G) :
  disposed w' = disposed w -> next_id w' = next_id w ->
  sceneRef w' = sceneRef w ->
  option_map (fun m => THREE.id (THREE.base m)) (meshRef w') =
  option_map (fun m => THREE.id (THREE.base m)) (meshRef w) ->
  option_map (@THREE.mesh_resources G) (meshRef w') =
  option_map (@THREE.mesh_resources G) (meshRef w) ->
  identities_used w /\ displayed_mesh_live w ->
  identities_used w' /\ displayed_mesh_live w'.
Proof.
  intros Hd Hn Hs Hi Hm [[Hu1 Hu2] Hl].
  unfold identities_used, displayed_mesh_live. rewrite Hd, Hn, Hs.
  split; [split; [exact Hu1 |] |].
  - intros mesh' Hmesh' r Hr. rewrite Hmesh' in Hm.
    destruct (meshRef w) as [mesh |]; [| discriminate].
    apply some_eq in Hm. rewrite Hm in Hr.
    apply (Hu2 mesh eq_refl r Hr).
  - intros scene Hscene.
    destruct (Hl scene Hscene) as [H0 | [mesh [Hmesh [Hsm Hnd]]]];
      [left; exact H0 |].
    right. rewrite Hmesh in Hm, Hi.
    destruct (meshRef w') as [mesh' |]; [| discriminate].
    apply some_eq in Hm. apply some_eq in Hi.
    exists mesh'. split; [reflexivity |]. rewrite Hi, Hm. auto.
Qed.

Lemma no_mesh_live (w : World G) :
  no_mesh_in_scene w -> displayed_mesh_live w.
Proof. intros H scene Hs. left. apply H, Hs. Qed.

Lemma clearPreviousMesh_live (E : World G -> Prop) :
  triple (fun w => identities_used w /\ displayed_mesh_live w)
    clearPreviousMesh
    (fun _ w => identities_used w /\ no_mesh_in_scene w) E.
Proof.
  intros w [[Hu1 Hu2] Hl]. unfold clearPreviousMesh.
  destruct (meshRef w) as [mesh |] eqn:Hm;
    [destruct (sceneRef w) as [scene |] eqn:Hs |].
  - split; [split |].
    + intros r Hr. cbn in Hr. apply in_app_or in Hr.
      destruct Hr as [Hr | [<- | []]];
        [apply in_app_or in Hr; destruct Hr as [Hr | [<- | []]] |].
      * apply Hu1, Hr.
      * apply (Hu2 mesh eq_refl). left. reflexivity.
      * apply (Hu2 mesh eq_refl). right. left. reflexivity.
    + intros mesh' Hm' r Hr. cbn in Hm'. rewrite Hm in Hm'.
      injection Hm' as <-. apply (Hu2 mesh eq_refl r Hr).
    + intros scene' H'. cbn in H'. injection H' as <-.
      apply scene_meshes_remove.
      destruct (Hl scene Hs) as [H | [mesh' [Hm' [H _]]]]; [left; exact H |].
      right. rewrite Hm in Hm'. injection Hm' as <-. exact H.
  - split; [split; [exact Hu1 | rewrite Hm; exact Hu2] |].
    intros scene' H'. congruence.
  - split; [split; [exact Hu1 | rewrite Hm; exact Hu2] |].
    intros scene' H'. destruct (Hl scene' H') as [H | [mesh' [Hm' _]]];
      [exact H | congruence].
Qed.

Lemma loadGeometry_fresh (bytes : list N) (E : World G -> Prop) :
  (forall w, identities_used w /\ no_mesh_in_scene w -> E w) ->
  triple (fun w => identities_used w /\ no_mesh_in_scene w)
    (loadGeometry bytes)
    (fun geometry w =>
       (forall r, In r (disposed w) -> r < THREE.geometry_id geometry) /\
       THREE.geometry_id geometry < next_id w /\ no_mesh_in_scene w) E.
Proof.
  intros HE w Hw. unfold loadGeometry, bind, lift, fresh, ret.
  destruct (STLLoader_parse bytes) as [err | data]; [apply HE, Hw |].
  destruct Hw as [[Hu1 _] Hn]. cbn. split; [exact Hu1 |].
  split; [apply Nat.lt_succ_diag_r | exact Hn].
Qed.

Lemma buildMesh_fresh (geometry : THREE.BufferGeometry G)
  (E : World G -> Prop) :
  triple
    (fun w =>
       (forall r, In r (disposed w) -> r < THREE.geometry_id geometry) /\
       THREE.geometry_id geometry < next_id w /\ no_mesh_in_scene w)
    (buildMesh geometry)
    (fun mesh w =>
       (forall r, In r (disposed w) -> r < next_id w) /\
       no_mesh_in_scene w /\
       forall r, In r (THREE.mesh_resources mesh) ->
         r < next_id w /\ ~ In r (disposed w)) E.
Proof.
  intros w [Hd [Hg Hn]]. unfold buildMesh, bind, fresh, ret. cbn.
  split; [| split; [exact Hn |]].
  - intros r Hr. apply Hd in Hr. lia.
  - intros r [<- | [<- | [<- | [<- | []]]]];
      (split; [lia | intros Hin; apply Hd in Hin; lia]).
Qed.

Lemma addToScene_live (mesh : THREE.Mesh G) (E : World G -> Prop) :
  triple
    (fun w =>
       identities_used w /\ no_mesh_in_scene w /\ meshRef w = Some mesh /\
       forall r, In r (THREE.mesh_resources mesh) -> ~ In r (disposed w))
    (addToScene mesh)
    (fun _ w => identities_used w /\ displayed_mesh_live w) E.
Proof.
  intros w [Hu [Hn [Hm Hr]]]. unfold addToScene.
  destruct (sceneRef w) as [scene |] eqn:Hs.
  - split; [exact Hu |]. intros scene' H'. cbn in H'. injection H' as <-.
    right. exists mesh. split; [exact Hm |].
    split; [rewrite scene_meshes_add, (Hn scene Hs); reflexivity | exact Hr].
  - split; [exact Hu |]. intros scene' H'. congruence.
Qed.

Lemma handleGenerate_body_live (outcome : Api.FetchOutcome) :
  triple (fun w => identities_used w /\ displayed_mesh_live w)
    (handleGenerate_body outcome)
    (fun _ w => identities_used w /\ displayed_mesh_live w)
    (fun w => identities_used w /\ displayed_mesh_live w).
Proof.
  unfold handleGenerate_body.
  eapply triple_bind; [apply triple_receive; auto | intros data].
  eapply triple_bind; [apply triple_lift; auto | intros binary].
  eapply triple_bind
    with (Q := fun _ w => identities_used w /\ displayed_mesh_live w);
    [apply triple_modify; auto | intros []].
  eapply triple_bind
    with (Q := fun _ w => identities_used w /\ displayed_mesh_live w);
    [apply triple_modify; auto | intros []].
  eapply triple_bind; [apply clearPreviousMesh_live | intros []].
  eapply triple_bind.
  { apply loadGeometry_fresh. intros w [Hu Hn]. split; [exact Hu |].
    apply no_mesh_live, Hn. }
  intros geometry.
  eapply triple_bind; [apply buildMesh_fresh | intros mesh].
  eapply triple_bind
    with (Q := fun _ w =>
                 identities_used w /\ no_mesh_in_scene w /\
                 meshRef w = Some mesh /\
                 forall r, In r (THREE.mesh_resources mesh) ->
                   ~ In r (disposed w)).
  { apply triple_modify. intros w [Hd [Hn Hr]].
    split; [split; [exact Hd |] | split; [exact Hn | split; [reflexivity |]]].
    - intros mesh' Hm' r Hin. cbn in Hm'. injection Hm' as <-. apply Hr, Hin.
    - intros r Hin. apply Hr, Hin. }
  intros [].
  eapply triple_bind; [apply addToScene_live | intros []].
  eapply triple_bind
    with (Q := fun _ w => identities_used w /\ displayed_mesh_live w).
  { apply fitCamera_keeps; intros v w Hw; exact Hw. }
  intros []. apply triple_modify. auto.
Qed.

Lemma step_live (e : Event) (w : World G) :
  identities_used w /\ displayed_mesh_live w ->
  identities_used (step e w) /\ displayed_mesh_live (step e w).
Proof.
  intros Hw. destruct e; cbn [step]; try exact Hw;
    try (effect_event; exact Hw);
    try (effect_event;
         (destruct Hw as [[Hu1 Hu2] _]; split; [split |];
          [ intros r Hr; apply Hu1 in Hr; cbn; lia
          | intros mesh Hm r Hr; cbn; specialize (Hu2 mesh Hm r Hr); lia
          | intros scene Hs; left; cbn in Hs; injection Hs as <-;
            reflexivity ])).
  - unfold onKeyDown, handleGenerate_call.
    destruct (_ && _); [destruct (negb _) |]; exact Hw.
  - unfold onClickGenerate, handleGenerate_call.
    destruct (loading w); [| destruct (negb _)]; exact Hw.
  - destruct (inflight w); [exact Hw |].
    unfold handleGenerate_resume.
    apply triple_try
      with (P := fun w => identities_used w /\ displayed_mesh_live w)
           (N := fun w => identities_used w /\ displayed_mesh_live w)
           (E := fun w => identities_used w /\ displayed_mesh_live w);
      auto using handleGenerate_body_live.
  - unfold transformPanel. destruct (meshRef w) eqn:Hm; [| exact Hw].
    unfold updatePosition. cbv zeta. erewrite apply_to_mesh_some by exact Hm.
    apply live_frame with (w := w); try reflexivity; try (cbn; rewrite Hm; reflexivity);
      exact Hw.
  - unfold transformPanel. destruct (meshRef w) eqn:Hm; [| exact Hw].
    unfold updateScale. cbv zeta. erewrite apply_to_mesh_some by exact Hm.
    apply live_frame with (w := w); try reflexivity; try (cbn; rewrite Hm; reflexivity);
      exact Hw.
  - unfold transformPanel. destruct (meshRef w) eqn:Hm; [| exact Hw].
    unfold updateRotation. cbv zeta. erewrite apply_to_mesh_some by exact Hm.
    apply live_frame with (w := w); try reflexivity; try (cbn; rewrite Hm; reflexivity);
      exact Hw.
  - unfold transformPanel. destruct (meshRef w) eqn:Hm; [| exact Hw].
    apply live_frame with (w := w); try reflexivity;
      try (unfold resetTransforms; cbn; rewrite Hm; reflexivity); exact Hw.
Qed.

(** X8.  In every reachable state the mesh the scene displays, if any,
    is the one [meshRef] holds, and none of its four GPU resources
    (geometry, material, and the geometry and material of its wireframe)
    has been disposed: the page never leaves a disposed mesh on
    display. *)
Theorem displayed_mesh_never_disposed (w : World G) :
  reachable w -> displayed_mesh_live w.
Proof.
  intros Hr.
  apply (reachable_invariant
           (fun w => identities_used w /\ displayed_mesh_live w));
    [| apply step_live | exact Hr].
  split; [split |]; [intros r [] | discriminate | intros scene Hs; discriminate].
Qed.

(** *** How the transform handlers compose *)

Ltac open_world w :=
  unfold resetTransforms, updatePosition, updateScale, updateRotation,
    apply_to_mesh;
  destruct w as [? ? ? ? ? ? ? ? ? ? ? ? ? mesh ? ? ? ?];
  destruct mesh as [[? ? ? ?] |]; cbn.

(** X9.  Reset is idempotent, undoes whatever a setter did, and leaves
    the stored transform at the identity and in agreement with the
    mesh. *)
Theorem reset_absorbs (w : World G) (axis : Axis) (value : float) :
  resetTransforms (resetTransforms w) = resetTransforms w /\
  resetTransforms (updatePosition axis value w) = resetTransforms w /\
  resetTransforms (updateScale axis value w) = resetTransforms w /\
  resetTransforms (updateRotation axis value w) = resetTransforms w /\
  identity_transform (resetTransforms w) /\ in_sync (resetTransforms w).
Proof.
  split; [| split; [| split; [| split; [| split]]]];
    try apply resetTransforms_in_sync;
    open_world w; repeat split; reflexivity.
Qed.

(** X10.  On one axis of one vector the last setter call wins; setters of
    different vectors commute; setters of different axes of one vector
    commute. *)
Theorem setters_compose (w : World G) (axis other : Axis) (v u : float) :
  (updatePosition axis u (updatePosition axis v w) = updatePosition axis u w /\
   updateScale axis u (updateScale axis v w) = updateScale axis u w /\
   updateRotation axis u (updateRotation axis v w) = updateRotation axis u w) /\
  (updatePosition axis v (updateScale other u w) =
     updateScale other u (updatePosition axis v w) /\
   updatePosition axis v (updateRotation other u w) =
     updateRotation other u (updatePosition axis v w) /\
   updateScale axis v (updateRotation other u w) =
     updateRotation other u (updateScale axis v w)) /\
  (axis <> other ->
   updatePosition axis v (updatePosition other u w) =
     updatePosition other u (updatePosition axis v w) /\
   updateScale axis v (updateScale other u w) =
     updateScale other u (updateScale axis v w) /\
   updateRotation axis v (updateRotation other u w) =
     updateRotation other u (updateRotation axis v w)).
Proof.
  split; [| split].
  - open_world w; destruct axis; repeat split; reflexivity.
  - open_world w; destruct axis, other; repeat split; reflexivity.
  - intros Hne. open_world w; destruct axis, other;
      try congruence; repeat split; reflexivity.
Qed.

(** *** The number fields *)

Lemma orDefault_number (value fallback : float) :
  is_nan fallback = false -> is_nan (orDefault value fallback) = false.
Proof.
  intros Hf. unfold orDefault.
  destruct (is_zero value); [exact Hf |].
  destruct (is_nan value) eqn:Hn; [exact Hf | exact Hn].
Qed.

Lemma stored_component (w : World G) (axis : Axis) (value : float) :
  component (position (updatePosition axis value w)) axis = value /\
  component (scale (updateScale axis value w)) axis =
    JS.Math_max [0.1%float; value] /\
  component (rotation (updateRotation axis value w)) axis = value.
Proof.
  unfold updatePosition, updateScale, updateRotation, apply_to_mesh. cbn.
  destruct (meshRef w); cbn; auto using with_axis_component.
Qed.

(** X11.  Whatever a number field of the transform panel parses, NaN
    included, no NaN is stored: position and rotation fall back to [0],
    and scale to [1] on a parse that is [0] or NaN, so that typing [0]
    into a scale field stores [1]; the scale stored through the field is
    always at least [0.1]. *)
Theorem number_fields_store_numbers (w : World G) (axis : Axis)
  (parsed : float) :
  is_nan (component (position (onPositionNumber axis parsed w)) axis) = false /\
  is_nan (component (rotation (onRotationNumber axis parsed w)) axis) = false /\
  (0.1 <=? component (scale (onScaleNumber axis parsed w)) axis)%float = true /\
  (is_zero parsed || is_nan parsed = true ->
   component (position (onPositionNumber axis parsed w)) axis = 0%float /\
   component (rotation (onRotationNumber axis parsed w)) axis = 0%float /\
   component (scale (onScaleNumber axis parsed w)) axis = 1%float).
Proof.
  unfold onPositionNumber, onRotationNumber, onScaleNumber.
  destruct (stored_component w axis (orDefault parsed 0)) as [Hp [_ Hr]].
  destruct (stored_component w axis (orDefault parsed 1)) as [_ [Hs _]].
  rewrite Hp, Hr, Hs.
  split; [apply orDefault_number; reflexivity |].
  split; [apply orDefault_number; reflexivity |].
  split; [apply Math_max_at_least, orDefault_number; reflexivity |].
  intros Hf. unfold orDefault. rewrite Hf. repeat split.
Qed.

(** *** The camera *)

Lemma rounded_not_negative (m e : BinNums.Z) (l : location) :
  SFltb (binary_round_aux prec emax false m e l) (S754_zero false) = false.
Proof.
  unfold binary_round_aux.
  destruct (shr_fexp prec emax m e l) as [mrs' e'].
  destruct (shr_fexp prec emax _ e' loc_Exact) as [mrs'' e''].
  destruct (shr_m mrs''); [reflexivity | | reflexivity].
  destruct (Z.leb e'' (emax - prec)); reflexivity.
Qed.

Lemma scaled_abs_not_negative (v : float) :
  (JS.Math_abs v * 1.5 <? 0)%float = false.
Proof.
  unfold JS.Math_abs. rewrite ltb_spec, mul_spec, abs_spec.
  change (Prim2SF 0) with (S754_zero false).
  replace (Prim2SF 1.5) with (S754_finite false 6755399441055744 (-52))
    by (vm_compute; reflexivity).
  destruct (Prim2SF v) as [s | s | | s m e]; try reflexivity.
  unfold SFabs, SF64mul, SFmul. cbn [xorb]. apply rounded_not_negative.
Qed.

(** X12.  Whatever the bounding box, the field of view and whatever
    [Math.tan] returns, the coordinate the camera fit computes is not
    negative (it is NaN or at least zero); the fit sets it on all three
    axes of the camera before it hands the camera to [controls.update()];
    when the scene, the camera or the controls are missing the fit does
    nothing. *)
Theorem camera_never_negative (w : World G) (mesh : THREE.Mesh G) :
  (forall size fov, (cameraDistance size fov <? 0)%float = false) /\
  (forall scene camera controls,
     sceneRef w = Some scene -> cameraRef w = Some camera ->
     controlsRef w = Some controls ->
     let d := cameraDistance (Box3_getSize mesh) (THREE.fov camera) in
     let placed := placeCamera d camera in
     THREE.position (THREE.camera_base placed) = THREE.vec d d d /\
     (d <? 0)%float = false /\
     cameraRef (snd (fitCamera mesh w)) =
       Some (snd (OrbitControls_update controls placed))) /\
  (sceneRef w = None \/ cameraRef w = None \/ controlsRef w = None ->
   snd (fitCamera mesh w) = w).
Proof.
  split; [| split].
  - intros size fov. unfold cameraDistance. apply scaled_abs_not_negative.
  - intros scene camera controls Hs Hc Ho d placed. unfold fitCamera.
    rewrite Hs, Hc, Ho. cbn.
    split; [reflexivity |]. split; [| reflexivity].
    subst d. unfold cameraDistance. apply scaled_abs_not_negative.
  - unfold fitCamera. intros [Hn | [Hn | Hn]]; rewrite Hn;
      [| destruct (sceneRef w) | destruct (sceneRef w); [destruct (cameraRef w) |]];
      reflexivity.
Qed.

(** *** Export *)

Section StlExport.

Variable STLExporter_parse : THREE.Mesh G -> JS.jsstring.

Lemma filter_out_fresh (url : nat) (urls : list nat) :
  filter (fun u => negb (Nat.eqb u url)) (urls ++ [url]) =
  filter (fun u => negb (Nat.eqb u url)) urls.
Proof.
  rewrite filter_app. cbn. rewrite Nat.eqb_refl. cbn. apply app_nil_r.
Qed.

(** X13.  Without a mesh [handleExport] shows the alert
    ['No model to export'] and saves nothing.  With a mesh it saves one
    file, ['model.stl'], holding the exporter's text for the mesh as it is,
    shows no alert, and revokes the URL it created: that URL is not
    among the live ones afterwards, and every other live URL still is.
    The download button, which is rendered only when there is a mesh,
    never leads to the alert. *)
Theorem handleExport_saves_or_alerts (w : World G) (b : Browser) :
  (meshRef w = None ->
   handleExport STLExporter_parse w b = alert (JS.js "No model to export") b) /\
  (forall mesh, meshRef w = Some mesh ->
   let b' := handleExport STLExporter_parse w b in
   alerts b' = alerts b /\
   downloads b' =
     downloads b ++ [(JS.js "model.stl", STLExporter_parse mesh)] /\
   ~ In (next_url b) (objectURLs b') /\
   (forall u, u <> next_url b -> (In u (objectURLs b') <-> In u (objectURLs b)))) /\
  alerts (onClickDownload STLExporter_parse w b) = alerts b.
Proof.
  split; [| split].
  - intros Hm. unfold handleExport. rewrite Hm. reflexivity.
  - intros mesh Hm b'. subst b'. unfold handleExport. rewrite Hm. cbn.
    rewrite filter_out_fresh.
    split; [reflexivity |]. split; [reflexivity |]. split.
    + rewrite filter_In, Nat.eqb_refl. cbn. intros [_ Hf]. discriminate.
    + intros u Hu. rewrite filter_In. split; [intros [Hin _]; exact Hin |].
      intros Hin. split; [exact Hin |].
      destruct (Nat.eqb_spec u (next_url b)); [contradiction | reflexivity].
  - unfold onClickDownload, downloadShown, handleExport.
    destruct (meshRef w); [| rewrite andb_false_r; reflexivity].
    destruct (_ && _); reflexivity.
Qed.

(** X14.  What is exported is the mesh with the transform the setters
    gave it: after a setter call the file holds the exporter's text for
    a mesh whose position, scale or rotation is the vector just stored
    (the rotation in radians). *)
Theorem export_after_setter (w : World G) (b : Browser) (axis : Axis)
  (value : float) (mesh : THREE.Mesh G) :
  meshRef w = Some mesh ->
  (exists mesh',
     meshRef (updatePosition axis value w) = Some mesh' /\
     THREE.position (THREE.base mesh') = position (updatePosition axis value w) /\
     downloads (handleExport STLExporter_parse (updatePosition axis value w) b) =
       downloads b ++ [(JS.js "model.stl", STLExporter_parse mesh')]) /\
  (exists mesh',
     meshRef (updateScale axis value w) = Some mesh' /\
     THREE.scale (THREE.base mesh') = scale (updateScale axis value w) /\
     downloads (handleExport STLExporter_parse (updateScale axis value w) b) =
       downloads b ++ [(JS.js "model.stl", STLExporter_parse mesh')]) /\
  (exists mesh',
     meshRef (updateRotation axis value w) = Some mesh' /\
     THREE.rotation (THREE.base mesh') =
       THREE.vec (radians (THREE.x (rotation (updateRotation axis value w))))
         (radians (THREE.y (rotation (updateRotation axis value w))))
         (radians (THREE.z (rotation (updateRotation axis value w)))) /\
     downloads (handleExport STLExporter_parse (updateRotation axis value w) b) =
       downloads b ++ [(JS.js "model.stl", STLExporter_parse mesh')]).
Proof.
  intros Hm. unfold updatePosition, updateScale, updateRotation. cbv zeta.
  repeat erewrite apply_to_mesh_some by exact Hm.
  unfold handleExport. cbn.
  split; [| split]; eexists; (split; [reflexivity |]);
    (split; [destruct axis; reflexivity | reflexivity]).
Qed.

(** X15.  From the moment a generation starts until one succeeds the
    download button is not rendered: a call with a prompt that is not
    blank hides it at once, and a call that ends in a non-success
    response leaves it hidden although [meshRef] still holds the mesh, so
    that clicking where it was does nothing. *)
Theorem failed_generation_hides_download (w : World G)
  (errorText : JS.jsstring) (b : Browser) :
  JS.trim (prompt w) <> [] ->
  let pending := handleGenerate_call w in
  let w' := handleGenerate (Api.ResponseNotOk errorText) w in
  downloadShown pending = false /\ downloadShown w' = false /\
  meshRef w' = meshRef w /\
  onClickDownload STLExporter_parse w' b = b.
Proof.
  intros Hp pending w'. subst pending w'. unfold handleGenerate.
  rewrite (truthy_nonempty Hp). cbn [negb].
  rewrite handleGenerate_call_sends by exact Hp. rewrite resume_not_ok.
  unfold onClickDownload, downloadShown. cbn. auto.
Qed.

End StlExport.

End MoreProperties.

(** ** Properties of the chat panel *)

Lemma trimStart_head (s : JS.jsstring) (c : N) (r : JS.jsstring) :
  JS.trimStart s = c :: r -> JS.isWhiteSpace c = false.
Proof.
  induction s as [| d s IH]; cbn; [discriminate |].
  destruct (JS.isWhiteSpace d) eqn:Hd; [exact IH |].
  intros Heq. injection Heq as <- _. exact Hd.
Qed.

Lemma trimStart_keep (l : JS.jsstring) (c : N) (t : JS.jsstring) :
  JS.isWhiteSpace c = false ->
  JS.trimStart (l ++ c :: t) = JS.trimStart l ++ c :: t.
Proof.
  intros Hc. induction l as [| d l IH]; cbn.
  - rewrite Hc. reflexivity.
  - destruct (JS.isWhiteSpace d); [exact IH | reflexivity].
Qed.

Lemma trimStart_clean_head (s : JS.jsstring) :
  (forall c r, s = c :: r -> JS.isWhiteSpace c = false) -> JS.trimStart s = s.
Proof.
  destruct s as [| c r]; intros Hs; [reflexivity |].
  cbn. rewrite (Hs c r eq_refl). reflexivity.
Qed.

Lemma trim_clean (s : JS.jsstring) : Chat.clean (JS.trim s).
Proof.
  unfold JS.trim, JS.trimEnd. split.
  - intros c r Heq.
    destruct (JS.trimStart s) as [| d t] eqn:Ht; [discriminate Heq |].
    pose proof (trimStart_head _ Ht) as Hd.
    cbn [rev] in Heq. rewrite trimStart_keep in Heq by exact Hd.
    rewrite rev_app_distr in Heq. cbn in Heq. injection Heq as <- _. exact Hd.
  - intros r c Heq. apply (f_equal (@rev N)) in Heq.
    rewrite rev_involutive, rev_app_distr in Heq. cbn in Heq.
    apply (trimStart_head _ Heq).
Qed.

Lemma clean_trim (s : JS.jsstring) : Chat.clean s -> JS.trim s = s.
Proof.
  intros [Hh Hl]. unfold JS.trim, JS.trimEnd.
  rewrite (@trimStart_clean_head s Hh).
  rewrite trimStart_clean_head; [apply rev_involutive |].
  intros c r Heq. apply (Hl (rev r) c).
  rewrite <- (rev_involutive s), Heq. reflexivity.
Qed.

Lemma trim_idempotent (s : JS.jsstring) : JS.trim (JS.trim s) = JS.trim s.
Proof. apply clean_trim, trim_clean. Qed.

Lemma chat_step_messages (e : Chat.Event) (s : Chat.State) :
  Chat.messages (Chat.step e s) = Chat.messages s \/
  exists now,
    In now (Chat.clock e) /\ JS.trim (Chat.input s) <> [] /\
    Chat.step e s =
      {| Chat.messages :=
           Chat.messages s ++
           [{| Chat.id := Chat.Number_toString now;
               Chat.text := JS.trim (Chat.input s) |}];
         Chat.input := JS.js "" |}.
Proof.
  assert (Hsend : forall now,
             Chat.messages (Chat.handleSend now s) = Chat.messages s \/
             (JS.trim (Chat.input s) <> [] /\
              Chat.handleSend now s =
                {| Chat.messages :=
                     Chat.messages s ++
                     [{| Chat.id := Chat.Number_toString now;
                         Chat.text := JS.trim (Chat.input s) |}];
                   Chat.input := JS.js "" |})).
  { intros now. unfold Chat.handleSend.
    destruct (JS.trim (Chat.input s)) eqn:Ht; cbn; [left; reflexivity |].
    right. split; [discriminate | reflexivity]. }
  destruct e as [value | key shiftKey now | now]; cbn.
  - left. reflexivity.
  - unfold Chat.handleKeyPress. destruct (_ && _); [| left; reflexivity].
    destruct (Hsend now) as [H | [Hp H]]; [left; exact H |].
    right. exists now. auto.
  - destruct (Hsend now) as [H | [Hp H]]; [left; exact H |].
    right. exists now. auto.
Qed.

(** X16.  Whatever the user does in the chat panel, every message of the
    list is non-empty and carries no white space at either end: a blank
    input sends nothing, and what is sent is the trimmed input. *)
Theorem chat_messages_trimmed (events : list Chat.Event) :
  Forall (fun m => Chat.text m <> [] /\ JS.trim (Chat.text m) = Chat.text m)
    (Chat.messages (Chat.run events Chat.initial)).
Proof.
  unfold Chat.run.
  assert (H0 : Forall
                 (fun m => Chat.text m <> [] /\
                           JS.trim (Chat.text m) = Chat.text m)
                 (Chat.messages Chat.initial)) by constructor.
  revert H0. generalize Chat.initial as s.
  induction events as [| e events IH]; intros s Hs; cbn; [exact Hs |].
  apply IH.
  destruct (chat_step_messages e s) as [-> | [now [_ [Hp ->]]]]; [exact Hs |].
  cbn. apply Forall_app. split; [exact Hs |].
  constructor; [| constructor]. cbn. split; [exact Hp | apply trim_idempotent].
Qed.

(** X17.  The message list only grows: a run of events keeps the
    messages there were, in order, and appends at most one message per
    send attempt; so once a message is there the empty-list placeholder
    never shows again. *)
Theorem chat_log_append_only (events : list Chat.Event) (s : Chat.State) :
  (exists added,
     Chat.messages (Chat.run events s) = Chat.messages s ++ added /\
     List.length added <= List.length (Chat.clocks events)) /\
  (Chat.showsPlaceholder s = false ->
   Chat.showsPlaceholder (Chat.run events s) = false).
Proof.
  assert (Hgrow : exists added,
             Chat.messages (Chat.run events s) = Chat.messages s ++ added /\
             List.length added <= List.length (Chat.clocks events)).
  { unfold Chat.run. revert s.
    induction events as [| e events IH]; intros s; cbn.
    - exists []. rewrite app_nil_r. auto.
    - destruct (IH (Chat.step e s)) as [added [Heq Hlen]]. rewrite Heq.
      unfold Chat.clocks in *. cbn. rewrite length_app.
      destruct (chat_step_messages e s) as [-> | [now [Hin [_ ->]]]].
      + exists added. split; [reflexivity | lia].
      + cbn. eexists. rewrite <- app_assoc. split; [reflexivity |].
        cbn. destruct e; cbn in *; try contradiction; lia. }
  split; [exact Hgrow |].
  destruct Hgrow as [added [Heq _]].
  unfold Chat.showsPlaceholder. rewrite Heq, length_app.
  destruct (Chat.messages s); cbn; [discriminate | reflexivity].
Qed.

Lemma js_injective (s t : string) : JS.js s = JS.js t -> s = t.
Proof.
  unfold JS.js. intros Heq.
  apply (f_equal (List.map ascii_of_N)) in Heq.
  rewrite !map_map in Heq.
  rewrite (map_ext _ (fun a => a)) in Heq by apply ascii_N_embedding.
  rewrite (map_ext (fun x => ascii_of_N (N_of_ascii x)) (fun a => a)) in Heq
    by apply ascii_N_embedding.
  rewrite !map_id in Heq.
  rewrite <- (string_of_list_ascii_of_string s),
          <- (string_of_list_ascii_of_string t), Heq.
  reflexivity.
Qed.

Lemma Number_toString_injective (n m : N) :
  Chat.Number_toString n = Chat.Number_toString m -> n = m.
Proof.
  unfold Chat.Number_toString. intros Heq. apply js_injective in Heq.
  apply DecimalN.Unsigned.to_uint_inj.
  pose proof (DecimalString.NilEmpty.usu (N.to_uint n)) as Hn.
  pose proof (DecimalString.NilEmpty.usu (N.to_uint m)) as Hm.
  rewrite Heq in Hn. congruence.
Qed.

Lemma NoDup_snoc {A : Type} (l : list A) (a : A) :
  NoDup l -> ~ In a l -> NoDup (l ++ [a]).
Proof.
  induction l as [| b l IH]; intros Hl Ha; cbn.
  - constructor; [intros [] | constructor].
  - inversion Hl as [| ? ? Hb Hl']; subst. constructor.
    + rewrite in_app_iff. intros [Hin | [<- | []]]; [contradiction |].
      apply Ha. left. reflexivity.
    + apply IH; [exact Hl' |]. intros Hin. apply Ha. right. exact Hin.
Qed.

Lemma chat_ids_stay_unique (events : list Chat.Event) (s : Chat.State) :
  Sorted.StronglySorted N.lt (Chat.clocks events) ->
  (forall m, In m (Chat.messages s) ->
     exists n, Chat.id m = Chat.Number_toString n /\
               Forall (N.lt n) (Chat.clocks events)) ->
  NoDup (List.map Chat.id (Chat.messages s)) ->
  NoDup (List.map Chat.id (Chat.messages (Chat.run events s))).
Proof.
  unfold Chat.run. revert s.
  induction events as [| e events IH]; intros s Hsorted Hold Hnd; cbn;
    [exact Hnd |].
  unfold Chat.clocks in Hsorted, Hold. cbn in Hsorted, Hold.
  assert (Htail : Sorted.StronglySorted N.lt (Chat.clocks events)).
  { destruct e; cbn in Hsorted; try exact Hsorted;
      inversion Hsorted; assumption. }
  assert (Hold' : forall m, In m (Chat.messages s) ->
             exists n, Chat.id m = Chat.Number_toString n /\
                       Forall (N.lt n) (Chat.clocks events)).
  { intros m Hm. destruct (Hold m Hm) as [n [Hid Hall]].
    exists n. split; [exact Hid |].
    apply Forall_app in Hall. apply Hall. }
  apply IH; [exact Htail | |].
  - destruct (chat_step_messages e s) as [-> | [now [Hin [_ ->]]]];
      [exact Hold' |].
    cbn. intros m Hm. apply in_app_iff in Hm.
    destruct Hm as [Hm | [<- | []]]; [apply Hold', Hm |].
    exists now. split; [reflexivity |].
    destruct e; cbn in Hin; try contradiction;
      destruct Hin as [-> | []]; cbn in Hsorted;
      inversion Hsorted; assumption.
  - destruct (chat_step_messages e s) as [-> | [now [Hin [_ ->]]]];
      [exact Hnd |].
    cbn. rewrite map_app. cbn. apply NoDup_snoc; [exact Hnd |].
    intros Hdup. apply in_map_iff in Hdup.
    destruct Hdup as [m [Hid Hm]]. destruct (Hold m Hm) as [n [Hn Hall]].
    rewrite Hn in Hid. apply Number_toString_injective in Hid. subst n.
    apply Forall_app in Hall. destruct Hall as [Hall _].
    rewrite Forall_forall in Hall. specialize (Hall now Hin).
    apply N.lt_irrefl in Hall. exact Hall.
Qed.

(** X18.  When the clock readings of the send attempts of a session are
    strictly increasing, the identifiers of the messages, which are the
    decimal texts of those readings, are pairwise distinct. *)
Theorem chat_ids_unique (events : list Chat.Event) :
  Sorted.StronglySorted N.lt (Chat.clocks events) ->
  NoDup (List.map Chat.id (Chat.messages (Chat.run events Chat.initial))).
Proof.
  intros Hsorted. apply chat_ids_stay_unique; [exact Hsorted | | constructor].
  intros m [].
Qed.

(** ** Properties of the pages behind the login *)

(** X19.  Navigation settles: whatever [useUser] reports, a page that
    redirects sends the visitor to a page that does not redirect.  The
    links to the protected pages that the navigation bar shows lead to
    pages that do not redirect, and the bar offers the login link exactly
    when the landing page shows its login button. *)
Theorem navigation_settles (u : Auth.UseUser) (r : Auth.Route) :
  (forall r', Auth.redirect r u = Some r' ->
     r' <> r /\ Auth.redirect r' u = None) /\
  (In r (Auth.NavBar_links u) -> Auth.redirect r u = None) /\
  (Auth.NavBar_auth u = Auth.Login <->
   Auth.LandingPage_render u = Auth.Hero true) /\
  (Auth.NavBar_auth u = Auth.Logout -> Auth.present u = true).
Proof.
  unfold Auth.redirect, Auth.NavBar_links, Auth.NavBar_auth,
    Auth.LandingPage_render, Auth.LandingPage_effect, Auth.AuthGuard_effect.
  destruct (Auth.isLoading u), (Auth.present u), r; cbn;
    (split; [| split; [| split]]).
  all: try (intros r' Heq;
            first [discriminate Heq
                  | injection Heq as <-; split; [discriminate | reflexivity]]).
  all: try (intros Hin; try reflexivity; try contradiction;
            destruct Hin as [Heq | [Heq | []]]; discriminate Heq).
  all: try (split; intros Heq; try discriminate Heq; reflexivity).
  all: try (intros Heq; try discriminate Heq; reflexivity).
Qed.

(** X20.  [AuthGuard] shows the protected content exactly when loading is
    over and a user is present, and never while it redirects: while
    loading it shows the placeholder and does not redirect; without a user
    it shows nothing and redirects to the landing page. *)
Theorem guard_protects (u : Auth.UseUser) :
  (Auth.AuthGuard_render u = Auth.GuardChildren <->
   Auth.isLoading u = false /\ Auth.present u = true) /\
  (Auth.isLoading u = true ->
   Auth.AuthGuard_render u = Auth.GuardLoading /\
   Auth.AuthGuard_effect u = None) /\
  (Auth.AuthGuard_effect u = Some Auth.Landing <->
   Auth.AuthGuard_render u = Auth.GuardNothing) /\
  (Auth.AuthGuard_effect u = None \/
   Auth.AuthGuard_effect u = Some Auth.Landing).
Proof.
  unfold Auth.AuthGuard_render, Auth.AuthGuard_effect.
  destruct (Auth.isLoading u), (Auth.present u); cbn;
    repeat split; try discriminate; try tauto; auto;
    intros [H1 H2]; discriminate.
Qed.

(** X21.  The greeting of the home page always names someone: the user's
    name when it is there and non-empty, else the email when it is there
    and non-empty, else ['User'], also for a user who is there with
    neither; the name shown is never empty, and the email line is shown
    exactly when the user is there with an email that is non-empty. *)
Theorem greeting_never_empty (u : Auth.UseUser) :
  let name := match Auth.user u with Some x => Auth.name x | None => None end in
  let email := match Auth.user u with Some x => Auth.email x | None => None end in
  (exists shown, Auth.greeting u = Some shown /\ shown <> []) /\
  (forall n, name = Some n -> n <> [] -> Auth.greeting u = Some n) /\
  (name = None \/ name = Some [] ->
   forall e, email = Some e -> e <> [] -> Auth.greeting u = Some e) /\
  (name = None \/ name = Some [] -> email = None \/ email = Some [] ->
   Auth.greeting u = Some (JS.js "User")) /\
  (Auth.emailShown u = true <->
   exists x e, Auth.user u = Some x /\ Auth.email x = Some e /\ e <> []).
Proof.
  unfold Auth.greeting, Auth.emailShown, Auth.or_else.
  destruct (Auth.user u) as [[[[| c n] |] [[| c' e] |]] |]; cbn;
    (split; [eexists; split; [reflexivity | discriminate] |]);
    (split;
     [intros n0 Hn Hne; first [discriminate Hn | injection Hn as <-];
      first [contradiction | reflexivity] |]);
    (split;
     [intros [Hn | Hn] e0 He Hne; try discriminate Hn;
      first [discriminate He | injection He as <-];
      first [contradiction | reflexivity] |]);
    (split;
     [intros [Hn | Hn] [He | He]; try discriminate Hn; try discriminate He;
      reflexivity |]);
    (split;
     [intros H; first [discriminate H | eexists; eexists;
                        split; [reflexivity | split; [reflexivity | discriminate]]]
     |intros [x [e0 [Hx [He Hne]]]]; try discriminate Hx;
      injection Hx as <-; cbn in He;
      first [discriminate He | injection He as <-];
      first [contradiction | reflexivity]]).
Qed.

(** ** The further properties on concrete inputs *)

(** X1, witness: the page after its first generation has settled. *)
Lemma idle_page_is_enabled_witness :
  @reachable _ Double.externals Scenario.generated /\
  inflight Scenario.generated = 0 /\ loading Scenario.generated = false.
Proof.
  pose proof reachable_generated as Hr.
  assert (Hi : inflight Scenario.generated = 0) by (vm_compute; reflexivity).
  split; [exact Hr |]. split; [exact Hi |].
  exact (proj2 (@idle_page_is_enabled _ Double.externals Scenario.generated)
           Hr Hi).
Defined.

(** X2, witness: the refinement request of the session. *)
Lemma requests_well_formed_witness :
  let w := Scenario.run [ClickGenerate] Scenario.refinable in
  @reachable _ Double.externals w /\
  List.length (fetches w) = 2 /\
  Forall well_formed_request (fetches w).
Proof.
  intros w.
  assert (Hr : @reachable _ Double.externals w)
    by (apply reachable_scenario, reachable_refinable).
  split; [exact Hr |]. split; [vm_compute; reflexivity |].
  apply (@requests_well_formed _ Double.externals w Hr).
Defined.

(** X4, witness: the refinement of the session, answered with the
    well-formed payload. *)
Lemma generate_call_ok_witness :
  let data :=
    {| Api.stl_data := Double.emptyStl; Api.openscad_code := JS.js "cube(10);" |} in
  let w' :=
    @handleGenerate _ Double.externals (Api.ResponseOk data) Scenario.refinable in
  JS.trim (prompt Scenario.refinable) <> [] /\
  Double.atob (Api.stl_data data) = inr (repeat 0%N 84) /\
  Double.STLLoader_parse (JS.Uint8Array_from (repeat 0%N 84)) = inr [] /\
  error w' = None /\ loading w' = false /\ prompt w' = JS.js "" /\
  generatedCode w' = JS.js "cube(10);".
Proof.
  intros data w'.
  assert (Hp : JS.trim (prompt Scenario.refinable) <> [])
    by (vm_compute; discriminate).
  assert (Ha : Double.atob (Api.stl_data data) = inr (repeat 0%N 84))
    by (vm_compute; reflexivity).
  assert (Hg : Double.STLLoader_parse (JS.Uint8Array_from (repeat 0%N 84))
               = inr []) by (vm_compute; reflexivity).
  split; [exact Hp |]. split; [exact Ha |]. split; [exact Hg |].
  destruct (@generate_call_ok _ Double.externals Scenario.refinable data
              (repeat 0%N 84) [] Hp Ha Hg)
    as [He [Hl [Hpr [Hc _]]]].
  split; [exact He |]. split; [exact Hl |]. split; [exact Hpr | exact Hc].
Defined.

(** X6, witness: a setter call after a reset. *)
Lemma sync_kept_by_other_events_witness :
  let w := resetTransforms Scenario.generated in
  in_sync w /\ settles_ok (ChangePosition X 5) = false /\
  in_sync (@step _ Double.externals (ChangePosition X 5) w).
Proof.
  intros w.
  assert (Hs : in_sync w) by apply resetTransforms_in_sync.
  split; [exact Hs |]. split; [reflexivity |].
  apply (@sync_kept_by_other_events _ Double.externals (ChangePosition X 5) w Hs).
  reflexivity.
Defined.

(** X7, witness: the first generation of the session. *)
Lemma first_generation_in_sync_witness :
  let data :=
    {| Api.stl_data := Double.emptyStl; Api.openscad_code := JS.js "cube(10);" |} in
  @reachable _ Double.externals Scenario.pending /\
  meshRef Scenario.pending = None /\
  identity_transform Scenario.pending /\
  in_sync (@handleGenerate_resume _ Double.externals (Api.ResponseOk data)
             Scenario.pending).
Proof.
  intros data.
  assert (Hm : meshRef Scenario.pending = None) by (vm_compute; reflexivity).
  assert (Ha : Double.atob (Api.stl_data data) = inr (repeat 0%N 84))
    by (vm_compute; reflexivity).
  assert (Hg : Double.STLLoader_parse (JS.Uint8Array_from (repeat 0%N 84))
               = inr []) by (vm_compute; reflexivity).
  split; [exact reachable_pending |]. split; [exact Hm |].
  apply (@first_generation_in_sync _ Double.externals Scenario.pending data
           (repeat 0%N 84) [] reachable_pending Hm Ha Hg).
Defined.

(** X8, witness: the page after its first generation. *)
Lemma displayed_mesh_never_disposed_witness :
  @reachable _ Double.externals Scenario.generated /\
  displayed_mesh_live Scenario.generated.
Proof.
  split; [exact reachable_generated |].
  apply (@displayed_mesh_never_disposed _ Double.externals Scenario.generated
           reachable_generated).
Defined.

(** X10, witness: two axes that differ. *)
Lemma setters_compose_witness :
  X <> Y /\
  updatePosition X 1 (updatePosition Y 2 Scenario.generated) =
  updatePosition Y 2 (updatePosition X 1 Scenario.generated).
Proof.
  assert (Hne : X <> Y) by discriminate.
  split; [exact Hne |].
  exact (proj1 (proj2 (proj2 (setters_compose Scenario.generated X Y 1 2)) Hne)).
Defined.

(** X13, witness: export with the mesh of the first generation, and
    without a mesh. *)
Lemma handleExport_saves_or_alerts_witness :
  let exporter := fun _ : THREE.Mesh (list THREE.Vector3) => JS.js "solid" in
  let b := {| alerts := []; objectURLs := []; next_url := 0; downloads := [] |} in
  (meshRef Scenario.pending = None /\
   alerts (handleExport exporter Scenario.pending b) =
     [JS.js "No model to export"]) /\
  (meshRef Scenario.generated = Some Scenario.mesh /\
   downloads (handleExport exporter Scenario.generated b) =
     [(JS.js "model.stl", JS.js "solid")]).
Proof.
  intros exporter b. split.
  - assert (Hm : meshRef Scenario.pending = None) by (vm_compute; reflexivity).
    split; [exact Hm |].
    rewrite (proj1 (handleExport_saves_or_alerts exporter Scenario.pending b) Hm).
    reflexivity.
  - assert (Hm : meshRef Scenario.generated = Some Scenario.mesh)
      by (vm_compute; reflexivity).
    split; [exact Hm |].
    destruct (proj1 (proj2 (handleExport_saves_or_alerts exporter
                              Scenario.generated b)) Scenario.mesh Hm)
      as [_ [Hd _]].
    exact Hd.
Defined.

(** X14, witness: export after moving the mesh of the first
    generation. *)
Lemma export_after_setter_witness :
  let exporter := fun _ : THREE.Mesh (list THREE.Vector3) => JS.js "solid" in
  let b := {| alerts := []; objectURLs := []; next_url := 0; downloads := [] |} in
  meshRef Scenario.generated = Some Scenario.mesh /\
  exists mesh',
    meshRef (updatePosition X 5 Scenario.generated) = Some mesh' /\
    THREE.position (THREE.base mesh') = THREE.vec 5 0 0.
Proof.
  intros exporter b.
  assert (Hm : meshRef Scenario.generated = Some Scenario.mesh)
    by (vm_compute; reflexivity).
  split; [exact Hm |].
  destruct (proj1 (@export_after_setter _ exporter Scenario.generated b X
                     5%float Scenario.mesh Hm))
    as [mesh' [Hm' [Hp _]]].
  exists mesh'. split; [exact Hm' |]. rewrite Hp. vm_compute. reflexivity.
Defined.

(** X15, witness: HTTP 500 on the refinement of the session. *)
Lemma failed_generation_hides_download_witness :
  let exporter := fun _ : THREE.Mesh (list THREE.Vector3) => JS.js "solid" in
  let w' :=
    @handleGenerate _ Double.externals Scenario.badPrompt Scenario.refinable in
  JS.trim (prompt Scenario.refinable) <> [] /\
  downloadShown Scenario.refinable = true /\
  downloadShown w' = false /\ meshRef w' = Some Scenario.mesh.
Proof.
  intros exporter w'.
  assert (Hp : JS.trim (prompt Scenario.refinable) <> [])
    by (vm_compute; discriminate).
  split; [exact Hp |]. split; [vm_compute; reflexivity |].
  destruct (@failed_generation_hides_download _ Double.externals exporter
              Scenario.refinable (JS.js "bad prompt")
              {| alerts := []; objectURLs := []; next_url := 0; downloads := [] |}
              Hp)
    as [_ [Hd [Hm _]]].
  split; [exact Hd |]. subst w'. unfold Scenario.badPrompt. rewrite Hm.
  vm_compute. reflexivity.
Defined.

(** X18, witness: two messages sent a millisecond apart. *)
Lemma chat_ids_unique_witness :
  let events :=
    [Chat.ChangeInput (JS.js " hi "); Chat.ClickSend 1700000000000;
     Chat.ChangeInput (JS.js "there");
     Chat.KeyPress (JS.js "Enter") false 1700000000001] in
  Sorted.StronglySorted N.lt (Chat.clocks events) /\
  List.map Chat.text (Chat.messages (Chat.run events Chat.initial)) =
    [JS.js "hi"; JS.js "there"] /\
  NoDup (List.map Chat.id (Chat.messages (Chat.run events Chat.initial))).
Proof.
  intros events.
  assert (Hs : Sorted.StronglySorted N.lt (Chat.clocks events)).
  { repeat constructor. }
  split; [exact Hs |]. split; [vm_compute; reflexivity |].
  apply (chat_ids_unique events Hs).
Defined.
